(** * Sensor-Watch: alarm face and timer face

    A shallow embedding of
      movement/watch_faces/complication/alarm_face.c
      movement/watch_faces/complication/timer_face.c
    C integers are modelled as [Z]; a store that can overflow its field
    writes the wrap-around out.  Calls into the watch library and into
    movement append to a log of calls; values read from the hardware
    (real-time clock, pins, settings) are inputs of the handlers. *)

From Stdlib Require Import ZArith List Bool Lia.
From Stdlib Require Ascii String.
Import ListNotations.
Import Ascii.AsciiSyntax String.StringSyntax.
Delimit Scope char_scope with char.
Delimit Scope string_scope with string.
Open Scope Z_scope.

(** ** C arithmetic *)

Module C.

(** Store into an unsigned object of [w] bits. *)
Definition wrap (w : nat) (x : Z) : Z := x mod 2 ^ Z.of_nat w.

Definition uint8 (x : Z) : Z := wrap 8 x.
Definition uint16 (x : Z) : Z := wrap 16 x.
Definition uint32 (x : Z) : Z := wrap 32 x.

(** Store into an [int8_t]. *)
Definition int8 (x : Z) : Z := (x + 128) mod 256 - 128.

(** A [uint32_t] passed where an [int] is taken. *)
Definition int32 (x : Z) : Z := (x + 2 ^ 31) mod 2 ^ 32 - 2 ^ 31.

End C.

(** ** Text written by [sprintf] *)

Module Text.

(** The character of a decimal digit. *)
Definition digit (d : Z) : Ascii.ascii :=
  Ascii.ascii_of_nat (48 + Z.to_nat d).

(** The decimal digits of a number that is not negative, the leading one
    first; [fuel] bounds their number. *)
Fixpoint decimal (fuel : nat) (n : Z) : String.string :=
  match fuel with
  | O => String.EmptyString
  | S fuel' =>
      if n <? 10 then String.String (digit n) String.EmptyString
      else String.append (decimal fuel' (Z.quot n 10))
             (String.String (digit (Z.rem n 10)) String.EmptyString)
  end.

(** [%d] and [%u] of an argument that is not negative: an [int] has at
    most ten digits. *)
Definition print (n : Z) : String.string := decimal 10 n.

Fixpoint fill (k : nat) (c : Ascii.ascii) : String.string :=
  match k with
  | O => String.EmptyString
  | S k' => String.String c (fill k' c)
  end.

(** A conversion with a minimum field width pads on the left. *)
Definition pad (width : nat) (c : Ascii.ascii) (s : String.string)
  : String.string :=
  String.append (fill (width - String.length s) c) s.

(** [%2d] and [%2u] *)
Definition print2 (n : Z) : String.string := pad 2 " "%char (print n).

(** [%02d] and [%02u] *)
Definition print02 (n : Z) : String.string := pad 2 "0"%char (print n).

(** [buf[k] = c] on the text of [buf]; a store past the end of the text is
    not seen in it. *)
Fixpoint set_char (k : nat) (c : Ascii.ascii) (s : String.string)
  : String.string :=
  match s with
  | String.EmptyString => String.EmptyString
  | String.String a s' =>
      match k with
      | O => String.String c s'
      | S k' => String.String a (set_char k' c s')
      end
  end.

(** [buf[k] = ' '] *)
Definition blank (k : Z) (s : String.string) : String.string :=
  set_char (Z.to_nat k) " "%char s.

End Text.

(** ** The watch library and movement, as seen from a face *)

Module Host.

(** Modelled from the spec: watch.h is missing.  The notes are those the
    two faces name. *)
Inductive BuzzerNote : Type :=
| BUZZER_NOTE_B6
| BUZZER_NOTE_C7
| BUZZER_NOTE_C8
| BUZZER_NOTE_A8
| BUZZER_NOTE_REST.

(** Modelled from the spec: watch.h is missing.  The indicator lamps of
    the display sink: signal, bell, PM, 24h and lap. *)
Inductive WatchIndicatorSegment : Type :=
| WATCH_INDICATOR_SIGNAL
| WATCH_INDICATOR_BELL
| WATCH_INDICATOR_PM
| WATCH_INDICATOR_24H
| WATCH_INDICATOR_LAP.

(** The sound sequences of timer_face.c. *)
Inductive sound_seq : Type :=
| _sound_seq_beep
| _sound_seq_start.

(** Modelled from the spec: movement.h is missing.  The events movement
    delivers one at a time: activation, tick, background task, timeout, and
    for each of the three buttons down, up, long press and long press
    release. *)
Inductive movement_event_type_t : Type :=
| EVENT_NONE
| EVENT_ACTIVATE
| EVENT_TICK
| EVENT_LOW_ENERGY_UPDATE
| EVENT_BACKGROUND_TASK
| EVENT_TIMEOUT
| EVENT_LIGHT_BUTTON_DOWN
| EVENT_LIGHT_BUTTON_UP
| EVENT_LIGHT_LONG_PRESS
| EVENT_LIGHT_LONG_UP
| EVENT_MODE_BUTTON_DOWN
| EVENT_MODE_BUTTON_UP
| EVENT_MODE_LONG_PRESS
| EVENT_MODE_LONG_UP
| EVENT_ALARM_BUTTON_DOWN
| EVENT_ALARM_BUTTON_UP
| EVENT_ALARM_LONG_PRESS
| EVENT_ALARM_LONG_UP.

Record movement_event_t : Type := {
  event_type : movement_event_type_t;
  subsecond : Z
}.

(** One constructor per library call a face makes.
    [watch_buzzer_play_sequence] records whether
    [_signal_callback] was registered as its completion callback;
    [movement_schedule_background_task_for_face] records the target
    timestamp the date-time argument was converted from. *)
Inductive call : Type :=
| watch_set_indicator (i : WatchIndicatorSegment)
| watch_clear_indicator (i : WatchIndicatorSegment)
| watch_set_colon
| watch_clear_colon
| watch_display_string (string : String.string) (position : Z)
| watch_set_led_off
| watch_enable_buzzer
| watch_disable_buzzer
| watch_buzzer_play_note (note : BuzzerNote) (duration_ms : Z)
| watch_buzzer_play_sequence (s : sound_seq) (with_callback : bool)
| delay_ms (ms : Z)
| movement_request_tick_frequency (freq : Z)
| movement_illuminate_led
| movement_move_to_face (face : Z)
| movement_play_alarm_beeps (rounds : Z) (note : BuzzerNote)
| movement_schedule_background_task_for_face (face : Z) (target_ts : Z)
| movement_cancel_background_task_for_face (face : Z)
| movement_cancel_background_task
| movement_default_loop_handler (event : movement_event_t).

(** A procedure over a state [S]: it returns a value, the new state and the
    calls it made, in order. *)
Definition proc (S A : Type) : Type := S -> A * S * list call.

Definition ret {S A} (a : A) : proc S A := fun s => (a, s, []).

Definition bind {S A B} (c : proc S A) (k : A -> proc S B) : proc S B :=
  fun s =>
    let '(a, s1, l1) := c s in
    let '(b, s2, l2) := k a s1 in
    (b, s2, l1 ++ l2).

Definition get {S} : proc S S := fun s => (s, s, []).
Definition modify {S} (f : S -> S) : proc S unit := fun s => (tt, f s, []).
Definition do_call {S} (c : call) : proc S unit := fun s => (tt, s, [c]).
Definition skip {S} : proc S unit := ret tt.

Definition result_of {S A} (r : A * S * list call) : A := fst (fst r).
Definition state_of {S A} (r : A * S * list call) : S := snd (fst r).
Definition calls_of {S A} (r : A * S * list call) : list call := snd r.

End Host.

Import Host.

Declare Scope proc_scope.
Delimit Scope proc_scope with proc.
Notation "x <- c ;; k" := (bind c (fun x => k))
  (at level 61, c at next level, right associativity) : proc_scope.
Notation "c ;; k" := (bind c (fun _ => k))
  (at level 61, right associativity) : proc_scope.

(** ** The real-time clock *)

Module RTC.

(** Modelled from the spec: watch_rtc.h is missing.  [watch_date_time.unit]
    has the fields alarm_face.c reads; they are unsigned bit-fields.  The
    year counts from 2020, so that [year += 20] in [_get_weekday_idx] is the
    year of the century, the fixed epoch offset of the spec's weekdayIndex. *)
Record watch_date_time : Type := {
  second : Z;
  minute : Z;
  hour : Z;
  day : Z;
  month : Z;
  year : Z
}.

Definition WATCH_RTC_REFERENCE_YEAR : Z := 2020.

(** The fields are unsigned. *)
Definition wf_date_time (t : watch_date_time) : Prop :=
  0 <= second t /\ 0 <= minute t /\ 0 <= hour t /\
  0 <= day t /\ 0 <= month t /\ 0 <= year t.

End RTC.

(** ** alarm_face.c *)

Module Alarm.

Import C.
Local Open Scope proc_scope.

(** Modelled from the spec: alarm_face.h is missing.  The day is one of 10
    values, as many as [_dow_strings] has entries. *)
Definition ALARM_DAY_STATES : Z := 10.

(** Modelled from the spec: alarm_face.h is missing.  The seven weekdays
    are followed by EveryDay, Workdays and Weekend, in the order of
    [_dow_strings]: MO .. SU, then AL, MF, WN. *)
Definition ALARM_DAY_EACH_DAY : Z := 7.

(** Modelled from the spec: alarm_face.h is missing; see
    [ALARM_DAY_EACH_DAY]. *)
Definition ALARM_DAY_WORKDAY : Z := 8.

(** Modelled from the spec: alarm_face.h is missing; see
    [ALARM_DAY_EACH_DAY]. *)
Definition ALARM_DAY_WEEKEND : Z := 9.

(** Modelled from the spec: alarm_face.h is missing.  The beep rounds run
    from 0 to 10, as many values as [_beeps_strings] has entries. *)
Definition ALARM_MAX_BEEP_ROUNDS : Z := 11.

(** Modelled from the spec: alarm_face.h is missing.  The settings cursor
    runs from 0 to 4, as many positions as [_blink_idx] has entries. *)
Definition ALARM_SETTING_STATES : Z := 5.

(** [alarm_setting_idx_t] *)
Definition alarm_setting_idx_day : Z := 0.
Definition alarm_setting_idx_hour : Z := 1.
Definition alarm_setting_idx_minute : Z := 2.
Definition alarm_setting_idx_pitch : Z := 3.
Definition alarm_setting_idx_beeps : Z := 4.

(** Modelled from the spec: alarm_face.h is missing.  The AlarmConfig of
    the spec, with the field names of alarm_face.c. *)
Record alarm_setting_t : Type := {
  day : Z;
  hour : Z;
  minute : Z;
  beeps : Z;
  pitch : Z;
  enabled : bool
}.

(** Modelled from the spec: alarm_face.h is missing.  The AlarmRuntime of
    the spec, with the field names of alarm_face.c; [alarm_handled_minute]
    is signed, for its sentinel -1. *)
Record alarm_state_t : Type := {
  alarm : alarm_setting_t;
  setting_state : Z;
  alarm_handled_minute : Z;
  alarm_quick_ticks : bool;
  is_setting : bool
}.

(** What a handler of the face can change: its context, the file-level
    [_wait_ticks], and [settings->bit.alarm_enabled]. *)
Record world : Type := {
  state : alarm_state_t;
  _wait_ticks : Z;
  settings_alarm_enabled : bool
}.

(** What a handler reads from outside: the real-time clock, the buzzer
    state and [settings->bit.clock_mode_24h]. *)
Record inputs : Type := {
  watch_rtc_get_date_time : RTC.watch_date_time;
  watch_is_buzzer_or_led_enabled : bool;
  clock_mode_24h : bool
}.

Definition set_day (v : Z) (a : alarm_setting_t) : alarm_setting_t :=
  {| day := v; hour := hour a; minute := minute a; beeps := beeps a;
     pitch := pitch a; enabled := enabled a |}.
Definition set_hour (v : Z) (a : alarm_setting_t) : alarm_setting_t :=
  {| day := day a; hour := v; minute := minute a; beeps := beeps a;
     pitch := pitch a; enabled := enabled a |}.
Definition set_minute (v : Z) (a : alarm_setting_t) : alarm_setting_t :=
  {| day := day a; hour := hour a; minute := v; beeps := beeps a;
     pitch := pitch a; enabled := enabled a |}.
Definition set_beeps (v : Z) (a : alarm_setting_t) : alarm_setting_t :=
  {| day := day a; hour := hour a; minute := minute a; beeps := v;
     pitch := pitch a; enabled := enabled a |}.
Definition set_pitch (v : Z) (a : alarm_setting_t) : alarm_setting_t :=
  {| day := day a; hour := hour a; minute := minute a; beeps := beeps a;
     pitch := v; enabled := enabled a |}.
Definition set_enabled (v : bool) (a : alarm_setting_t) : alarm_setting_t :=
  {| day := day a; hour := hour a; minute := minute a; beeps := beeps a;
     pitch := pitch a; enabled := v |}.

Definition upd_alarm (f : alarm_setting_t -> alarm_setting_t)
  (s : alarm_state_t) : alarm_state_t :=
  {| alarm := f (alarm s); setting_state := setting_state s;
     alarm_handled_minute := alarm_handled_minute s;
     alarm_quick_ticks := alarm_quick_ticks s; is_setting := is_setting s |}.
Definition set_setting_state (v : Z) (s : alarm_state_t) : alarm_state_t :=
  {| alarm := alarm s; setting_state := v;
     alarm_handled_minute := alarm_handled_minute s;
     alarm_quick_ticks := alarm_quick_ticks s; is_setting := is_setting s |}.
Definition set_alarm_handled_minute (v : Z) (s : alarm_state_t)
  : alarm_state_t :=
  {| alarm := alarm s; setting_state := setting_state s;
     alarm_handled_minute := v;
     alarm_quick_ticks := alarm_quick_ticks s; is_setting := is_setting s |}.
Definition set_alarm_quick_ticks (v : bool) (s : alarm_state_t)
  : alarm_state_t :=
  {| alarm := alarm s; setting_state := setting_state s;
     alarm_handled_minute := alarm_handled_minute s;
     alarm_quick_ticks := v; is_setting := is_setting s |}.
Definition set_is_setting (v : bool) (s : alarm_state_t) : alarm_state_t :=
  {| alarm := alarm s; setting_state := setting_state s;
     alarm_handled_minute := alarm_handled_minute s;
     alarm_quick_ticks := alarm_quick_ticks s; is_setting := v |}.

Definition upd_state (f : alarm_state_t -> alarm_state_t) (w : world)
  : world :=
  {| state := f (state w); _wait_ticks := _wait_ticks w;
     settings_alarm_enabled := settings_alarm_enabled w |}.
Definition set_wait_ticks (v : Z) (w : world) : world :=
  {| state := state w; _wait_ticks := v;
     settings_alarm_enabled := settings_alarm_enabled w |}.
Definition set_settings_alarm_enabled (v : bool) (w : world) : world :=
  {| state := state w; _wait_ticks := _wait_ticks w;
     settings_alarm_enabled := v |}.

(** [_buzzer_notes[pitch_idx]].  The array has three entries and the pitch
    is only ever stored modulo 3; an index past the end has no defined
    value in C and yields the rest note here. *)
Definition _buzzer_notes (pitch_idx : Z) : BuzzerNote :=
  nth (Z.to_nat pitch_idx)
      [BUZZER_NOTE_B6; BUZZER_NOTE_C8; BUZZER_NOTE_A8] BUZZER_NOTE_REST.

Section Layout.

(** watch_rtc.h is not part of the sources at hand: the widths of the
    [year] and [month] bit-fields of [watch_date_time] are parameters. *)
Variables year_bits month_bits : nat.

Definition _get_weekday_idx (date_time : RTC.watch_date_time) : Z :=
  let year := wrap year_bits (RTC.year date_time + 20) in
  let '(month, year) :=
    if RTC.month date_time <=? 2
    then (wrap month_bits (RTC.month date_time + 12),
          wrap year_bits (year - 1))
    else (RTC.month date_time, year) in
  uint8 (Z.rem (RTC.day date_time + Z.quot (13 * (month + 1)) 5 + year
                + Z.quot year 4 + 525 - 2) 7).

Definition _alarm_set_signal : proc world unit :=
  w <- get ;;
  if enabled (alarm (state w))
  then do_call (watch_set_indicator WATCH_INDICATOR_SIGNAL)
  else do_call (watch_clear_indicator WATCH_INDICATOR_SIGNAL).

(** [_dow_strings[day]], [_beeps_strings[beeps]], [_blink_idx[k]] and
    [_blink_idx2[k]].  An index past the end of a table has no defined
    value in C; it yields blanks and the position 0 here. *)
Definition _dow_strings (day : Z) : String.string :=
  nth (Z.to_nat day)
      ["MO"; "TU"; "WE"; "TH"; "FR"; "SA"; "SU"; "AL"; "MF"; "WN"]%string
      "  "%string.

Definition _beeps_strings (beeps : Z) : String.string :=
  nth (Z.to_nat beeps)
      ["o"; "1"; "2"; "3"; "4"; "5"; "6"; "7"; "8"; "9"; "L"]%string
      " "%string.

Definition _blink_idx (k : Z) : Z := nth (Z.to_nat k) [0; 4; 6; 2; 3] 0.
Definition _blink_idx2 (k : Z) : Z := nth (Z.to_nat k) [1; 5; 7; 2; 3] 0.

(** The hour [_alarm_face_draw] prints: on a 12 hour display the hours
    from noon on are taken modulo 12, and 0 is printed as 12. *)
Definition display_hour (i : inputs) (st : alarm_state_t) : Z :=
  let h := uint8 (hour (alarm st)) in
  if negb (clock_mode_24h i) then
    let h := if h >=? 12 then uint8 (Z.rem h 12) else h in
    if h =? 0 then 12 else h
  else h.

(** [sprintf(buf, "%c%c%c%c%2d%02d  ", ...)]: the two letters of the day,
    the character 33, the letter of the beep rounds, the hour and the
    minute. *)
Definition sprintf_alarm (day beeps h minute : Z) : String.string :=
  String.append (_dow_strings day)
    (String.String "!"%char
       (String.append (_beeps_strings beeps)
          (String.append (Text.print2 h)
             (String.append (Text.print02 minute) "  "%string)))).

(** The text [_alarm_face_draw] hands to [watch_display_string]: in the
    settings, on an odd subsecond and without fast cycling, the field under
    the cursor is blanked. *)
Definition _alarm_face_draw_buf (i : inputs) (subsecond : Z)
  (st : alarm_state_t) : String.string :=
  let a := alarm st in
  let buf := sprintf_alarm (day a) (beeps a) (display_hour i st) (minute a) in
  if is_setting st && negb (Z.rem subsecond 2 =? 0)
     && negb (alarm_quick_ticks st)
  then Text.blank (_blink_idx (setting_state st))
         (Text.blank (_blink_idx2 (setting_state st)) buf)
  else buf.

Arguments display_hour : simpl never.
Arguments sprintf_alarm : simpl never.
Arguments _alarm_face_draw_buf : simpl never.

(** The tests of the hour that choose the indicators are those of
    [display_hour]. *)
Definition _alarm_face_draw (i : inputs) (subsecond : Z) : proc world unit :=
  w <- get ;;
  let h := hour (alarm (state w)) in
  (if negb (clock_mode_24h i)
   then (if h >=? 12
         then do_call (watch_set_indicator WATCH_INDICATOR_PM)
         else do_call (watch_clear_indicator WATCH_INDICATOR_PM))
   else do_call (watch_set_indicator WATCH_INDICATOR_24H)) ;;
  do_call (watch_display_string
             (_alarm_face_draw_buf i subsecond (state w)) 0) ;;
  _alarm_set_signal.

Definition _alarm_initiate_setting (i : inputs) (subsecond : Z)
  : proc world unit :=
  modify (upd_state (set_is_setting true)) ;;
  modify (upd_state (set_setting_state 0)) ;;
  do_call (movement_request_tick_frequency 4) ;;
  _alarm_face_draw i subsecond.

Definition _alarm_resume_setting (i : inputs) (subsecond : Z)
  : proc world unit :=
  modify (upd_state (set_is_setting false)) ;;
  do_call (movement_request_tick_frequency 1) ;;
  _alarm_face_draw i subsecond.

Definition _alarm_update_alarm_enabled (i : inputs) : proc world unit :=
  w <- get ;;
  let a := alarm (state w) in
  let now := watch_rtc_get_date_time i in
  let weekday_idx := _get_weekday_idx now in
  let now_minutes_of_day := uint16 (RTC.hour now * 60 + RTC.minute now) in
  let alarm_minutes_of_day := uint16 (hour a * 60 + minute a) in
  let active_alarms :=
    if enabled a then
      if day a =? ALARM_DAY_EACH_DAY then true
      else
        ((day a =? weekday_idx)
           && (alarm_minutes_of_day >=? now_minutes_of_day))
        || ((Z.rem (weekday_idx + 1) 7 =? day a)
              && (alarm_minutes_of_day <=? now_minutes_of_day))
        || ((day a =? ALARM_DAY_WORKDAY)
              && ((weekday_idx <? 4)
                  || ((weekday_idx =? 4)
                        && (alarm_minutes_of_day >=? now_minutes_of_day))
                  || ((weekday_idx =? 6)
                        && (alarm_minutes_of_day <=? now_minutes_of_day))))
        || ((day a =? ALARM_DAY_WEEKEND)
              && ((weekday_idx =? 5)
                  || ((weekday_idx =? 6)
                        && (alarm_minutes_of_day >=? now_minutes_of_day))
                  || ((weekday_idx =? 4)
                        && (alarm_minutes_of_day <=? now_minutes_of_day))))
    else false in
  modify (set_settings_alarm_enabled active_alarms).

Definition _alarm_play_short_beep (pitch_idx : Z) : proc world unit :=
  do_call (watch_buzzer_play_note (_buzzer_notes pitch_idx) 50) ;;
  do_call (watch_buzzer_play_note BUZZER_NOTE_REST 50) ;;
  do_call (watch_buzzer_play_note (_buzzer_notes pitch_idx) 70).

Definition _alarm_indicate_beep : proc world unit :=
  w <- get ;;
  let a := alarm (state w) in
  if beeps a =? 0
  then _alarm_play_short_beep (pitch a)
  else do_call (movement_play_alarm_beeps 1 (_buzzer_notes (pitch a))).

Definition _abort_quick_ticks : proc world unit :=
  w <- get ;;
  if alarm_quick_ticks (state w)
  then modify (upd_state (set_alarm_quick_ticks false)) ;;
       do_call (movement_request_tick_frequency 4)
  else skip.

(** The context [alarm_face_setup] allocates on its first call. *)
Definition alarm_face_setup (settings_bit_alarm_enabled : bool) : world :=
  {| state :=
       {| alarm := {| day := ALARM_DAY_EACH_DAY; hour := 0; minute := 0;
                      beeps := 5; pitch := 1; enabled := false |};
          setting_state := 0;
          alarm_handled_minute := -1;
          alarm_quick_ticks := false;
          is_setting := false |};
     _wait_ticks := -1;
     settings_alarm_enabled := settings_bit_alarm_enabled |}.

Definition alarm_face_activate : proc world unit :=
  do_call watch_set_colon.

Definition alarm_face_resign (i : inputs) : proc world unit :=
  modify (upd_state (set_is_setting false)) ;;
  _alarm_update_alarm_enabled i ;;
  do_call watch_set_led_off ;;
  modify (upd_state (set_alarm_quick_ticks false)) ;;
  modify (set_wait_ticks (-1)) ;;
  do_call (movement_request_tick_frequency 1).

(** [alarm_handled_minute] holds a minute of the hour or the sentinel -1. *)
Definition alarm_face_wants_background_task (i : inputs) : proc world bool :=
  w <- get ;;
  let now := watch_rtc_get_date_time i in
  if alarm_handled_minute (state w) =? RTC.minute now then ret false
  else
    modify (upd_state (set_alarm_handled_minute (RTC.minute now))) ;;
    let a := alarm (state w) in
    let fire :=
      if enabled a then
        if minute a =? RTC.minute now then
          if hour a =? RTC.hour now then
            if day a =? ALARM_DAY_EACH_DAY then true
            else
              let weekday_idx := _get_weekday_idx now in
              if day a =? weekday_idx then true
              else if (day a =? ALARM_DAY_WORKDAY) && (weekday_idx <? 5)
              then true
              else if (day a =? ALARM_DAY_WEEKEND) && (weekday_idx >=? 5)
              then true
              else false
          else false
        else false
      else false in
    if fire then ret true
    else
      modify (upd_state (set_alarm_handled_minute (-1))) ;;
      (if Z.rem (RTC.minute now) 12 =? 0
       then _alarm_update_alarm_enabled i else skip) ;;
      ret false.

End Layout.

(** Field updates of the handlers.  Every value stored is the remainder of
    a division by at most 60, or a cursor of at most 5, and fits its
    bit-field. *)
Definition incr_day (a : alarm_setting_t) : alarm_setting_t :=
  set_day (Z.rem (day a + 1) ALARM_DAY_STATES) a.
Definition incr_hour (a : alarm_setting_t) : alarm_setting_t :=
  set_hour (Z.rem (hour a + 1) 24) a.
Definition incr_minute (a : alarm_setting_t) : alarm_setting_t :=
  set_minute (Z.rem (minute a + 1) 60) a.
Definition incr_pitch (a : alarm_setting_t) : alarm_setting_t :=
  set_pitch (Z.rem (pitch a + 1) 3) a.
Definition incr_beeps (a : alarm_setting_t) : alarm_setting_t :=
  set_beeps (Z.rem (beeps a + 1) ALARM_MAX_BEEP_ROUNDS) a.
Definition toggle_enabled (a : alarm_setting_t) : alarm_setting_t :=
  set_enabled (negb (enabled a)) a.

Definition alarm_face_loop (event : movement_event_t) (i : inputs)
  : proc world bool :=
  let draw := _alarm_face_draw i (subsecond event) in
  match event_type event with
  | EVENT_TICK =>
      w <- get ;;
      if alarm_quick_ticks (state w) then
        (if setting_state (state w) =? alarm_setting_idx_hour
         then modify (upd_state (upd_alarm incr_hour))
         else if setting_state (state w) =? alarm_setting_idx_minute
         then modify (upd_state (upd_alarm incr_minute))
         else _abort_quick_ticks) ;;
        draw
      else if negb (is_setting (state w)) then
        (if _wait_ticks w >=? 0
         then modify (set_wait_ticks (int8 (_wait_ticks w + 1)))
         else skip) ;;
        w <- get ;;
        if _wait_ticks w =? 2 then
          modify (set_wait_ticks (-1)) ;;
          modify (upd_state (upd_alarm toggle_enabled)) ;;
          _alarm_set_signal ;;
          do_call (delay_ms 275) ;;
          draw
        else skip
      else draw
  | EVENT_ACTIVATE => draw
  | EVENT_LIGHT_BUTTON_UP =>
      w <- get ;;
      if negb (is_setting (state w)) then do_call movement_illuminate_led
      else
        modify (upd_state (set_setting_state (setting_state (state w) + 1))) ;;
        w <- get ;;
        if setting_state (state w) >=? ALARM_SETTING_STATES
        then _alarm_resume_setting i (subsecond event)
        else skip
  | EVENT_LIGHT_LONG_PRESS =>
      w <- get ;;
      if is_setting (state w)
      then _alarm_resume_setting i (subsecond event)
      else _alarm_initiate_setting i (subsecond event)
  | EVENT_ALARM_BUTTON_UP =>
      w <- get ;;
      (if negb (is_setting (state w)) then modify (set_wait_ticks (-1))
       else
         let c := setting_state (state w) in
         if c =? alarm_setting_idx_day
         then modify (upd_state (upd_alarm incr_day))
         else if c =? alarm_setting_idx_hour
         then _abort_quick_ticks ;; modify (upd_state (upd_alarm incr_hour))
         else if c =? alarm_setting_idx_minute
         then _abort_quick_ticks ;; modify (upd_state (upd_alarm incr_minute))
         else if c =? alarm_setting_idx_pitch
         then modify (upd_state (upd_alarm incr_pitch)) ;;
              _alarm_indicate_beep
         else if c =? alarm_setting_idx_beeps
         then modify (upd_state (upd_alarm incr_beeps)) ;;
              w <- get ;;
              if beeps (alarm (state w)) <=? 1
              then _alarm_indicate_beep else skip
         else skip) ;;
      draw
  | EVENT_ALARM_LONG_PRESS =>
      w <- get ;;
      (if negb (is_setting (state w)) then
         modify (upd_state (upd_alarm toggle_enabled)) ;;
         modify (set_wait_ticks 0)
       else
         let c := setting_state (state w) in
         if (c =? alarm_setting_idx_minute) || (c =? alarm_setting_idx_hour)
         then do_call (movement_request_tick_frequency 8) ;;
              modify (upd_state (set_alarm_quick_ticks true))
         else skip) ;;
      draw
  | EVENT_ALARM_LONG_UP =>
      w <- get ;;
      if is_setting (state w) then
        if (setting_state (state w) =? alarm_setting_idx_hour)
           || (setting_state (state w) =? alarm_setting_idx_minute)
        then _abort_quick_ticks else skip
      else modify (set_wait_ticks (-1))
  | EVENT_BACKGROUND_TASK =>
      w <- get ;;
      let a := alarm (state w) in
      if beeps a =? 0 then
        if watch_is_buzzer_or_led_enabled i
        then _alarm_play_short_beep (pitch a)
        else do_call watch_enable_buzzer ;;
             _alarm_play_short_beep (pitch a) ;;
             do_call watch_disable_buzzer
      else
        do_call (movement_play_alarm_beeps
                   (if beeps a =? ALARM_MAX_BEEP_ROUNDS - 1
                    then 20 else beeps a)
                   (_buzzer_notes (pitch a)))
  | EVENT_TIMEOUT => do_call (movement_move_to_face 0)
  | EVENT_LIGHT_BUTTON_DOWN => skip
  | _ => do_call (movement_default_loop_handler event)
  end ;;
  ret true.

Section Traces.

Variables year_bits month_bits : nat.

(** Everything movement runs of the face: it activates the face, delivers
    events to its loop, resigns it, and asks every minute whether the face
    wants a background task. *)
Inductive entry : Type :=
| Activate
| Loop (event : movement_event_t)
| Resign
| WantsBackgroundTask.

(** One entry: the new state, and the answer when the entry is the fire
    check ([false] for the others). *)
Definition step (c : inputs * entry) (w : world) : world * bool :=
  match snd c with
  | Activate => (state_of (alarm_face_activate w), false)
  | Loop event => (state_of (alarm_face_loop event (fst c) w), false)
  | Resign =>
      (state_of (alarm_face_resign year_bits month_bits (fst c) w), false)
  | WantsBackgroundTask =>
      let r :=
        alarm_face_wants_background_task year_bits month_bits (fst c) w in
      (state_of r, result_of r)
  end.



End Traces.




(** The short double beep of [_alarm_play_short_beep]. *)
Definition short_double_beep (note : BuzzerNote) : list call :=
  [watch_buzzer_play_note note 50;
   watch_buzzer_play_note BUZZER_NOTE_REST 50;
   watch_buzzer_play_note note 70].

End Alarm.

(** ** The civil calendar *)

Module Calendar.

Definition is_leap_year (y : Z) : bool :=
  ((y mod 4 =? 0) && negb (y mod 100 =? 0)) || (y mod 400 =? 0).

Definition days_in_month (y m : Z) : Z :=
  if m =? 2 then (if is_leap_year y then 29 else 28)
  else if (m =? 4) || (m =? 6) || (m =? 9) || (m =? 11) then 30
  else 31.

Definition civil_year (t : RTC.watch_date_time) : Z :=
  RTC.WATCH_RTC_REFERENCE_YEAR + RTC.year t.

Definition valid_date (t : RTC.watch_date_time) : Prop :=
  0 <= RTC.year t /\ 1 <= RTC.month t <= 12 /\
  1 <= RTC.day t <= days_in_month (civil_year t) (RTC.month t).

(** Days from 1 January 2020 to 1 January of the year 2020 + n. *)
Fixpoint days_before_year (n : nat) : Z :=
  match n with
  | O => 0
  | S k =>
      days_before_year k
      + (if is_leap_year (RTC.WATCH_RTC_REFERENCE_YEAR + Z.of_nat k)
         then 366 else 365)
  end.

(** Days in the first n months of the year y. *)
Fixpoint days_before_month (y : Z) (n : nat) : Z :=
  match n with
  | O => 0
  | S k => days_before_month y k + days_in_month y (Z.of_nat (S k))
  end.

Definition days_since_reference (t : RTC.watch_date_time) : Z :=
  days_before_year (Z.to_nat (RTC.year t))
  + days_before_month (civil_year t) (Z.to_nat (RTC.month t - 1))
  + (RTC.day t - 1).

(** The weekday of a date, Monday = 0 .. Sunday = 6, by counting days:
    1 January 2020 was a Wednesday. *)
Definition civil_weekday (t : RTC.watch_date_time) : Z :=
  (2 + days_since_reference t) mod 7.

Definition date (y m d : Z) : RTC.watch_date_time :=
  {| RTC.second := 0; RTC.minute := 0; RTC.hour := 0;
     RTC.day := d; RTC.month := m;
     RTC.year := y - RTC.WATCH_RTC_REFERENCE_YEAR |}.

End Calendar.

(** ** timer_face.c *)

Module Timer.

Import C.
Local Open Scope proc_scope.

(** Modelled from the spec: timer_face.h is missing.  The mode is one of
    Waiting, Running, Pausing and Setting, the four enumerators the switches
    of timer_face.c name. *)
Inductive timer_mode_t : Type := waiting | running | setting | pausing.

Definition mode_eqb (a b : timer_mode_t) : bool :=
  match a, b with
  | waiting, waiting | running, running
  | setting, setting | pausing, pausing => true
  | _, _ => false
  end.

(** Modelled from the spec: timer_face.h is missing.  The TimerConfig of
    the spec, a duration and a repeat flag stored as a packed integer:
    [timer_setting_t] is a union of the 32-bit [value] and the bytes
    [unit.seconds], [unit.minutes], [unit.hours], [unit.repeat].  The record
    is the [unit] view; [value] packs it, seconds in the low byte and the
    repeat flag in the top byte, as [_default_timer_value = 0x000100]
    (one minute) and the mask [0xFFFFFF] (the duration) fix it. *)
Record timer_setting_t : Type := {
  seconds : Z;
  minutes : Z;
  hours : Z;
  repeat : bool
}.

Definition value (t : timer_setting_t) : Z :=
  seconds t + Z.shiftl (minutes t) 8 + Z.shiftl (hours t) 16
  + Z.shiftl (if repeat t then 1 else 0) 24.

(** [timer.value = v] *)
Definition of_value (v : Z) : timer_setting_t :=
  {| seconds := Z.land v 255;
     minutes := Z.land (Z.shiftr v 8) 255;
     hours := Z.land (Z.shiftr v 16) 255;
     repeat := negb (Z.land (Z.shiftr v 24) 255 =? 0) |}.

Definition _default_timer_value : Z := 0x000100.

(** Modelled from the spec: timer_face.h is missing.  The TimerRuntime of
    the spec, with the field names of timer_face.c.  The timestamps are
    32-bit unsigned, [pausing_seconds] is a byte (it comes round on the
    256th tick, as [_draw] notes); the width of [paused_left] is a parameter
    of [timer_face_loop]. *)
Record timer_state_t : Type := {
  target_ts : Z;
  now_ts : Z;
  paused_left : Z;
  pausing_seconds : Z;
  watch_face_index : Z;
  timer : timer_setting_t;
  loop_count : Z;
  settings_state : Z;
  erase_timer_flag : bool;
  mode : timer_mode_t;
  quick_cycle : bool
}.

(** The context of the face and the file-level [_beeps_to_play]. *)
Record world : Type := {
  state : timer_state_t;
  _beeps_to_play : Z
}.

(** What a handler reads from outside: the unix time of the real-time
    clock, [watch_utility_date_time_to_unix_time (watch_rtc_get_date_time (),
    _get_tz_offset (settings))]; the level of the alarm button pin; and
    [settings->bit.button_should_sound]. *)
Record inputs : Type := {
  unix_time_now : Z;
  watch_get_pin_level_BTN_ALARM : bool;
  button_should_sound : bool
}.

Definition set_seconds (v : Z) (t : timer_setting_t) : timer_setting_t :=
  {| seconds := v; minutes := minutes t; hours := hours t;
     repeat := repeat t |}.
Definition set_minutes (v : Z) (t : timer_setting_t) : timer_setting_t :=
  {| seconds := seconds t; minutes := v; hours := hours t;
     repeat := repeat t |}.
Definition set_hours (v : Z) (t : timer_setting_t) : timer_setting_t :=
  {| seconds := seconds t; minutes := minutes t; hours := v;
     repeat := repeat t |}.
Definition set_repeat (v : bool) (t : timer_setting_t) : timer_setting_t :=
  {| seconds := seconds t; minutes := minutes t; hours := hours t;
     repeat := v |}.

Definition set_target_ts (v : Z) (s : timer_state_t) : timer_state_t :=
  {| target_ts := v; now_ts := now_ts s; paused_left := paused_left s;
     pausing_seconds := pausing_seconds s;
     watch_face_index := watch_face_index s; timer := timer s;
     loop_count := loop_count s; settings_state := settings_state s;
     erase_timer_flag := erase_timer_flag s; mode := mode s;
     quick_cycle := quick_cycle s |}.
Definition set_now_ts (v : Z) (s : timer_state_t) : timer_state_t :=
  {| target_ts := target_ts s; now_ts := v; paused_left := paused_left s;
     pausing_seconds := pausing_seconds s;
     watch_face_index := watch_face_index s; timer := timer s;
     loop_count := loop_count s; settings_state := settings_state s;
     erase_timer_flag := erase_timer_flag s; mode := mode s;
     quick_cycle := quick_cycle s |}.
Definition set_paused_left (v : Z) (s : timer_state_t) : timer_state_t :=
  {| target_ts := target_ts s; now_ts := now_ts s; paused_left := v;
     pausing_seconds := pausing_seconds s;
     watch_face_index := watch_face_index s; timer := timer s;
     loop_count := loop_count s; settings_state := settings_state s;
     erase_timer_flag := erase_timer_flag s; mode := mode s;
     quick_cycle := quick_cycle s |}.
Definition set_pausing_seconds (v : Z) (s : timer_state_t) : timer_state_t :=
  {| target_ts := target_ts s; now_ts := now_ts s;
     paused_left := paused_left s; pausing_seconds := v;
     watch_face_index := watch_face_index s; timer := timer s;
     loop_count := loop_count s; settings_state := settings_state s;
     erase_timer_flag := erase_timer_flag s; mode := mode s;
     quick_cycle := quick_cycle s |}.
Definition set_watch_face_index (v : Z) (s : timer_state_t) : timer_state_t :=
  {| target_ts := target_ts s; now_ts := now_ts s;
     paused_left := paused_left s; pausing_seconds := pausing_seconds s;
     watch_face_index := v; timer := timer s; loop_count := loop_count s;
     settings_state := settings_state s;
     erase_timer_flag := erase_timer_flag s; mode := mode s;
     quick_cycle := quick_cycle s |}.
Definition set_timer (v : timer_setting_t) (s : timer_state_t) : timer_state_t :=
  {| target_ts := target_ts s; now_ts := now_ts s;
     paused_left := paused_left s; pausing_seconds := pausing_seconds s;
     watch_face_index := watch_face_index s; timer := v;
     loop_count := loop_count s; settings_state := settings_state s;
     erase_timer_flag := erase_timer_flag s; mode := mode s;
     quick_cycle := quick_cycle s |}.
Definition set_loop_count (v : Z) (s : timer_state_t) : timer_state_t :=
  {| target_ts := target_ts s; now_ts := now_ts s;
     paused_left := paused_left s; pausing_seconds := pausing_seconds s;
     watch_face_index := watch_face_index s; timer := timer s;
     loop_count := v; settings_state := settings_state s;
     erase_timer_flag := erase_timer_flag s; mode := mode s;
     quick_cycle := quick_cycle s |}.
Definition set_settings_state (v : Z) (s : timer_state_t) : timer_state_t :=
  {| target_ts := target_ts s; now_ts := now_ts s;
     paused_left := paused_left s; pausing_seconds := pausing_seconds s;
     watch_face_index := watch_face_index s; timer := timer s;
     loop_count := loop_count s; settings_state := v;
     erase_timer_flag := erase_timer_flag s; mode := mode s;
     quick_cycle := quick_cycle s |}.
Definition set_erase_timer_flag (v : bool) (s : timer_state_t) : timer_state_t :=
  {| target_ts := target_ts s; now_ts := now_ts s;
     paused_left := paused_left s; pausing_seconds := pausing_seconds s;
     watch_face_index := watch_face_index s; timer := timer s;
     loop_count := loop_count s; settings_state := settings_state s;
     erase_timer_flag := v; mode := mode s; quick_cycle := quick_cycle s |}.
Definition set_mode (v : timer_mode_t) (s : timer_state_t) : timer_state_t :=
  {| target_ts := target_ts s; now_ts := now_ts s;
     paused_left := paused_left s; pausing_seconds := pausing_seconds s;
     watch_face_index := watch_face_index s; timer := timer s;
     loop_count := loop_count s; settings_state := settings_state s;
     erase_timer_flag := erase_timer_flag s; mode := v;
     quick_cycle := quick_cycle s |}.
Definition set_quick_cycle (v : bool) (s : timer_state_t) : timer_state_t :=
  {| target_ts := target_ts s; now_ts := now_ts s;
     paused_left := paused_left s; pausing_seconds := pausing_seconds s;
     watch_face_index := watch_face_index s; timer := timer s;
     loop_count := loop_count s; settings_state := settings_state s;
     erase_timer_flag := erase_timer_flag s; mode := mode s;
     quick_cycle := v |}.

Definition upd_state (f : timer_state_t -> timer_state_t) (w : world)
  : world :=
  {| state := f (state w); _beeps_to_play := _beeps_to_play w |}.
Definition set_beeps_to_play (v : Z) (w : world) : world :=
  {| state := state w; _beeps_to_play := v |}.

(** Modelled from the spec: [watch_utility_offset_timestamp] belongs to
    watch_utility.c, which is not part of the sources at hand.  The spec
    gives it as the absolute timestamp base + h*3600 + m*60 + s; timestamps
    are 32-bit unsigned. *)
Definition watch_utility_offset_timestamp (now h m s : Z) : Z :=
  uint32 (now + h * 3600 + m * 60 + s).

Definition _signal_callback : proc world unit :=
  w <- get ;;
  if negb (_beeps_to_play w =? 0) then
    modify (set_beeps_to_play (uint8 (_beeps_to_play w - 1))) ;;
    do_call (watch_buzzer_play_sequence _sound_seq_beep true)
  else skip.

Definition _start (i : inputs) (with_beep : bool) : proc world unit :=
  w <- get ;;
  if value (timer (state w)) =? 0 then skip
  else
    modify (upd_state (set_now_ts (unix_time_now i))) ;;
    w <- get ;;
    let st := state w in
    (if mode_eqb (mode st) pausing
     then modify (upd_state (set_target_ts
                               (uint32 (now_ts st + paused_left st))))
     else modify (upd_state (set_target_ts
                               (watch_utility_offset_timestamp
                                  (now_ts st) (hours (timer st))
                                  (minutes (timer st))
                                  (seconds (timer st)))))) ;;
    modify (upd_state (set_mode running)) ;;
    w <- get ;;
    do_call (movement_schedule_background_task_for_face
               (watch_face_index (state w)) (target_ts (state w))) ;;
    do_call (watch_set_indicator WATCH_INDICATOR_BELL) ;;
    if with_beep
    then do_call (watch_buzzer_play_sequence _sound_seq_start false)
    else skip.

(** The text of a running or pausing timer: the seconds to the target,
    which [div] takes as an [int], split into hours, minutes and seconds
    that are stored in bytes, after the loop count;
    [sprintf(buf, "%d%2u%02u%02u", ...)]. *)
Definition sprintf_remaining (st : timer_state_t) : String.string :=
  let delta := uint32 (target_ts st - now_ts st) in
  let sec := uint8 (Z.rem (int32 delta) 60) in
  let quot := Z.quot (int32 delta) 60 in
  let min := uint8 (Z.rem quot 60) in
  let h := uint8 (Z.quot quot 60) in
  String.append (Text.print (loop_count st))
    (String.append (Text.print2 h)
       (String.append (Text.print02 min) (Text.print02 sec))).

(** [sprintf(buf, " CLEAR%c", ...)] and [sprintf(buf, "  LOOP%c", ...)] *)
Definition sprintf_clear (flag : bool) : String.string :=
  String.append " CLEAR"%string (if flag then "y" else "n")%string.

Definition sprintf_loop (flag : bool) : String.string :=
  String.append "  LOOP"%string (if flag then "y" else "n")%string.

(** [sprintf(buf, " %2u%02u%02u", ...)] of the timer's duration. *)
Definition sprintf_duration (t : timer_setting_t) : String.string :=
  String.String " "%char
    (String.append (Text.print2 (hours t))
       (String.append (Text.print02 (minutes t))
          (Text.print02 (seconds t)))).

(** What [_draw] blanks in [buf] before it is displayed: the loop count
    when it is zero, and in the settings, on an odd subsecond, the value
    under the cursor. *)
Definition _draw_blank (subsecond : Z) (st : timer_state_t)
  (buf : String.string) : String.string :=
  let buf := if loop_count st =? 0 then Text.blank 0 buf else buf in
  if mode_eqb (mode st) setting && negb (Z.rem subsecond 2 =? 0) then
    if (settings_state st =? 0) || (settings_state st =? 4)
    then Text.blank 6 buf
    else Text.blank (settings_state st * 2 - 1)
           (Text.blank (settings_state st * 2) buf)
  else buf.

Arguments sprintf_remaining : simpl never.
Arguments sprintf_clear : simpl never.
Arguments sprintf_loop : simpl never.
Arguments sprintf_duration : simpl never.
Arguments _draw_blank : simpl never.

Definition _draw (subsecond : Z) : proc world unit :=
  w <- get ;;
  let st := state w in
  let finish (buf : String.string) : proc world unit :=
    do_call (watch_display_string (_draw_blank subsecond st buf) 3) ;;
    if repeat (timer st)
    then do_call (watch_set_indicator WATCH_INDICATOR_LAP)
    else do_call (watch_clear_indicator WATCH_INDICATOR_LAP) in
  match mode st with
  | pausing =>
      (if negb (Z.rem (pausing_seconds st) 2 =? 0)
       then do_call (watch_clear_indicator WATCH_INDICATOR_BELL)
       else do_call (watch_set_indicator WATCH_INDICATOR_BELL)) ;;
      if negb (pausing_seconds st =? 1) then skip
      else do_call watch_set_colon ;; finish (sprintf_remaining st)
  | running => do_call watch_set_colon ;; finish (sprintf_remaining st)
  | setting =>
      if settings_state st =? 0
      then do_call watch_clear_colon ;;
           finish (sprintf_clear (erase_timer_flag st))
      else if settings_state st =? 4
      then do_call watch_clear_colon ;;
           finish (sprintf_loop (repeat (timer st)))
      else do_call watch_set_colon ;; finish (sprintf_duration (timer st))
  | waiting => do_call watch_set_colon ;; finish (sprintf_duration (timer st))
  end.

Definition _reset : proc world unit :=
  modify (upd_state (set_mode waiting)) ;;
  w <- get ;;
  do_call (movement_cancel_background_task_for_face
             (watch_face_index (state w))) ;;
  do_call (watch_clear_indicator WATCH_INDICATOR_BELL).

Definition _resume_setting : proc world unit :=
  modify (upd_state (set_settings_state 0)) ;;
  modify (upd_state (set_mode waiting)) ;;
  do_call (movement_request_tick_frequency 1).

Definition upd_timer (f : timer_setting_t -> timer_setting_t)
  (s : timer_state_t) : timer_state_t :=
  set_timer (f (timer s)) s.

(** The values stored are remainders of divisions by 24 and 60 and fit
    their bytes. *)
Definition _settings_increment : proc world unit :=
  w <- get ;;
  let st := state w in
  let c := settings_state st in
  if c =? 0
  then modify (upd_state (set_erase_timer_flag (negb (erase_timer_flag st))))
  else if c =? 1
  then modify (upd_state (upd_timer
                            (fun t => set_hours (Z.rem (hours t + 1) 24) t)))
  else if c =? 2
  then modify (upd_state (upd_timer
                            (fun t => set_minutes (Z.rem (minutes t + 1) 60) t)))
  else if c =? 3
  then modify (upd_state (upd_timer
                            (fun t => set_seconds (Z.rem (seconds t + 1) 60) t)))
  else if c =? 4
  then modify (upd_state (upd_timer (fun t => set_repeat (negb (repeat t)) t)))
  else skip.

Definition _abort_quick_cycle : proc world unit :=
  w <- get ;;
  if quick_cycle (state w)
  then modify (upd_state (set_quick_cycle false)) ;;
       do_call (movement_request_tick_frequency 4)
  else skip.

Definition _check_for_signal : proc world bool :=
  w <- get ;;
  if negb (_beeps_to_play w =? 0)
  then modify (set_beeps_to_play 0) ;; ret true
  else ret false.

(** The context [timer_face_setup] allocates on its first call: zeroed
    memory, then the face index and the default timer.  The zero mode is
    [waiting] (Modelled from the spec: a fresh timer is idle, with the
    default duration of one minute), and [_beeps_to_play] is a zero
    initialised static. *)
Definition timer_face_setup (face_index : Z) : world :=
  {| state :=
       {| target_ts := 0; now_ts := 0; paused_left := 0;
          pausing_seconds := 0; watch_face_index := face_index;
          timer := of_value _default_timer_value;
          loop_count := 0; settings_state := 0; erase_timer_flag := false;
          mode := waiting; quick_cycle := false |};
     _beeps_to_play := 0 |}.

Definition timer_face_activate (i : inputs) : proc world unit :=
  do_call (watch_display_string "TR"%string 0) ;;
  do_call watch_set_colon ;;
  w <- get ;;
  if mode_eqb (mode (state w)) running then
    modify (upd_state (set_now_ts (unix_time_now i))) ;;
    do_call (watch_set_indicator WATCH_INDICATOR_BELL)
  else
    modify (upd_state (set_pausing_seconds 1)) ;;
    modify (set_beeps_to_play 0).

Definition timer_face_resign : proc world unit :=
  w <- get ;;
  if mode_eqb (mode (state w)) setting then
    modify (upd_state (set_settings_state 0)) ;;
    modify (upd_state (set_mode waiting))
  else skip.

Section Layout.

(** The width of the [paused_left] field of [timer_state_t] is a
    parameter: timer_face.h is not part of the sources at hand. *)
Variable paused_left_bits : nat.

Definition timer_face_loop (event : movement_event_t) (i : inputs)
  : proc world bool :=
  match event_type event with
  | EVENT_ACTIVATE => _draw (subsecond event)
  | EVENT_TICK =>
      w <- get ;;
      let st := state w in
      sub <-
        (if mode_eqb (mode st) running
         then modify (upd_state (set_now_ts (uint32 (now_ts st + 1)))) ;;
              ret (subsecond event)
         else if mode_eqb (mode st) pausing
         then modify (upd_state (set_pausing_seconds
                                   (uint8 (pausing_seconds st + 1)))) ;;
              ret (subsecond event)
         else if quick_cycle st
         then (if watch_get_pin_level_BTN_ALARM i
               then _settings_increment ;; ret 0
               else _abort_quick_cycle ;; ret (subsecond event))
         else ret (subsecond event)) ;;
      _draw sub
  | EVENT_LIGHT_BUTTON_UP =>
      w <- get ;;
      match mode (state w) with
      | pausing | waiting | running => do_call movement_illuminate_led
      | setting =>
          (if erase_timer_flag (state w)
           then modify (upd_state (set_timer (of_value 0))) ;;
                modify (upd_state (set_erase_timer_flag false))
           else skip) ;;
          modify (upd_state
                    (fun st => set_settings_state
                                 (Z.rem (settings_state st + 1) 5) st)) ;;
          w <- get ;;
          if settings_state (state w) =? 0 then _resume_setting
          else if (settings_state (state w) =? 4)
                  && (Z.land (value (timer (state w))) 0xFFFFFF =? 0)
          then modify (upd_state (set_settings_state 1))
          else skip
      end ;;
      _draw (subsecond event)
  | EVENT_ALARM_BUTTON_UP =>
      _abort_quick_cycle ;;
      signal <- _check_for_signal ;;
      if signal then skip
      else
        w <- get ;;
        let st := state w in
        sub <-
          match mode st with
          | running =>
              modify (upd_state (set_mode pausing)) ;;
              modify (upd_state (set_pausing_seconds 0)) ;;
              modify (upd_state
                        (set_paused_left
                           (wrap paused_left_bits
                                 (uint32 (target_ts st - now_ts st))))) ;;
              do_call movement_cancel_background_task ;;
              ret (subsecond event)
          | pausing => _start i false ;; ret (subsecond event)
          | waiting => ret (subsecond event)
          | setting => _settings_increment ;; ret 0
          end ;;
        _draw sub
  | EVENT_LIGHT_LONG_PRESS =>
      w <- get ;;
      (if mode_eqb (mode (state w)) waiting then
         modify (upd_state (set_mode setting)) ;;
         modify (upd_state (set_settings_state 0)) ;;
         modify (upd_state (set_erase_timer_flag false)) ;;
         do_call (movement_request_tick_frequency 4)
       else if mode_eqb (mode (state w)) setting then _resume_setting
       else skip) ;;
      _draw (subsecond event)
  | EVENT_BACKGROUND_TASK =>
      modify (set_beeps_to_play 4) ;;
      do_call (watch_buzzer_play_sequence _sound_seq_beep true) ;;
      _reset ;;
      w <- get ;;
      if repeat (timer (state w)) then
        modify (upd_state
                  (fun st => set_loop_count
                               (uint8 (Z.rem (loop_count st + 1) 10)) st)) ;;
        _start i false
      else modify (upd_state (set_loop_count 0))
  | EVENT_ALARM_LONG_PRESS =>
      w <- get ;;
      match mode (state w) with
      | setting =>
          let c := settings_state (state w) in
          if (c =? 1) || (c =? 2) || (c =? 3) then
            modify (upd_state (set_quick_cycle true)) ;;
            do_call (movement_request_tick_frequency 8)
          else skip
      | waiting => _start i true
      | pausing | running =>
          _reset ;;
          modify (upd_state (set_loop_count 0)) ;;
          if button_should_sound i
          then do_call (watch_buzzer_play_note BUZZER_NOTE_C7 50)
          else skip
      end ;;
      _draw (subsecond event)
  | EVENT_ALARM_LONG_UP => _abort_quick_cycle
  | EVENT_MODE_LONG_PRESS | EVENT_TIMEOUT =>
      _abort_quick_cycle ;;
      do_call (movement_move_to_face 0)
  | EVENT_LIGHT_BUTTON_DOWN => skip
  | _ => do_call (movement_default_loop_handler event)
  end ;;
  ret true.

(** Everything that runs code of the face: movement activates the face,
    delivers events to its loop and resigns it; the buzzer calls
    [_signal_callback] back when a sequence has played. *)
Inductive entry : Type :=
| Activate
| Loop (event : movement_event_t)
| Resign
| SignalCallback.

Definition step (c : inputs * entry) (w : world) : world :=
  match snd c with
  | Activate => state_of (timer_face_activate (fst c) w)
  | Loop event => state_of (timer_face_loop event (fst c) w)
  | Resign => state_of (timer_face_resign w)
  | SignalCallback => state_of (_signal_callback w)
  end.

Definition run (cs : list (inputs * entry)) (w : world) : world :=
  fold_left (fun w c => step c w) cs w.

(** The states the face can be in. *)
Definition reachable (w : world) : Prop :=
  exists face_index cs, w = run cs (timer_face_setup face_index).

End Layout.

Definition duration_unset (t : timer_setting_t) : bool :=
  (hours t =? 0) && (minutes t =? 0) && (seconds t =? 0).

End Timer.

(** ** Exhaustive comparison of [_get_weekday_idx] with the calendar *)

Module WeekdayCheck.

Definition range (lo : nat) (n : nat) : list Z := map Z.of_nat (seq lo n).

(** On day [d] of month [m] of the year 2020 + [y], [before] days after
    1 January 2020 for the first of the month, the weekday index computed
    with a [year] field of 7 bits and a [month] field of 4 bits is the
    weekday of the calendar. *)
Definition agrees_on_day (y m before d : Z) : bool :=
  Alarm._get_weekday_idx 7 4
    {| RTC.second := 0; RTC.minute := 0; RTC.hour := 0;
       RTC.day := d; RTC.month := m; RTC.year := y |}
  =? (2 + (before + (d - 1))) mod 7.

Definition agrees_in_month (n : nat) (before_year : Z) (k : nat) : bool :=
  let y := Z.of_nat n in
  let m := Z.of_nat (S k) in
  let civil := RTC.WATCH_RTC_REFERENCE_YEAR + y in
  let before := before_year + Calendar.days_before_month civil k in
  forallb (agrees_on_day y m before)
          (range 1 (Z.to_nat (Calendar.days_in_month civil m))).

Definition agrees_in_year (n : nat) : bool :=
  let before_year := Calendar.days_before_year n in
  forallb (agrees_in_month n before_year) (seq 0 12).

End WeekdayCheck.

(** ** States of the timer face *)

Module TimerInv.

Import Timer.

(** The duration as the settings store it. *)
Definition wf_timer (t : timer_setting_t) : Prop :=
  0 <= seconds t < 60 /\ 0 <= minutes t < 60 /\ 0 <= hours t < 24.

(** What every state of the face satisfies: a stored duration, a cursor
    from 0 to 4, an erase request pending only at the cursor position 0
    of the settings, and the cursor at the repeat position only for a
    duration that is set. *)
Definition invariant (w : world) : Prop :=
  let st := state w in
  wf_timer (timer st)
  /\ 0 <= settings_state st <= 4
  /\ (mode st = setting -> erase_timer_flag st = true ->
      settings_state st = 0)
  /\ (settings_state st = 4 -> duration_unset (timer st) = false).

End TimerInv.

(** ** Scenarios of the timer face *)

Module TimerScenario.

Import Timer.

Definition event (ty : movement_event_type_t) : movement_event_t :=
  {| event_type := ty; subsecond := 0 |}.

(** The clock reads [t]; the alarm button is up; buttons do not sound. *)
Definition at_time (t : Z) : inputs :=
  {| unix_time_now := t;
     watch_get_pin_level_BTN_ALARM := false;
     button_should_sound := false |}.

Definition press (ty : movement_event_type_t) : inputs * entry :=
  (at_time 0, Loop (event ty)).

(** The duration in seconds. *)
Definition duration_seconds (t : timer_setting_t) : Z :=
  hours t * 3600 + minutes t * 60 + seconds t.

Section Layout.

Variable paused_left_bits : nat.

(** Background events delivered one after the other, the clock reading
    what each input says. *)
Definition fire_all (fires : list inputs) (w : world) : world :=
  fold_left
    (fun w i =>
       state_of (timer_face_loop paused_left_bits
                   (event EVENT_BACKGROUND_TASK) i w))
    fires w.

End Layout.

(** The entry runs [_settings_increment] with the cursor on the hours, the
    minutes or the seconds: a short press of the alarm button in the
    settings when no beep is pending, or a quick-cycle tick with the alarm
    button held. *)
Definition increments_duration_field (c : inputs * entry) (w : world)
  : bool :=
  let st := state w in
  let on_field := (1 <=? settings_state st) && (settings_state st <=? 3) in
  match snd c with
  | Loop e =>
      match event_type e with
      | EVENT_TICK =>
          negb (mode_eqb (mode st) running)
          && negb (mode_eqb (mode st) pausing)
          && quick_cycle st
          && watch_get_pin_level_BTN_ALARM (fst c)
          && on_field
      | EVENT_ALARM_BUTTON_UP =>
          (_beeps_to_play w =? 0) && mode_eqb (mode st) setting && on_field
      | _ => false
      end
  | _ => false
  end.

(** Button presses from the fresh face: enter the settings, advance to the
    repeat toggle and set it, leave; enter the settings again, advance to
    the minutes and press the alarm button 59 times, which takes the
    default minute round to zero; leave with a long press. *)
Definition repeat_then_wrap_minutes : list (inputs * entry) :=
  [press EVENT_LIGHT_LONG_PRESS]
  ++ List.repeat (press EVENT_LIGHT_BUTTON_UP) 4
  ++ [press EVENT_ALARM_BUTTON_UP;
      press EVENT_LIGHT_BUTTON_UP;
      press EVENT_LIGHT_LONG_PRESS;
      press EVENT_LIGHT_BUTTON_UP;
      press EVENT_LIGHT_BUTTON_UP]
  ++ List.repeat (press EVENT_ALARM_BUTTON_UP) 59
  ++ [press EVENT_LIGHT_LONG_PRESS].

End TimerScenario.

(** ** Concrete inputs *)

Module Examples.

(** The clock reads the given date and time; the buzzer is enabled and the
    display is in 24 hour mode. *)
Definition clock (y mo d h mi : Z) : Alarm.inputs :=
  {| Alarm.watch_rtc_get_date_time :=
       {| RTC.second := 0; RTC.minute := mi; RTC.hour := h;
          RTC.day := d; RTC.month := mo;
          RTC.year := y - RTC.WATCH_RTC_REFERENCE_YEAR |};
     Alarm.watch_is_buzzer_or_led_enabled := true;
     Alarm.clock_mode_24h := true |}.

(** The fresh alarm face, set to 7:30 every day and enabled. *)
Definition alarm_0730 : Alarm.world :=
  Alarm.upd_state
    (Alarm.upd_alarm
       (fun a =>
          Alarm.set_enabled true (Alarm.set_minute 30 (Alarm.set_hour 7 a))))
    (Alarm.alarm_face_setup false).

Definition alarm_event (ty : movement_event_type_t) : movement_event_t :=
  {| event_type := ty; subsecond := 0 |}.


(** The fresh timer face of one minute, started at the timestamp 1000. *)
Definition running_timer : Timer.world :=
  Timer.step 32
    (TimerScenario.at_time 1000,
     Timer.Loop (TimerScenario.event EVENT_ALARM_LONG_PRESS))
    (Timer.timer_face_setup 0).

(** The fresh timer face of one minute with the repeat flag set. *)
Definition repeating_timer : Timer.world :=
  Timer.upd_state (Timer.upd_timer (Timer.set_repeat true))
    (Timer.timer_face_setup 0).

(** The fresh timer face, set to 23 hours. *)
Definition long_timer : Timer.world :=
  Timer.upd_state
    (Timer.upd_timer (fun t => Timer.set_hours 23 (Timer.set_minutes 0 t)))
    (Timer.timer_face_setup 0).

(** The fresh timer face after the long press that opens its settings. *)
Definition timer_in_settings : Timer.world :=
  Timer.run 32 [TimerScenario.press EVENT_LIGHT_LONG_PRESS]
    (Timer.timer_face_setup 0).

End Examples.

(** ** Runs of the alarm face *)

Module AlarmRuns.

Import C Alarm.

Section Layout.

Variables year_bits month_bits : nat.

Definition run (cs : list (inputs * entry)) (w : world) : world :=
  fold_left (fun w c => fst (step year_bits month_bits c w)) cs w.

(** The states the face can be in, whatever [settings->bit.alarm_enabled]
    was at its setup. *)
Definition reachable (w : world) : Prop :=
  exists settings_bit cs, w = run cs (alarm_face_setup settings_bit).

End Layout.

(** Events delivered to [alarm_face_loop] one after the other. *)
Definition deliver (es : list (movement_event_t * inputs)) (w : world)
  : world :=
  fold_left (fun w c => state_of (alarm_face_loop (fst c) (snd c) w)) es w.

Definition all_of_type (ty : movement_event_type_t)
  (es : list (movement_event_t * inputs)) : Prop :=
  Forall (fun c => event_type (fst c) = ty) es.

(** An alarm whose fields index the tables of alarm_face.c within their
    bounds: [_dow_strings], [_beeps_strings] and [_buzzer_notes]. *)
Definition in_range (a : alarm_setting_t) : Prop :=
  0 <= day a < ALARM_DAY_STATES
  /\ 0 <= hour a < 24
  /\ 0 <= minute a < 60
  /\ 0 <= beeps a < ALARM_MAX_BEEP_ROUNDS
  /\ 0 <= pitch a < 3.

(** An alarm in range; a cursor that indexes [_blink_idx] within its
    bounds while the settings are open and is at most one past it
    otherwise; and a wait counter of -1, 0 or 1. *)
Definition invariant (w : world) : Prop :=
  in_range (alarm (state w))
  /\ 0 <= setting_state (state w) <= ALARM_SETTING_STATES
  /\ (is_setting (state w) = true ->
      setting_state (state w) < ALARM_SETTING_STATES)
  /\ -1 <= _wait_ticks w <= 1.

(** The field the cursor selects, and the number of its values. *)
Definition field_at (cursor : Z) (a : alarm_setting_t) : Z :=
  if cursor =? alarm_setting_idx_day then day a
  else if cursor =? alarm_setting_idx_hour then hour a
  else if cursor =? alarm_setting_idx_minute then minute a
  else if cursor =? alarm_setting_idx_pitch then pitch a
  else beeps a.

Definition field_values (cursor : Z) : Z :=
  if cursor =? alarm_setting_idx_day then ALARM_DAY_STATES
  else if cursor =? alarm_setting_idx_hour then 24
  else if cursor =? alarm_setting_idx_minute then 60
  else if cursor =? alarm_setting_idx_pitch then 3
  else ALARM_MAX_BEEP_ROUNDS.

(** The alarm with the field the cursor selects replaced. *)
Definition with_field (cursor v : Z) (a : alarm_setting_t)
  : alarm_setting_t :=
  if cursor =? alarm_setting_idx_day then set_day v a
  else if cursor =? alarm_setting_idx_hour then set_hour v a
  else if cursor =? alarm_setting_idx_minute then set_minute v a
  else if cursor =? alarm_setting_idx_pitch then set_pitch v a
  else set_beeps v a.

(** The calls that sound the buzzer. *)
Definition is_sound (c : call) : bool :=
  match c with
  | watch_buzzer_play_note _ _ => true
  | watch_buzzer_play_sequence _ _ => true
  | movement_play_alarm_beeps _ _ => true
  | _ => false
  end.

End AlarmRuns.

(** ** Runs of the timer face *)

Module TimerRuns.

Import C Timer.

Section Layout.

Variable paused_left_bits : nat.

(** Events delivered to [timer_face_loop] one after the other. *)
Definition deliver (es : list (movement_event_t * inputs)) (w : world)
  : world :=
  fold_left
    (fun w c => state_of (timer_face_loop paused_left_bits (fst c) (snd c) w))
    es w.

End Layout.

Definition all_of_type (ty : movement_event_type_t)
  (es : list (movement_event_t * inputs)) : Prop :=
  Forall (fun c => event_type (fst c) = ty) es.

(** The alarm button is held at every event of the list. *)
Definition all_held (es : list (movement_event_t * inputs)) : Prop :=
  Forall (fun c => watch_get_pin_level_BTN_ALARM (snd c) = true) es.

(** The buzzer calls [_signal_callback] back [k] times: the final state and
    the calls made. *)
Fixpoint callbacks (k : nat) (w : world) : world * list call :=
  match k with
  | O => (w, [])
  | S k' =>
      let r := _signal_callback w in
      let rest := callbacks k' (state_of r) in
      (fst rest, calls_of r ++ snd rest)
  end.

(** What the states of the face satisfy beside [TimerInv.invariant]: a
    loop count of one digit, at most four beeps pending, and a packed
    value that is not zero while the timer runs or pauses. *)
Definition armed_invariant (w : world) : Prop :=
  0 <= loop_count (state w) <= 9
  /\ 0 <= _beeps_to_play w <= 4
  /\ (mode (state w) = running \/ mode (state w) = pausing ->
      value (timer (state w)) <> 0).

(** The duration field under the cursor positions 1, 2 and 3, the number
    of its values, and the timer with that field replaced. *)
Definition field_at (cursor : Z) (t : timer_setting_t) : Z :=
  if cursor =? 1 then hours t
  else if cursor =? 2 then minutes t
  else seconds t.

Definition field_values (cursor : Z) : Z :=
  if cursor =? 1 then 24 else 60.

Definition with_field (cursor v : Z) (t : timer_setting_t)
  : timer_setting_t :=
  if cursor =? 1 then set_hours v t
  else if cursor =? 2 then set_minutes v t
  else set_seconds v t.

(** The text of a count-down with [left] seconds to go, as the spec reads
    it off the display: the loop count, blank when it is zero, then the
    hours in two columns and the minutes and seconds in two digits. *)
Definition countdown_text (loops left : Z) : String.string :=
  let buf :=
    String.append (Text.print loops)
      (String.append (Text.print2 (left / 3600))
         (String.append (Text.print02 (left / 60 mod 60))
            (Text.print02 (left mod 60)))) in
  if loops =? 0 then Text.blank 0 buf else buf.

(** The calls of a draw that prints [text] at the position 3 with the
    colon, for a timer that repeats or not. *)
Definition draws (text : String.string) (repeats : bool) : list call :=
  [watch_set_colon; watch_display_string text 3;
   if repeats then watch_set_indicator WATCH_INDICATOR_LAP
   else watch_clear_indicator WATCH_INDICATOR_LAP].

Definition is_schedule (c : call) : bool :=
  match c with
  | movement_schedule_background_task_for_face _ _ => true
  | _ => false
  end.

End TimerRuns.

(** ** More concrete inputs *)

Module MoreExamples.

Import Examples.

(** Events of one type, the clock reading 7:30 on 1 January 2024. *)
Definition alarm_events (ty : movement_event_type_t) (n : nat)
  : list (movement_event_t * Alarm.inputs) :=
  List.repeat (alarm_event ty, clock 2024 1 1 7 30) n.

(** The alarm of 7:30 with its settings open and the cursor on the hour. *)
Definition alarm_setting_hour : Alarm.world :=
  AlarmRuns.deliver
    (alarm_events EVENT_LIGHT_LONG_PRESS 1
     ++ alarm_events EVENT_LIGHT_BUTTON_UP 1)
    alarm_0730.

(** The clock on a 12 hour display. *)
Definition clock12 (y mo d h mi : Z) : Alarm.inputs :=
  {| Alarm.watch_rtc_get_date_time :=
       Alarm.watch_rtc_get_date_time (clock y mo d h mi);
     Alarm.watch_is_buzzer_or_led_enabled := true;
     Alarm.clock_mode_24h := false |}.

(** The fresh alarm face, set to 19:30 every day and enabled. *)
Definition alarm_1930 : Alarm.world :=
  Alarm.upd_state
    (Alarm.upd_alarm
       (fun a =>
          Alarm.set_enabled true (Alarm.set_minute 30 (Alarm.set_hour 19 a))))
    (Alarm.alarm_face_setup false).

(** The same with fast cycling started by a long press of the alarm
    button. *)
Definition alarm_cycling_hour : Alarm.world :=
  AlarmRuns.deliver (alarm_events EVENT_ALARM_LONG_PRESS 1)
    alarm_setting_hour.

(** The fresh alarm face after a few entries: the alarm is switched on
    with a long press, the settings are opened, the day is stepped once
    and the cursor moves to the hour. *)
Definition alarm_entries : list (Alarm.inputs * Alarm.entry) :=
  [(clock 2024 1 1 7 30, Alarm.Loop (alarm_event EVENT_ALARM_LONG_PRESS));
   (clock 2024 1 1 7 30, Alarm.Loop (alarm_event EVENT_ALARM_LONG_UP));
   (clock 2024 1 1 7 30, Alarm.Loop (alarm_event EVENT_LIGHT_LONG_PRESS));
   (clock 2024 1 1 7 30, Alarm.Loop (alarm_event EVENT_ALARM_BUTTON_UP));
   (clock 2024 1 1 7 30, Alarm.Loop (alarm_event EVENT_LIGHT_BUTTON_UP))].

(** The alarm button is held. *)
Definition held_at (t : Z) : Timer.inputs :=
  {| Timer.unix_time_now := t;
     Timer.watch_get_pin_level_BTN_ALARM := true;
     Timer.button_should_sound := false |}.

Definition timer_events (ty : movement_event_type_t) (n : nat)
  : list (movement_event_t * Timer.inputs) :=
  List.repeat (TimerScenario.event ty, TimerScenario.at_time 0) n.

Definition held_ticks (n : nat) : list (movement_event_t * Timer.inputs) :=
  List.repeat (TimerScenario.event EVENT_TICK, held_at 0) n.

(** The fresh timer face with its settings open and the cursor on the
    hours. *)
Definition timer_setting_hours : Timer.world :=
  Timer.run 32
    [TimerScenario.press EVENT_LIGHT_LONG_PRESS;
     TimerScenario.press EVENT_LIGHT_BUTTON_UP]
    (Timer.timer_face_setup 0).

(** The fresh timer face after its duration was erased in the settings:
    the cursor is on the hours. *)
Definition timer_erased : Timer.world :=
  Timer.run 32
    [TimerScenario.press EVENT_LIGHT_LONG_PRESS;
     TimerScenario.press EVENT_ALARM_BUTTON_UP;
     TimerScenario.press EVENT_LIGHT_BUTTON_UP]
    (Timer.timer_face_setup 0).

(** A few entries of the timer face: it is started, ticks twice, is
    paused and is left. *)
Definition timer_entries : list (Timer.inputs * Timer.entry) :=
  [TimerScenario.press EVENT_ALARM_LONG_PRESS;
   TimerScenario.press EVENT_TICK;
   TimerScenario.press EVENT_TICK;
   TimerScenario.press EVENT_ALARM_BUTTON_UP;
   (TimerScenario.at_time 0, Timer.Resign)].

(** The fresh timer face with its settings open and the erase request
    made. *)
Definition erase_requested : Timer.world :=
  Timer.run 32
    [TimerScenario.press EVENT_LIGHT_LONG_PRESS;
     TimerScenario.press EVENT_ALARM_BUTTON_UP]
    (Timer.timer_face_setup 0).

(** The running timer of [Examples.running_timer] with a beep pending. *)
Definition beeping_timer : Timer.world :=
  Timer.set_beeps_to_play 3 running_timer.

End MoreExamples.

(** * C arithmetic *)

Module CFacts.

Import C.

Lemma wrap_range (w : nat) (x : Z) : 0 <= wrap w x < 2 ^ Z.of_nat w.
Proof. unfold wrap. apply Z.mod_pos_bound. apply Z.pow_pos_nonneg; lia. Qed.

Lemma wrap_small (w : nat) (x : Z) : 0 <= x < 2 ^ Z.of_nat w -> wrap w x = x.
Proof. intros H. unfold wrap. apply Z.mod_small. exact H. Qed.

Lemma uint32_small (x : Z) : 0 <= x < 2 ^ 32 -> uint32 x = x.
Proof. intros H. unfold uint32. apply wrap_small. exact H. Qed.

End CFacts.

(** * Procedures *)

Module HostFacts.

Section Proc.

Context {S A B : Type}.

Lemma state_of_bind (c : proc S A) (k : A -> proc S B) (s : S) :
  state_of (bind c k s) = state_of (k (result_of (c s)) (state_of (c s))).
Proof.
  unfold bind, state_of, result_of.
  destruct (c s) as [[a s1] l1]. cbn [fst snd].
  destruct (k a s1) as [[b s2] l2]. reflexivity.
Qed.

Lemma result_of_bind (c : proc S A) (k : A -> proc S B) (s : S) :
  result_of (bind c k s) = result_of (k (result_of (c s)) (state_of (c s))).
Proof.
  unfold bind, state_of, result_of.
  destruct (c s) as [[a s1] l1]. cbn [fst snd].
  destruct (k a s1) as [[b s2] l2]. reflexivity.
Qed.

Lemma calls_of_bind (c : proc S A) (k : A -> proc S B) (s : S) :
  calls_of (bind c k s)
  = calls_of (c s) ++ calls_of (k (result_of (c s)) (state_of (c s))).
Proof.
  unfold bind, state_of, result_of, calls_of.
  destruct (c s) as [[a s1] l1]. cbn [fst snd].
  destruct (k a s1) as [[b s2] l2]. reflexivity.
Qed.

Lemma state_of_ret (a : A) (s : S) : state_of (ret a s) = s.
Proof. reflexivity. Qed.

Lemma result_of_ret (a : A) (s : S) : result_of (ret a s) = a.
Proof. reflexivity. Qed.

Lemma state_of_get (s : S) : state_of (get s) = s.
Proof. reflexivity. Qed.

Lemma result_of_get (s : S) : result_of (get s) = s.
Proof. reflexivity. Qed.

Lemma state_of_modify (f : S -> S) (s : S) : state_of (modify f s) = f s.
Proof. reflexivity. Qed.

Lemma state_of_do_call (c : call) (s : S) :
  state_of (do_call c s) = s.
Proof. reflexivity. Qed.

Lemma state_of_skip (s : S) : state_of (skip s) = s.
Proof. reflexivity. Qed.

End Proc.

Create Rewrite HintDb proc_state.

#[export] Hint Rewrite
  @state_of_bind @result_of_bind @state_of_ret @result_of_ret
  @state_of_get @result_of_get @state_of_modify @state_of_do_call
  @state_of_skip : proc_state.

End HostFacts.

(** * Properties of the alarm face *)

Module AlarmFacts.

Import C CFacts Alarm.

Ltac run_proc :=
  cbv beta iota delta
    [bind get modify do_call ret skip result_of state_of calls_of fst snd].

Ltac case_eqb :=
  repeat match goal with
    | |- context [?a =? ?b] => destruct (Z.eqb_spec a b)
    | |- context [?a <=? ?b] => destruct (Z.leb_spec a b)
    | |- context [?a <? ?b] => destruct (Z.ltb_spec a b)
    | |- context [?a >=? ?b] =>
        rewrite (Z.geb_leb a b); destruct (Z.leb_spec b a)
    end.

Lemma weekday_sum_range (d m y : Z) :
  0 <= d -> 0 <= m -> 0 <= y ->
  0 <= uint8 (Z.rem (d + Z.quot (13 * (m + 1)) 5 + y + Z.quot y 4 + 525 - 2) 7)
    <= 6.
Proof.
  intros Hd Hm Hy.
  assert (0 <= Z.quot (13 * (m + 1)) 5) by (apply Z.quot_pos; lia).
  assert (0 <= Z.quot y 4) by (apply Z.quot_pos; lia).
  assert (0 <= Z.rem (d + Z.quot (13 * (m + 1)) 5 + y + Z.quot y 4 + 525 - 2) 7
          < 7) as Hr by (apply Z.rem_bound_pos; lia).
  unfold uint8, wrap. rewrite Z.mod_small; simpl Z.of_nat; lia.
Qed.

Lemma weekday_idx_range (yb mb : nat) (t : RTC.watch_date_time) :
  RTC.wf_date_time t -> 0 <= _get_weekday_idx yb mb t <= 6.
Proof.
  intros (_ & _ & _ & Hd & Hm & _).
  unfold _get_weekday_idx.
  pose proof (wrap_range yb (RTC.year t + 20)) as Hy.
  pose proof (wrap_range yb (wrap yb (RTC.year t + 20) - 1)) as Hy'.
  pose proof (wrap_range mb (RTC.month t + 12)) as Hm'.
  destruct (RTC.month t <=? 2); apply weekday_sum_range; lia.
Qed.

Lemma wants_result (yb mb : nat) (i : inputs) (w : world) :
  let now := watch_rtc_get_date_time i in
  let a := alarm (state w) in
  let idx := _get_weekday_idx yb mb now in
  result_of (alarm_face_wants_background_task yb mb i w) =
    negb (alarm_handled_minute (state w) =? RTC.minute now)
    && (enabled a && (minute a =? RTC.minute now) && (hour a =? RTC.hour now)
        && ((day a =? ALARM_DAY_EACH_DAY) || (day a =? idx)
            || ((day a =? ALARM_DAY_WORKDAY) && (idx <? 5))
            || ((day a =? ALARM_DAY_WEEKEND) && (idx >=? 5)))).
Proof.
  intros now a idx. unfold alarm_face_wants_background_task.
  run_proc. fold now.
  destruct (alarm_handled_minute (state w) =? RTC.minute now); [reflexivity|].
  cbn [negb andb]. fold a. fold idx.
  destruct (enabled a); cbn [andb].
  2:{ destruct (Z.rem _ _ =? 0); reflexivity. }
  destruct (minute a =? RTC.minute now); cbn [andb].
  2:{ destruct (Z.rem _ _ =? 0); reflexivity. }
  destruct (hour a =? RTC.hour now); cbn [andb].
  2:{ destruct (Z.rem _ _ =? 0); reflexivity. }
  destruct (day a =? ALARM_DAY_EACH_DAY); cbn [orb]; [reflexivity|].
  destruct (day a =? idx); cbn [orb]; [reflexivity|].
  destruct ((day a =? ALARM_DAY_WORKDAY) && (idx <? 5)); cbn [orb];
    [reflexivity|].
  destruct ((day a =? ALARM_DAY_WEEKEND) && (idx >=? 5)); cbn [orb];
    [reflexivity|].
  destruct (Z.rem _ _ =? 0); reflexivity.
Qed.




(** *** The weekday index *)

Lemma range_In (lo n : nat) (x : Z) :
  Z.of_nat lo <= x < Z.of_nat lo + Z.of_nat n -> In x (WeekdayCheck.range lo n).
Proof.
  intros H. unfold WeekdayCheck.range. apply in_map_iff.
  exists (Z.to_nat x). split; [lia|]. apply in_seq. lia.
Qed.

(** All dates from 1 January 2020 to 31 December 2099. *)
Lemma all_agree_true : forallb WeekdayCheck.agrees_in_year (seq 0 80) = true.
Proof. vm_compute. reflexivity. Qed.

Lemma days_in_month_range (y m : Z) : 28 <= Calendar.days_in_month y m <= 31.
Proof.
  unfold Calendar.days_in_month.
  destruct (m =? 2); [destruct (Calendar.is_leap_year y); lia|].
  destruct ((m =? 4) || (m =? 6) || (m =? 9) || (m =? 11)); lia.
Qed.

Lemma agrees_in_year_true (n : nat) :
  (n < 80)%nat -> WeekdayCheck.agrees_in_year n = true.
Proof.
  intros Hn. apply (proj1 (forallb_forall _ _) all_agree_true).
  apply in_seq. lia.
Qed.

Lemma agrees_in_month_true (n k : nat) :
  (n < 80)%nat -> (k < 12)%nat ->
  WeekdayCheck.agrees_in_month n (Calendar.days_before_year n) k = true.
Proof.
  intros Hn Hk. pose proof (agrees_in_year_true n Hn) as H.
  unfold WeekdayCheck.agrees_in_year in H. cbv zeta in H.
  rewrite forallb_forall in H. apply H. apply in_seq. lia.
Qed.

Lemma agrees_on_day_true (n k : nat) (d : Z) :
  (n < 80)%nat -> (k < 12)%nat ->
  1 <= d <= Calendar.days_in_month
              (RTC.WATCH_RTC_REFERENCE_YEAR + Z.of_nat n) (Z.of_nat (S k)) ->
  WeekdayCheck.agrees_on_day (Z.of_nat n) (Z.of_nat (S k))
    (Calendar.days_before_year n
     + Calendar.days_before_month
         (RTC.WATCH_RTC_REFERENCE_YEAR + Z.of_nat n) k) d = true.
Proof.
  intros Hn Hk Hd. pose proof (agrees_in_month_true n k Hn Hk) as H.
  unfold WeekdayCheck.agrees_in_month in H. cbv zeta in H.
  rewrite forallb_forall in H. apply H. apply range_In. lia.
Qed.

(** The exhaustive check, read at one date. *)
Lemma agrees_at (t : RTC.watch_date_time) :
  Calendar.valid_date t -> Calendar.civil_year t <= 2099 ->
  _get_weekday_idx 7 4 t = Calendar.civil_weekday t.
Proof.
  intros (Hy & Hm & Hd) Hc.
  unfold Calendar.civil_year in Hc, Hd.
  assert (RTC.year t <= 79) as Hy'
    by (unfold RTC.WATCH_RTC_REFERENCE_YEAR in Hc; lia).
  pose proof (agrees_on_day_true (Z.to_nat (RTC.year t))
                (Z.to_nat (RTC.month t - 1)) (RTC.day t)) as H.
  replace (Z.of_nat (S (Z.to_nat (RTC.month t - 1)))) with (RTC.month t)
    in H by lia.
  rewrite Z2Nat.id in H by lia.
  specialize (H ltac:(lia) ltac:(lia) Hd).
  apply Z.eqb_eq in H.
  unfold Calendar.civil_weekday, Calendar.days_since_reference,
    Calendar.civil_year.
  rewrite <- H. destruct t. reflexivity.
Qed.

(** Without overflow of the [year] and [month] fields, their widths do not
    matter. *)
Lemma weekday_idx_no_wrap (yb mb : nat) (t : RTC.watch_date_time) :
  0 <= RTC.year t <= 79 -> RTC.year t + 20 < 2 ^ Z.of_nat yb ->
  1 <= RTC.month t <= 12 -> (4 <= mb)%nat ->
  _get_weekday_idx yb mb t = _get_weekday_idx 7 4 t.
Proof.
  intros Hy Hyb Hm Hmb.
  assert (2 ^ 4 <= 2 ^ Z.of_nat mb) as Hp
    by (apply Z.pow_le_mono_r; lia).
  change (2 ^ 4) with 16 in Hp.
  unfold _get_weekday_idx.
  rewrite (wrap_small yb (RTC.year t + 20)) by lia.
  rewrite (wrap_small 7 (RTC.year t + 20)) by (simpl Z.of_nat; lia).
  destruct (RTC.month t <=? 2) eqn:E; [|reflexivity].
  apply Z.leb_le in E.
  rewrite (wrap_small yb), (wrap_small mb), (wrap_small 7), (wrap_small 4);
    simpl Z.of_nat; try lia.
Qed.

(** Whatever the widths of the fields: on every date of the calendar from
    1 January 2020 to 31 December 2099 whose year, counted from 2000, fits
    the year field of the clock, the weekday index is a number from 0 to 6
    and is the weekday of the date, Monday being 0; it is 0 on
    1 January 2024 and 4 on 1 March 2024. *)
Theorem weekday_idx_is_civil_weekday (year_bits month_bits : nat) :
  (4 <= month_bits)%nat ->
  (forall t : RTC.watch_date_time,
      Calendar.valid_date t ->
      Calendar.civil_year t <= 2099 ->
      RTC.year t + 20 < 2 ^ Z.of_nat year_bits ->
      0 <= _get_weekday_idx year_bits month_bits t <= 6
      /\ _get_weekday_idx year_bits month_bits t = Calendar.civil_weekday t)
  /\ ((5 <= year_bits)%nat ->
      _get_weekday_idx year_bits month_bits (Calendar.date 2024 1 1) = 0
      /\ _get_weekday_idx year_bits month_bits (Calendar.date 2024 3 1) = 4).
Proof.
  intros Hmb.
  assert (forall t : RTC.watch_date_time,
             Calendar.valid_date t ->
             Calendar.civil_year t <= 2099 ->
             RTC.year t + 20 < 2 ^ Z.of_nat year_bits ->
             _get_weekday_idx year_bits month_bits t
             = Calendar.civil_weekday t) as Hall.
  { intros t (Hy & Hm & Hd) Hc Hyb.
    unfold Calendar.civil_year, RTC.WATCH_RTC_REFERENCE_YEAR in Hc.
    rewrite weekday_idx_no_wrap by lia.
    apply agrees_at; [repeat split; lia | exact Hc]. }
  split.
  - intros t Hv Hc Hyb. split; [|exact (Hall t Hv Hc Hyb)].
    rewrite (Hall t Hv Hc Hyb). unfold Calendar.civil_weekday.
    pose proof (Z.mod_pos_bound (2 + Calendar.days_since_reference t) 7).
    lia.
  - intros Hyb.
    assert (2 ^ 5 <= 2 ^ Z.of_nat year_bits) as Hp
      by (apply Z.pow_le_mono_r; lia).
    change (2 ^ 5) with 32 in Hp.
    split.
    + rewrite weekday_idx_no_wrap by (cbv [Calendar.date RTC.year RTC.month
             RTC.WATCH_RTC_REFERENCE_YEAR]; lia).
      vm_compute. reflexivity.
    + rewrite weekday_idx_no_wrap by (cbv [Calendar.date RTC.year RTC.month
             RTC.WATCH_RTC_REFERENCE_YEAR]; lia).
      vm_compute. reflexivity.
Qed.

(** The bound on the year is met: if the year field has six bits, which
    hold the years to 2083, the year counted from 2000 no longer fits from
    2064 on, and on 1 March 2064, a Saturday, the index is 2. *)
Lemma weekday_idx_year_overflow :
  _get_weekday_idx 6 4 (Calendar.date 2064 3 1) = 2
  /\ Calendar.civil_weekday (Calendar.date 2064 3 1) = 5.
Proof. split; vm_compute; reflexivity. Qed.

(** When the year counted from 2000 no longer fits six bits, the year the
    function works with is 64 too small, and the index is 4 days on. *)
Lemma weekday_idx_wrapped (t : RTC.watch_date_time) :
  Calendar.valid_date t ->
  44 <= RTC.year t <= 63 ->
  45 <= RTC.year t \/ 3 <= RTC.month t ->
  _get_weekday_idx 6 4 t = (_get_weekday_idx 7 4 t + 4) mod 7.
Proof.
  intros (Hy & Hm & Hd) Hyr Hfrom.
  pose proof (days_in_month_range (Calendar.civil_year t) (RTC.month t))
    as Hdim.
  unfold _get_weekday_idx.
  assert (wrap 6 (RTC.year t + 20) = RTC.year t - 44) as H6.
  { unfold wrap. change (2 ^ Z.of_nat 6) with 64.
    Z.to_euclidean_division_equations. lia. }
  assert (wrap 7 (RTC.year t + 20) = RTC.year t + 20) as H7
      by (apply wrap_small; change (2 ^ Z.of_nat 7) with 128; lia).
  rewrite H6, H7.
  destruct (RTC.month t <=? 2) eqn:E.
  - apply Z.leb_le in E.
    assert (wrap 6 (RTC.year t - 44 - 1) = RTC.year t - 45) as H6'
        by (rewrite wrap_small;
            [lia | change (2 ^ Z.of_nat 6) with 64; lia]).
    assert (wrap 7 (RTC.year t + 20 - 1) = RTC.year t + 19) as H7'
        by (rewrite wrap_small;
            [lia | change (2 ^ Z.of_nat 7) with 128; lia]).
    assert (wrap 4 (RTC.month t + 12) = RTC.month t + 12) as H4
        by (apply wrap_small; change (2 ^ Z.of_nat 4) with 16; lia).
    rewrite H6', H7', H4. unfold uint8, wrap.
    change (2 ^ Z.of_nat 8) with 256.
    Z.to_euclidean_division_equations. lia.
  - apply Z.leb_gt in E. unfold uint8, wrap.
    change (2 ^ Z.of_nat 8) with 256.
    Z.to_euclidean_division_equations. lia.
Qed.

(** In January and February 2064 the year counted from 2000 wraps to 0,
    and the year before it to 63, which is right. *)
Lemma weekday_idx_early_2064 (t : RTC.watch_date_time) :
  RTC.year t = 44 -> 1 <= RTC.month t <= 2 ->
  _get_weekday_idx 6 4 t = _get_weekday_idx 7 4 t.
Proof.
  intros Hy Hm. unfold _get_weekday_idx. rewrite Hy.
  change (wrap 6 (44 + 20)) with 0. change (wrap 7 (44 + 20)) with 64.
  assert ((RTC.month t <=? 2) = true) as E by (apply Z.leb_le; lia).
  rewrite E. reflexivity.
Qed.

(** C3, on the code.  The clock of the watch counts the years from 2020
    in a field of six bits, so it holds the dates to 31 December 2083,
    and [_get_weekday_idx] adds 20 to the year in that field.  On every
    date of the calendar from 1 January 2020 to 29 February 2064 the index
    is the weekday of the date, Monday being 0: it is 0 on 1 January 2024
    and 4 on 1 March 2024.  On every date from 1 March 2064 to
    31 December 2083 the sum has wrapped and the index is the weekday
    plus 4 modulo 7, never the weekday: on 1 March 2064, a Saturday (5),
    it is 2. *)
Theorem weekday_idx_wrong_from_march_2064 :
  (forall t : RTC.watch_date_time,
      Calendar.valid_date t ->
      Calendar.civil_year t < 2064
      \/ (Calendar.civil_year t = 2064 /\ RTC.month t <= 2) ->
      _get_weekday_idx 6 4 t = Calendar.civil_weekday t)
  /\ (forall t : RTC.watch_date_time,
         Calendar.valid_date t ->
         Calendar.civil_year t <= 2083 ->
         2064 < Calendar.civil_year t
         \/ (Calendar.civil_year t = 2064 /\ 3 <= RTC.month t) ->
         _get_weekday_idx 6 4 t = (Calendar.civil_weekday t + 4) mod 7
         /\ _get_weekday_idx 6 4 t <> Calendar.civil_weekday t)
  /\ Calendar.valid_date (Calendar.date 2064 3 1)
  /\ _get_weekday_idx 6 4 (Calendar.date 2064 3 1) = 2
  /\ Calendar.civil_weekday (Calendar.date 2064 3 1) = 5
  /\ _get_weekday_idx 6 4 (Calendar.date 2024 1 1) = 0
  /\ _get_weekday_idx 6 4 (Calendar.date 2024 3 1) = 4.
Proof.
  split; [|split].
  - intros t Hv Hbefore. pose proof Hv as (Hy & Hm & Hd).
    unfold Calendar.civil_year, RTC.WATCH_RTC_REFERENCE_YEAR in Hbefore.
    rewrite <- (agrees_at t Hv)
      by (unfold Calendar.civil_year, RTC.WATCH_RTC_REFERENCE_YEAR; lia).
    destruct Hbefore as [Hlt | [Heq Hmo]].
    + apply weekday_idx_no_wrap;
        first [lia | change (2 ^ Z.of_nat 6) with 64; lia].
    + apply weekday_idx_early_2064; lia.
  - intros t Hv Hc Hfrom. pose proof Hv as (Hy & Hm & Hd).
    unfold Calendar.civil_year, RTC.WATCH_RTC_REFERENCE_YEAR in Hc, Hfrom.
    assert (_get_weekday_idx 6 4 t = (Calendar.civil_weekday t + 4) mod 7)
      as Hidx.
    { rewrite <- (agrees_at t Hv)
        by (unfold Calendar.civil_year, RTC.WATCH_RTC_REFERENCE_YEAR; lia).
      apply weekday_idx_wrapped; [exact Hv | lia | lia]. }
    split; [exact Hidx|]. rewrite Hidx.
    unfold Calendar.civil_weekday.
    Z.to_euclidean_division_equations. lia.
  - assert (Calendar.valid_date (Calendar.date 2064 3 1)) as Hv
        by (unfold Calendar.valid_date; cbn; lia).
    split; [exact Hv|]. repeat split; vm_compute; reflexivity.
Qed.


(** *** The handled minute *)

Ltac unfold_alarm :=
  cbv beta iota zeta delta
    [bind get modify do_call ret skip result_of state_of calls_of fst snd
     alarm_face_loop alarm_face_resign alarm_face_activate
     alarm_face_wants_background_task
     _alarm_face_draw _alarm_set_signal _alarm_initiate_setting
     _alarm_resume_setting _alarm_update_alarm_enabled
     _alarm_play_short_beep _alarm_indicate_beep _abort_quick_ticks].

Ltac split_ifs :=
  repeat (unfold_alarm;
          match goal with
          | |- context [if ?b then _ else _] => destruct b
          end).





Lemma activate_keeps_state (w : world) :
  state_of (alarm_face_activate w) = w.
Proof. reflexivity. Qed.



Section OneMinute.

Variables year_bits month_bits : nat.
Variable t : RTC.watch_date_time.




End OneMinute.


(** *** Firing again *)

Section NextDay.

Variables year_bits month_bits : nat.







End NextDay.



(** *** The signal *)

(** C8.  On the background event the alarm plays the short double beep
    when its beep rounds are 0 (switching the buzzer on and off around it
    when it was off), as many rounds of the standard beep as its beep
    rounds when these are 1 to 9, and the long signal of twenty rounds when
    they are 10; the note is the one of the configured pitch, B6, C8 or A8
    for 0, 1 or 2; the state of the face stays as it was. *)
Theorem background_task_signal
  (e : movement_event_t) (i : inputs) (w : world) :
  event_type e = EVENT_BACKGROUND_TASK ->
  let a := alarm (state w) in
  let note := _buzzer_notes (pitch a) in
  let r := alarm_face_loop e i w in
  state_of r = w
  /\ (beeps a = 0 ->
      calls_of r
      = if watch_is_buzzer_or_led_enabled i then short_double_beep note
        else [watch_enable_buzzer] ++ short_double_beep note
             ++ [watch_disable_buzzer])
  /\ (1 <= beeps a <= 9 ->
      calls_of r = [movement_play_alarm_beeps (beeps a) note])
  /\ (beeps a = 10 -> calls_of r = [movement_play_alarm_beeps 20 note])
  /\ (_buzzer_notes 0 = BUZZER_NOTE_B6 /\ _buzzer_notes 1 = BUZZER_NOTE_C8
      /\ _buzzer_notes 2 = BUZZER_NOTE_A8).
Proof.
  intros He a note r. unfold r, alarm_face_loop. rewrite He.
  fold a. repeat split.
  - split_ifs; destruct w; reflexivity.
  - intros Hb. unfold_alarm. fold a. rewrite Hb. cbn [Z.eqb].
    destruct (watch_is_buzzer_or_led_enabled i); reflexivity.
  - intros Hb. unfold_alarm. fold a.
    destruct (Z.eqb_spec (beeps a) 0); [lia|].
    unfold ALARM_MAX_BEEP_ROUNDS.
    destruct (Z.eqb_spec (beeps a) (11 - 1)); [lia|]. reflexivity.
  - intros Hb. unfold_alarm. fold a. rewrite Hb. reflexivity.
Qed.


(** *** Instances *)

Import Examples.



Lemma weekday_idx_is_civil_weekday_witness :
  (4 <= 4)%nat
  /\ Calendar.valid_date (Calendar.date 2026 11 2)
  /\ _get_weekday_idx 6 4 (Calendar.date 2026 11 2)
     = Calendar.civil_weekday (Calendar.date 2026 11 2)
  /\ _get_weekday_idx 6 4 (Calendar.date 2024 1 1) = 0
  /\ _get_weekday_idx 6 4 (Calendar.date 2024 3 1) = 4.
Proof.
  destruct (weekday_idx_is_civil_weekday 6 4 (le_n 4)) as [Hall Hex].
  assert (Calendar.valid_date (Calendar.date 2026 11 2)) as Hv
      by (unfold Calendar.valid_date; cbn; lia).
  split; [apply le_n|]. split; [exact Hv|]. split.
  - apply (Hall (Calendar.date 2026 11 2) Hv); cbn; lia.
  - apply Hex. repeat constructor.
Defined.

Lemma background_task_signal_witness :
  event_type (alarm_event EVENT_BACKGROUND_TASK) = EVENT_BACKGROUND_TASK
  /\ calls_of
       (alarm_face_loop (alarm_event EVENT_BACKGROUND_TASK)
          (clock 2024 1 1 7 30) alarm_0730)
     = [movement_play_alarm_beeps 5 BUZZER_NOTE_C8].
Proof.
  split; [reflexivity|].
  destruct (background_task_signal (alarm_event EVENT_BACKGROUND_TASK)
              (clock 2024 1 1 7 30) alarm_0730 eq_refl)
    as (_ & _ & Hrounds & _).
  apply Hrounds. cbn. lia.
Defined.

End AlarmFacts.

(** * Properties of the timer face *)

Module TimerFacts.

Import C CFacts Timer TimerInv.

Ltac unfold_timer :=
  cbv beta iota zeta delta
    [bind get modify do_call ret skip result_of state_of calls_of fst snd
     timer_face_loop timer_face_activate timer_face_resign step
     _signal_callback _start _draw _reset _resume_setting
     _settings_increment _abort_quick_cycle _check_for_signal].

Ltac split_cases :=
  repeat (unfold_timer;
          match goal with
          | |- context [if ?b then _ else _] => destruct b eqn:?
          | |- context [match ?m with
                        | waiting => _ | running => _
                        | setting => _ | pausing => _ end] =>
              destruct m eqn:?
          end).

(** *** The packed value *)

Lemma value_eq (t : timer_setting_t) :
  value t = seconds t + minutes t * 2 ^ 8 + hours t * 2 ^ 16
            + (if repeat t then 1 else 0) * 2 ^ 24.
Proof. unfold value. rewrite !Z.shiftl_mul_pow2 by lia. reflexivity. Qed.

Lemma value_zero_iff (t : timer_setting_t) :
  wf_timer t ->
  (value t = 0 <-> duration_unset t = true /\ repeat t = false).
Proof.
  intros (Hs & Hm & Hh). rewrite value_eq. unfold duration_unset.
  rewrite !andb_true_iff, !Z.eqb_eq.
  destruct (repeat t); split; intros H; try lia;
    try (destruct H; discriminate); try (split; [lia | reflexivity]).
Qed.

(** The masked test of the cursor advance is the test for an unset
    duration. *)
Lemma mask_zero (t : timer_setting_t) :
  wf_timer t ->
  (Z.land (value t) 0xFFFFFF =? 0) = duration_unset t.
Proof.
  intros (Hs & Hm & Hh).
  change 0xFFFFFF with (Z.ones 24). rewrite Z.land_ones by lia.
  rewrite value_eq.
  rewrite Z.mod_add by lia.
  rewrite Z.mod_small by lia.
  unfold duration_unset.
  destruct (Z.eqb_spec (hours t) 0), (Z.eqb_spec (minutes t) 0),
    (Z.eqb_spec (seconds t) 0); cbn [andb];
    first [apply Z.eqb_eq; lia | apply Z.eqb_neq; lia].
Qed.

Lemma repeat_value_nonzero (t : timer_setting_t) :
  0 <= seconds t -> 0 <= minutes t -> 0 <= hours t ->
  repeat t = true -> value t <> 0.
Proof. intros Hs Hm Hh Hr. rewrite value_eq, Hr. lia. Qed.

Lemma rem_succ_range (x n : Z) :
  0 <= x -> 0 < n -> 0 <= Z.rem (x + 1) n < n.
Proof. intros Hx Hn. apply Z.rem_bound_pos; lia. Qed.



(** *** What the procedures do to the state *)

Import HostFacts.

Ltac simpl_state :=
  cbn [state _beeps_to_play upd_state set_beeps_to_play
       target_ts now_ts paused_left pausing_seconds watch_face_index timer
       loop_count settings_state erase_timer_flag mode quick_cycle
       set_target_ts set_now_ts set_paused_left set_pausing_seconds
       set_watch_face_index set_timer set_loop_count set_settings_state
       set_erase_timer_flag set_mode set_quick_cycle upd_timer
       seconds minutes hours repeat
       set_seconds set_minutes set_hours set_repeat] in *.

Ltac state_cases :=
  repeat (autorewrite with proc_state;
          match goal with
          | |- context [state_of ((if ?b then _ else _) _)] =>
              destruct b eqn:?
          | |- context [result_of ((if ?b then _ else _) _)] =>
              destruct b eqn:?
          | |- context [state_of (match ?m with
                                  | waiting => _ | running => _
                                  | setting => _ | pausing => _ end _)] =>
              destruct m eqn:?
          | |- context [result_of (match ?m with
                                   | waiting => _ | running => _
                                   | setting => _ | pausing => _ end _)] =>
              destruct m eqn:?
          end);
  autorewrite with proc_state.

Lemma draw_state (sub : Z) (w : world) : state_of (_draw sub w) = w.
Proof. unfold _draw. state_cases; reflexivity. Qed.

Lemma abort_quick_cycle_state (w : world) :
  state_of (_abort_quick_cycle w)
  = if quick_cycle (state w) then upd_state (set_quick_cycle false) w else w.
Proof. unfold _abort_quick_cycle. state_cases; reflexivity. Qed.

Lemma check_for_signal_result (w : world) :
  result_of (_check_for_signal w) = negb (_beeps_to_play w =? 0).
Proof. unfold _check_for_signal. state_cases; reflexivity. Qed.

Lemma check_for_signal_state (w : world) :
  state_of (_check_for_signal w)
  = if negb (_beeps_to_play w =? 0) then set_beeps_to_play 0 w else w.
Proof. unfold _check_for_signal. state_cases; reflexivity. Qed.

Lemma reset_state (w : world) :
  state_of (_reset w) = upd_state (set_mode waiting) w.
Proof. unfold _reset. state_cases; reflexivity. Qed.

Lemma resume_setting_state (w : world) :
  state_of (_resume_setting w)
  = upd_state (set_mode waiting) (upd_state (set_settings_state 0) w).
Proof. unfold _resume_setting. state_cases; reflexivity. Qed.

(** [_start] refuses a packed value of zero and otherwise reads the clock,
    sets the target and runs. *)
Lemma start_state (i : inputs) (with_beep : bool) (w : world) :
  state_of (_start i with_beep w)
  = if value (timer (state w)) =? 0 then w
    else
      let st := set_now_ts (unix_time_now i) (state w) in
      let target :=
        if mode_eqb (mode st) pausing
        then uint32 (now_ts st + paused_left st)
        else watch_utility_offset_timestamp
               (now_ts st) (hours (timer st)) (minutes (timer st))
               (seconds (timer st)) in
      upd_state (fun _ => set_mode running (set_target_ts target st)) w.
Proof.
  unfold _start. state_cases; cbv zeta; simpl_state;
    try reflexivity; try congruence.
  all: match goal with
       | H : mode_eqb _ _ = _ |- _ => rewrite H
       end; reflexivity.
Qed.

Lemma settings_increment_state (w : world) :
  state_of (_settings_increment w)
  = let st := state w in
    let c := settings_state st in
    if c =? 0
    then upd_state (set_erase_timer_flag (negb (erase_timer_flag st))) w
    else if c =? 1
    then upd_state (upd_timer
                      (fun t => set_hours (Z.rem (hours t + 1) 24) t)) w
    else if c =? 2
    then upd_state (upd_timer
                      (fun t => set_minutes (Z.rem (minutes t + 1) 60) t)) w
    else if c =? 3
    then upd_state (upd_timer
                      (fun t => set_seconds (Z.rem (seconds t + 1) 60) t)) w
    else if c =? 4
    then upd_state (upd_timer (fun t => set_repeat (negb (repeat t)) t)) w
    else w.
Proof. unfold _settings_increment. state_cases; reflexivity. Qed.

#[local] Hint Rewrite draw_state abort_quick_cycle_state
  check_for_signal_result check_for_signal_state reset_state
  resume_setting_state start_state settings_increment_state : proc_state.



(** *** The invariant *)

Lemma of_value_0 :
  of_value 0 = {| seconds := 0; minutes := 0; hours := 0; repeat := false |}.
Proof. reflexivity. Qed.

Lemma of_value_default :
  of_value _default_timer_value
  = {| seconds := 0; minutes := 1; hours := 0; repeat := false |}.
Proof. reflexivity. Qed.

Ltac bool_facts :=
  repeat match goal with
    | H : (_ =? _) = true |- _ => apply Z.eqb_eq in H
    | H : (_ =? _) = false |- _ => apply Z.eqb_neq in H
    | H : _ && _ = true |- _ =>
        apply andb_true_iff in H; destruct H
    | H : _ || _ = false |- _ =>
        apply orb_false_iff in H; destruct H
    | H : negb _ = true |- _ => apply negb_true_iff in H
    | H : negb _ = false |- _ => apply negb_false_iff in H
    end.

Lemma setup_invariant (face_index : Z) :
  invariant (timer_face_setup face_index).
Proof.
  unfold invariant, timer_face_setup, wf_timer. rewrite of_value_default.
  simpl_state. repeat split; intros; try lia; try discriminate.
Qed.

Ltac rem_lia :=
  Z.to_euclidean_division_equations; lia.

Ltac inv_leaf :=
  autorewrite with proc_state in *;
  unfold invariant, wf_timer in *; simpl_state;
  try match goal with
    | He : setting = setting -> true = true -> _ |- _ =>
        specialize (He eq_refl eq_refl)
    end;
  rewrite ?of_value_0 in *; simpl_state;
  repeat match goal with
    | M : (Z.land (value ?t) _ =? 0) = duration_unset ?t,
      H : context [Z.land (value ?t) _ =? 0] |- _ => rewrite M in H
    end;
  unfold duration_unset in *; simpl_state;
  bool_facts;
  repeat match goal with
    | H : _ && _ = false |- _ => apply andb_false_iff in H; destruct H
    end;
  bool_facts;
  repeat split; intros; simpl_state;
  try lia; try congruence; try discriminate; auto; try rem_lia.

Lemma step_invariant (pl : nat) (c : inputs * entry) (w : world) :
  invariant w -> invariant (step pl c w).
Proof.
  intros (Hwf & Hc & He & H4).
  pose proof Hwf as (Hs & Hm & Hh).
  pose proof (rem_succ_range (seconds (timer (state w))) 60) as Rs.
  pose proof (rem_succ_range (minutes (timer (state w))) 60) as Rm.
  pose proof (rem_succ_range (hours (timer (state w))) 24) as Rh.
  pose proof (rem_succ_range (settings_state (state w)) 5) as Rc.
  pose proof (mask_zero (timer (state w)) Hwf) as Hmask.
  destruct c as [i e]. destruct e as [ | [ty sub] | | ];
    unfold step; cbn [fst snd].
  - unfold timer_face_activate. state_cases; inv_leaf.
  - unfold timer_face_loop; cbn [event_type subsecond]; destruct ty;
      state_cases; cbv zeta;
      repeat match goal with
        | |- context [if ?b then _ else _] => destruct b eqn:?
        end.
    all: inv_leaf.
  - unfold timer_face_resign. state_cases; inv_leaf.
  - unfold _signal_callback. state_cases; inv_leaf.
Qed.

Lemma run_invariant (pl : nat) (cs : list (inputs * entry)) :
  forall w, invariant w -> invariant (run pl cs w).
Proof.
  induction cs as [|c cs IH]; intros w Hw; [exact Hw|].
  cbn [run fold_left]. apply IH. apply step_invariant. exact Hw.
Qed.

Lemma reachable_invariant (pl : nat) (w : world) :
  reachable pl w -> invariant w.
Proof.
  intros (face_index & cs & ->). apply run_invariant, setup_invariant.
Qed.

(** *** The settings cursor *)

(** The cursor advance, as a state transformer. *)
Lemma light_button_up_setting
  (pl : nat) (e : movement_event_t) (i : inputs) (w : world) :
  event_type e = EVENT_LIGHT_BUTTON_UP ->
  mode (state w) = setting ->
  state_of (timer_face_loop pl e i w)
  = let w1 :=
      if erase_timer_flag (state w)
      then upd_state (set_erase_timer_flag false)
             (upd_state (set_timer (of_value 0)) w)
      else w in
    let w2 :=
      upd_state
        (set_settings_state (Z.rem (settings_state (state w1) + 1) 5)) w1 in
    if settings_state (state w2) =? 0
    then upd_state (set_mode waiting) (upd_state (set_settings_state 0) w2)
    else if (settings_state (state w2) =? 4)
            && (Z.land (value (timer (state w2))) 0xFFFFFF =? 0)
    then upd_state (set_settings_state 1) w2
    else w2.
Proof.
  intros He Hm. unfold timer_face_loop. rewrite He.
  autorewrite with proc_state. rewrite Hm. cbv zeta.
  state_cases; autorewrite with proc_state in *; simpl_state;
    repeat match goal with
      | H : _ = true |- _ => rewrite H
      | H : _ = false |- _ => rewrite H
      end; reflexivity.
Qed.

(** C7.  In the settings, a short press of the light button first applies
    a pending erase request, which zeroes the packed timer value and is
    pending only at cursor position 0, then moves the cursor to
    (cursor + 1) mod 5: from 0 through 1, 2, 3 to 4 and back to 0, where
    the settings end; but with an unset duration the cursor that would
    reach position 4 lands on position 1. *)
Theorem cursor_advance
  (pl : nat) (e : movement_event_t) (i : inputs) (w : world) :
  reachable pl w ->
  mode (state w) = setting ->
  event_type e = EVENT_LIGHT_BUTTON_UP ->
  let st := state w in
  let c := settings_state st in
  let st' := state (state_of (timer_face_loop pl e i w)) in
  0 <= c <= 4
  /\ (erase_timer_flag st = true -> c = 0)
  /\ timer st' = (if erase_timer_flag st then of_value 0 else timer st)
  /\ (erase_timer_flag st = true -> value (timer st') = 0)
  /\ erase_timer_flag st' = false
  /\ settings_state st'
     = (if ((c + 1) mod 5 =? 4) && duration_unset (timer st') then 1
        else (c + 1) mod 5)
  /\ (duration_unset (timer st') = false ->
      settings_state st' = (c + 1) mod 5)
  /\ mode st' = (if (c + 1) mod 5 =? 0 then waiting else setting).
Proof.
  intros Hr Hmode Hev st c st'.
  destruct (reachable_invariant pl w Hr) as (Hwf & Hc & He & H4).
  fold st in Hwf, Hc, He, H4, Hmode. fold c in Hc, He, H4.
  specialize (He Hmode).
  pose proof (mask_zero (timer st) Hwf) as Hmask.
  pose proof (Z.mod_pos_bound (c + 1) 5 ltac:(lia)) as Hb.
  assert (Z.rem (c + 1) 5 = (c + 1) mod 5) as Hrem
      by (apply Z.rem_mod_nonneg; lia).
  unfold st'. rewrite (light_button_up_setting pl e i w Hev Hmode).
  cbv zeta. fold st.
  destruct (erase_timer_flag st) eqn:Hflag.
  - (* the erase request is applied; the cursor leaves position 0 *)
    specialize (He eq_refl). simpl_state. fold st. fold c.
    rewrite He. change (Z.rem (0 + 1) 5) with 1.
    change ((0 + 1) mod 5) with 1. rewrite of_value_0.
    change (1 =? 0) with false. change (1 =? 4) with false.
    cbn [andb]. simpl_state.
    repeat split; try reflexivity; try lia; try discriminate;
      try exact Hmode.
  - simpl_state. fold st. fold c. rewrite Hrem.
    destruct (Z.eqb_spec ((c + 1) mod 5) 0) as [E0|E0].
    + simpl_state. fold st. rewrite E0. cbn [Z.eqb andb].
      repeat split; try reflexivity; try lia; try discriminate;
        try exact Hflag.
    + destruct (Z.eqb_spec ((c + 1) mod 5) 4) as [E4|E4]; cbn [andb].
      * rewrite Hmask.
        destruct (duration_unset (timer st)) eqn:Hun; simpl_state;
          fold st; rewrite ?Hun;
          repeat split; try reflexivity; try lia; try discriminate;
          try exact Hmode; try exact Hflag.
      * simpl_state. fold st.
        repeat split; try reflexivity; try lia; try discriminate;
          try exact Hmode; try exact Hflag.
Qed.




(** *** Resigning *)

(** C9.  Resigning the face ends a settings edit: from the settings the
    mode returns to waiting and the cursor to 0.  It makes no call, so it
    neither cancels nor schedules a background task; it keeps the target
    and current timestamps, the paused remainder, the timer, the loop count
    and the pending beeps; and outside the settings, so for a running or
    pausing timer, it changes nothing at all. *)
Theorem resign_keeps_running_timer (w : world) :
  let st := state w in
  let r := timer_face_resign w in
  let st' := state (state_of r) in
  calls_of r = []
  /\ _beeps_to_play (state_of r) = _beeps_to_play w
  /\ target_ts st' = target_ts st
  /\ now_ts st' = now_ts st
  /\ paused_left st' = paused_left st
  /\ timer st' = timer st
  /\ loop_count st' = loop_count st
  /\ match mode st with
     | setting => mode st' = waiting /\ settings_state st' = 0
     | _ => state_of r = w
     end.
Proof.
  cbv zeta. unfold timer_face_resign.
  destruct w as [st b]. destruct st. cbn [state mode].
  destruct mode0; cbn; repeat split; reflexivity.
Qed.

(** *** Expiry *)

Import TimerScenario.

Lemma background_fire_repeat
  (pl : nat) (e : movement_event_t) (i : inputs) (w : world) :
  event_type e = EVENT_BACKGROUND_TASK ->
  wf_timer (timer (state w)) ->
  repeat (timer (state w)) = true ->
  state_of (timer_face_loop pl e i w)
  = let t := timer (state w) in
    {| state :=
         set_mode running
           (set_target_ts
              (watch_utility_offset_timestamp (unix_time_now i)
                 (hours t) (minutes t) (seconds t))
              (set_now_ts (unix_time_now i)
                 (set_loop_count
                    (uint8 (Z.rem (loop_count (state w) + 1) 10))
                    (set_mode waiting (state w)))));
       _beeps_to_play := 4 |}.
Proof.
  intros He (Hs & Hm & Hh) Hrep.
  assert ((value (timer (state w)) =? 0) = false) as Hv
      by (apply Z.eqb_neq, repeat_value_nonzero; [lia | lia | lia | exact Hrep]).
  unfold timer_face_loop. rewrite He.
  autorewrite with proc_state. simpl_state. rewrite Hrep.
  autorewrite with proc_state. simpl_state. rewrite Hv.
  reflexivity.
Qed.

Lemma background_fire_once
  (pl : nat) (e : movement_event_t) (i : inputs) (w : world) :
  event_type e = EVENT_BACKGROUND_TASK ->
  repeat (timer (state w)) = false ->
  state_of (timer_face_loop pl e i w)
  = {| state := set_loop_count 0 (set_mode waiting (state w));
       _beeps_to_play := 4 |}.
Proof.
  intros He Hrep. unfold timer_face_loop. rewrite He.
  autorewrite with proc_state. simpl_state. rewrite Hrep.
  autorewrite with proc_state. reflexivity.
Qed.

Lemma loop_count_step (k : Z) :
  0 <= k -> uint8 (Z.rem (k + 1) 10) = (k + 1) mod 10.
Proof.
  intros Hk. rewrite Z.rem_mod_nonneg by lia.
  unfold uint8, wrap. apply Z.mod_small.
  pose proof (Z.mod_pos_bound (k + 1) 10). simpl Z.of_nat. lia.
Qed.

Lemma fire_all_cons (pl : nat) (i : inputs) (l : list inputs) (w : world) :
  fire_all pl (i :: l) w
  = fire_all pl l
      (state_of (timer_face_loop pl (event EVENT_BACKGROUND_TASK) i w)).
Proof. reflexivity. Qed.

Lemma fire_all_repeat (pl : nat) (fires : list inputs) :
  forall w,
    wf_timer (timer (state w)) ->
    repeat (timer (state w)) = true ->
    0 <= loop_count (state w) < 10 ->
    let w' := fire_all pl fires w in
    let t := timer (state w) in
    timer (state w') = t
    /\ loop_count (state w')
       = (loop_count (state w) + Z.of_nat (length fires)) mod 10
    /\ (fires <> [] ->
        let now := unix_time_now (last fires (at_time 0)) in
        mode (state w') = running
        /\ now_ts (state w') = now
        /\ target_ts (state w')
           = watch_utility_offset_timestamp now
               (hours t) (minutes t) (seconds t)).
Proof.
  induction fires as [|i l IH]; intros w Hwf Hrep Hlc; cbv zeta.
  - cbn [fire_all fold_left length Z.of_nat].
    rewrite Z.add_0_r, Z.mod_small by lia.
    repeat split; try reflexivity; congruence.
  - rewrite fire_all_cons.
    pose proof (background_fire_repeat pl (event EVENT_BACKGROUND_TASK) i w
                  eq_refl Hwf Hrep) as Hstep.
    cbv zeta in Hstep.
    set (w1 := state_of
                 (timer_face_loop pl (event EVENT_BACKGROUND_TASK) i w))
      in *.
    assert (timer (state w1) = timer (state w)) as Ht
        by (rewrite Hstep; reflexivity).
    assert (loop_count (state w1) = (loop_count (state w) + 1) mod 10) as Hl
        by (rewrite Hstep; simpl_state; apply loop_count_step; lia).
    assert (0 <= loop_count (state w1) < 10) as Hl1
        by (rewrite Hl; apply Z.mod_pos_bound; lia).
    destruct (IH w1 ltac:(rewrite Ht; exact Hwf)
                 ltac:(rewrite Ht; exact Hrep) Hl1) as (IHt & IHl & IHlast).
    rewrite Ht in IHt, IHlast.
    split; [exact IHt|]. split.
    + rewrite IHl, Hl. rewrite Zplus_mod_idemp_l.
      f_equal. cbn [length]. lia.
    + intros _. destruct l as [|j l'].
      * cbn [fire_all fold_left last]. rewrite Hstep. simpl_state.
        repeat split; reflexivity.
      * change (last (i :: j :: l') (at_time 0))
          with (last (j :: l') (at_time 0)).
        apply IHlast. discriminate.
Qed.

(** C6.  A timer with the repeat flag set and a loop count of 0 has, after
    N background events in a row, the loop count N mod 10, and after the
    last of them it is running again, its target the time of that event
    plus the duration; a timer without the repeat flag goes back to waiting
    on a background event, with a loop count of 0. *)
Theorem loop_count_after_expiries (pl : nat) :
  (forall (fires : list inputs) (w : world),
      wf_timer (timer (state w)) ->
      repeat (timer (state w)) = true ->
      loop_count (state w) = 0 ->
      let w' := fire_all pl fires w in
      let t := timer (state w) in
      loop_count (state w') = Z.of_nat (length fires) mod 10
      /\ (fires <> [] ->
          let now := unix_time_now (last fires (at_time 0)) in
          mode (state w') = running
          /\ target_ts (state w')
             = watch_utility_offset_timestamp now
                 (hours t) (minutes t) (seconds t)))
  /\ (forall (e : movement_event_t) (i : inputs) (w : world),
         event_type e = EVENT_BACKGROUND_TASK ->
         repeat (timer (state w)) = false ->
         let w' := state_of (timer_face_loop pl e i w) in
         mode (state w') = waiting /\ loop_count (state w') = 0).
Proof.
  split.
  - intros fires w Hwf Hrep Hlc. cbv zeta.
    destruct (fire_all_repeat pl fires w Hwf Hrep ltac:(lia))
      as (_ & Hl & Hlast).
    rewrite Hlc in Hl. split; [exact Hl|].
    intros Hne. destruct (Hlast Hne) as (Hm & _ & Ht). split; assumption.
  - intros e i w He Hrep. cbv zeta.
    rewrite (background_fire_once pl e i w He Hrep). split; reflexivity.
Qed.



(** *** Start, pause and resume *)

Lemma start_state_set
  (i : inputs) (with_beep : bool) (w : world) :
  value (timer (state w)) <> 0 ->
  let st := state w in
  let now := unix_time_now i in
  let target :=
    if mode_eqb (mode st) pausing then uint32 (now + paused_left st)
    else watch_utility_offset_timestamp now (hours (timer st))
           (minutes (timer st)) (seconds (timer st)) in
  state (state_of (_start i with_beep w))
  = set_mode running (set_target_ts target (set_now_ts now st)).
Proof.
  intros Hv. cbv zeta. rewrite start_state.
  apply Z.eqb_neq in Hv. rewrite Hv. reflexivity.
Qed.

Lemma long_press_waiting
  (pl : nat) (e : movement_event_t) (i : inputs) (w : world) :
  event_type e = EVENT_ALARM_LONG_PRESS ->
  mode (state w) = waiting ->
  state_of (timer_face_loop pl e i w) = state_of (_start i true w).
Proof.
  intros He Hm. unfold timer_face_loop. rewrite He.
  autorewrite with proc_state. rewrite Hm.
  autorewrite with proc_state. reflexivity.
Qed.

Lemma button_up_running
  (pl : nat) (e : movement_event_t) (i : inputs) (w : world) :
  event_type e = EVENT_ALARM_BUTTON_UP ->
  mode (state w) = running ->
  _beeps_to_play w = 0 ->
  let st := state w in
  state (state_of (timer_face_loop pl e i w))
  = set_paused_left (wrap pl (uint32 (target_ts st - now_ts st)))
      (set_pausing_seconds 0
         (set_mode pausing
            (if quick_cycle st then set_quick_cycle false st else st)))
    /\ _beeps_to_play (state_of (timer_face_loop pl e i w)) = 0.
Proof.
  intros He Hm Hb. cbv zeta. unfold timer_face_loop. rewrite He.
  autorewrite with proc_state.
  destruct (quick_cycle (state w)) eqn:Hq; simpl_state; rewrite Hb;
    cbn [Z.eqb negb]; autorewrite with proc_state; simpl_state;
    rewrite Hm; autorewrite with proc_state; simpl_state;
    split; first [reflexivity | exact Hb].
Qed.

Lemma button_up_pausing
  (pl : nat) (e : movement_event_t) (i : inputs) (w : world) :
  event_type e = EVENT_ALARM_BUTTON_UP ->
  mode (state w) = pausing ->
  _beeps_to_play w = 0 ->
  value (timer (state w)) <> 0 ->
  let st := state w in
  mode (state (state_of (timer_face_loop pl e i w))) = running
  /\ target_ts (state (state_of (timer_face_loop pl e i w)))
     = uint32 (unix_time_now i + paused_left st).
Proof.
  intros He Hm Hb Hv. cbv zeta. unfold timer_face_loop. rewrite He.
  apply Z.eqb_neq in Hv.
  autorewrite with proc_state.
  destruct (quick_cycle (state w)) eqn:Hq; simpl_state; rewrite Hb;
    cbn [Z.eqb negb]; autorewrite with proc_state; simpl_state;
    rewrite Hm; autorewrite with proc_state; simpl_state;
    rewrite Hv; cbv zeta; simpl_state; rewrite Hm;
    split; reflexivity.
Qed.

Lemma set_duration_value (t : timer_setting_t) :
  wf_timer t -> duration_unset t = false -> value t <> 0.
Proof.
  intros Hwf Hun Hv. apply (value_zero_iff t Hwf) in Hv.
  destruct Hv as [Hv _]. congruence.
Qed.

(** The remainder of a timer paused at the very timestamp it started at is
    its duration. *)
Lemma remaining_at_start (t0 d : Z) :
  0 <= d < 2 ^ 32 -> uint32 (uint32 (t0 + d) - t0) = d.
Proof.
  intros Hd. unfold uint32, wrap. change (2 ^ Z.of_nat 32) with (2 ^ 32).
  rewrite Zminus_mod_idemp_l.
  replace (t0 + d - t0) with d by lia. apply Z.mod_small. exact Hd.
Qed.

(** Whatever the width of the field that stores the remainder: pausing a
    running timer stores the seconds from its current timestamp to its
    target, and resuming it at a time t2 sets the target t2 plus these
    seconds, whenever they fit that field;
    so a timer with a set duration that is started at t0, paused at once
    and resumed at once has the target t0 + h*3600 + m*60 + s of the
    uninterrupted run.  Timestamps are 32-bit. *)
Theorem pause_resume_keeps_remaining (pl : nat) :
  (forall (w : world) (e1 e2 : movement_event_t) (i1 i2 : inputs),
      event_type e1 = EVENT_ALARM_BUTTON_UP ->
      event_type e2 = EVENT_ALARM_BUTTON_UP ->
      mode (state w) = running ->
      _beeps_to_play w = 0 ->
      wf_timer (timer (state w)) ->
      duration_unset (timer (state w)) = false ->
      let remaining := uint32 (target_ts (state w) - now_ts (state w)) in
      remaining < 2 ^ Z.of_nat pl ->
      let w1 := state_of (timer_face_loop pl e1 i1 w) in
      let w2 := state_of (timer_face_loop pl e2 i2 w1) in
      mode (state w1) = pausing
      /\ paused_left (state w1) = remaining
      /\ mode (state w2) = running
      /\ target_ts (state w2) = uint32 (unix_time_now i2 + remaining))
  /\ (forall (w : world) (e0 e1 e2 : movement_event_t) (i0 i1 i2 : inputs)
             (t0 : Z),
         event_type e0 = EVENT_ALARM_LONG_PRESS ->
         event_type e1 = EVENT_ALARM_BUTTON_UP ->
         event_type e2 = EVENT_ALARM_BUTTON_UP ->
         unix_time_now i0 = t0 -> unix_time_now i2 = t0 ->
         0 <= t0 < 2 ^ 32 ->
         mode (state w) = waiting ->
         _beeps_to_play w = 0 ->
         wf_timer (timer (state w)) ->
         duration_unset (timer (state w)) = false ->
         duration_seconds (timer (state w)) < 2 ^ Z.of_nat pl ->
         let t := timer (state w) in
         let w1 := state_of (timer_face_loop pl e0 i0 w) in
         let w2 := state_of (timer_face_loop pl e1 i1 w1) in
         let w3 := state_of (timer_face_loop pl e2 i2 w2) in
         mode (state w1) = running
         /\ target_ts (state w1)
            = uint32 (t0 + hours t * 3600 + minutes t * 60 + seconds t)
         /\ mode (state w2) = pausing
         /\ mode (state w3) = running
         /\ target_ts (state w3) = target_ts (state w1)).
Proof.
  assert (forall (w : world) (e1 e2 : movement_event_t) (i1 i2 : inputs),
      event_type e1 = EVENT_ALARM_BUTTON_UP ->
      event_type e2 = EVENT_ALARM_BUTTON_UP ->
      mode (state w) = running ->
      _beeps_to_play w = 0 ->
      value (timer (state w)) <> 0 ->
      let remaining := uint32 (target_ts (state w) - now_ts (state w)) in
      remaining < 2 ^ Z.of_nat pl ->
      let w1 := state_of (timer_face_loop pl e1 i1 w) in
      let w2 := state_of (timer_face_loop pl e2 i2 w1) in
      mode (state w1) = pausing
      /\ paused_left (state w1) = remaining
      /\ mode (state w2) = running
      /\ target_ts (state w2) = uint32 (unix_time_now i2 + remaining))
    as Hpause.
  { intros w e1 e2 i1 i2 He1 He2 Hm Hb Hv remaining Hfit w1 w2.
    destruct (button_up_running pl e1 i1 w He1 Hm Hb) as [Hs1 Hb1].
    cbv zeta in Hs1. fold w1 in Hs1, Hb1.
    assert (0 <= remaining) as Hpos
        by (unfold remaining, uint32; apply wrap_range).
    assert (mode (state w1) = pausing) as Hm1
        by (rewrite Hs1; reflexivity).
    assert (paused_left (state w1) = remaining) as Hp1.
    { rewrite Hs1. simpl_state. apply wrap_small. fold remaining. lia. }
    assert (timer (state w1) = timer (state w)) as Ht1
        by (rewrite Hs1; simpl_state; destruct (quick_cycle (state w));
            reflexivity).
    destruct (button_up_pausing pl e2 i2 w1 He2 Hm1 Hb1
                ltac:(rewrite Ht1; exact Hv)) as [Hm2 Ht2].
    fold w2 in Hm2, Ht2. rewrite Hp1 in Ht2. repeat split; assumption. }
  split.
  - intros w e1 e2 i1 i2 He1 He2 Hm Hb Hwf Hun.
    apply Hpause; try assumption. apply set_duration_value; assumption.
  - intros w e0 e1 e2 i0 i1 i2 t0 He0 He1 He2 Hi0 Hi2 Ht0 Hm Hb Hwf Hun Hfit
           t w1 w2 w3.
    pose proof (set_duration_value _ Hwf Hun) as Hv.
    assert (state w1
            = set_mode running
                (set_target_ts
                   (watch_utility_offset_timestamp t0 (hours t) (minutes t)
                      (seconds t))
                   (set_now_ts t0 (state w)))) as Hs1.
    { unfold w1. rewrite (long_press_waiting pl e0 i0 w He0 Hm).
      rewrite (start_state_set i0 true w Hv). cbv zeta.
      rewrite Hm, Hi0. reflexivity. }
    assert (_beeps_to_play w1 = 0) as Hb1.
    { unfold w1. rewrite (long_press_waiting pl e0 i0 w He0 Hm).
      rewrite start_state. apply Z.eqb_neq in Hv. rewrite Hv.
      cbv zeta. exact Hb. }
    assert (0 <= duration_seconds t < 2 ^ 32) as Hd.
    { destruct Hwf as (? & ? & ?). unfold duration_seconds, t.
      change (2 ^ 32) with 4294967296. lia. }
    assert (uint32 (target_ts (state w1) - now_ts (state w1))
            = duration_seconds t) as Hrem.
    { rewrite Hs1. simpl_state. unfold watch_utility_offset_timestamp.
      replace (t0 + hours t * 3600 + minutes t * 60 + seconds t)
        with (t0 + duration_seconds t) by (unfold duration_seconds; lia).
      apply remaining_at_start. exact Hd. }
    destruct (Hpause w1 e1 e2 i1 i2 He1 He2
                ltac:(rewrite Hs1; reflexivity) Hb1
                ltac:(rewrite Hs1; exact Hv)
                ltac:(rewrite Hrem; exact Hfit))
      as (Hm2 & _ & Hm3 & Ht3).
    fold w2 in Hm2. fold w2 w3 in Hm3, Ht3.
    rewrite Hrem, Hi2 in Ht3.
    assert (target_ts (state w1)
            = uint32 (t0 + hours t * 3600 + minutes t * 60 + seconds t))
      as Ht1 by (rewrite Hs1; reflexivity).
    repeat split; try assumption.
    + rewrite Hs1. reflexivity.
    + rewrite Ht3, Ht1. f_equal. unfold duration_seconds. lia.
Qed.

(** The bound on the remainder is met: if the field that stores it has 16
    bits, a timer of 23 hours started at the timestamp 1000, paused at once
    and resumed at once has lost 65536 seconds of its 82800. *)
Lemma pause_truncates_in_16_bits :
  let start := (at_time 1000, Loop (event EVENT_ALARM_LONG_PRESS)) in
  let toggle := (at_time 1000, Loop (event EVENT_ALARM_BUTTON_UP)) in
  target_ts (state (run 16 [start] Examples.long_timer)) = 1000 + 82800
  /\ target_ts (state (run 16 [start; toggle; toggle] Examples.long_timer))
     = 1000 + 17264.
Proof. split; vm_compute; reflexivity. Qed.

(** C5, on the code.  The field [paused_left] of the face has 16 bits.
    A timer of at least 65536 seconds (18:12:16) that is started, paused
    at once and resumed at the time t2 has lost 65536 seconds: the pause
    stores its duration less 65536, and the target after the resume is
    t2 plus that, not t2 plus the duration of the uninterrupted run.  So
    the timer of 23 hours started at 1000 runs to 83800, and started,
    paused and resumed at 1000 it runs to 18264. *)
Theorem pause_resume_loses_65536_seconds :
  (forall (w : world) (e0 e1 e2 : movement_event_t) (i0 i1 i2 : inputs),
      event_type e0 = EVENT_ALARM_LONG_PRESS ->
      event_type e1 = EVENT_ALARM_BUTTON_UP ->
      event_type e2 = EVENT_ALARM_BUTTON_UP ->
      mode (state w) = waiting ->
      _beeps_to_play w = 0 ->
      wf_timer (timer (state w)) ->
      let d := duration_seconds (timer (state w)) in
      65536 <= d ->
      let w1 := state_of (timer_face_loop 16 e0 i0 w) in
      let w2 := state_of (timer_face_loop 16 e1 i1 w1) in
      let w3 := state_of (timer_face_loop 16 e2 i2 w2) in
      mode (state w1) = running
      /\ target_ts (state w1) = uint32 (unix_time_now i0 + d)
      /\ mode (state w2) = pausing
      /\ paused_left (state w2) = d - 65536
      /\ mode (state w3) = running
      /\ target_ts (state w3) = uint32 (unix_time_now i2 + (d - 65536))
      /\ target_ts (state w3) <> uint32 (unix_time_now i2 + d))
  /\ (let start := (at_time 1000, Loop (event EVENT_ALARM_LONG_PRESS)) in
      let toggle := (at_time 1000, Loop (event EVENT_ALARM_BUTTON_UP)) in
      mode (state Examples.long_timer) = waiting
      /\ duration_seconds (timer (state Examples.long_timer)) = 82800
      /\ target_ts (state (run 16 [start] Examples.long_timer)) = 83800
      /\ target_ts
           (state (run 16 [start; toggle; toggle] Examples.long_timer))
         = 18264).
Proof.
  split; [|cbv zeta; repeat split; vm_compute; reflexivity].
  intros w e0 e1 e2 i0 i1 i2 He0 He1 He2 Hm Hb Hwf d Hd w1 w2 w3.
  set (t := timer (state w)) in *.
  set (t0 := unix_time_now i0).
  assert (0 <= d < 86400) as Hrange.
  { destruct Hwf as (? & ? & ?). unfold d, duration_seconds. lia. }
  assert (duration_unset t = false) as Hun.
  { destruct (duration_unset t) eqn:E; [|reflexivity].
    unfold duration_unset in E. bool_facts.
    unfold d, duration_seconds in Hd. lia. }
  pose proof (set_duration_value _ Hwf Hun) as Hv.
  assert (state w1
          = set_mode running
              (set_target_ts
                 (watch_utility_offset_timestamp t0 (hours t) (minutes t)
                    (seconds t))
                 (set_now_ts t0 (state w)))) as Hs1.
  { unfold w1. rewrite (long_press_waiting 16 e0 i0 w He0 Hm).
    rewrite (start_state_set i0 true w Hv). cbv zeta.
    rewrite Hm. reflexivity. }
  assert (_beeps_to_play w1 = 0) as Hb1.
  { unfold w1. rewrite (long_press_waiting 16 e0 i0 w He0 Hm).
    rewrite start_state. apply Z.eqb_neq in Hv. fold t. rewrite Hv.
    cbv zeta. exact Hb. }
  assert (target_ts (state w1) = uint32 (t0 + d)) as Ht1.
  { rewrite Hs1. simpl_state. unfold watch_utility_offset_timestamp.
    f_equal. unfold d, duration_seconds. lia. }
  assert (mode (state w1) = running) as Hm1 by (rewrite Hs1; reflexivity).
  assert (uint32 (target_ts (state w1) - now_ts (state w1)) = d) as Hrem.
  { rewrite Ht1, Hs1. simpl_state. apply remaining_at_start.
    change (2 ^ 32) with 4294967296. lia. }
  destruct (button_up_running 16 e1 i1 w1 He1 Hm1 Hb1) as [Hs2 Hb2].
  cbv zeta in Hs2. fold w2 in Hs2, Hb2. rewrite Hrem in Hs2.
  assert (wrap 16 d = d - 65536) as Hwrap.
  { unfold wrap. change (2 ^ Z.of_nat 16) with 65536.
    Z.to_euclidean_division_equations. lia. }
  rewrite Hwrap in Hs2.
  assert (mode (state w2) = pausing) as Hm2 by (rewrite Hs2; reflexivity).
  assert (paused_left (state w2) = d - 65536) as Hp2
      by (rewrite Hs2; reflexivity).
  assert (value (timer (state w2)) <> 0) as Hv2.
  { rewrite Hs2. simpl_state.
    destruct (quick_cycle (state w1)); simpl_state; rewrite Hs1;
      simpl_state; exact Hv. }
  destruct (button_up_pausing 16 e2 i2 w2 He2 Hm2 Hb2 Hv2) as [Hm3 Ht3].
  cbv zeta in Ht3. fold w3 in Hm3, Ht3. rewrite Hp2 in Ht3.
  repeat split; try assumption.
  rewrite Ht3. unfold uint32, wrap.
  change (2 ^ Z.of_nat 32) with 4294967296.
  Z.to_euclidean_division_equations. lia.
Qed.


(** *** Refusing to start *)

(** [_start] leaves everything as it is when the packed value is zero. *)
Lemma start_refuses_zero_value (i : inputs) (with_beep : bool) (w : world) :
  value (timer (state w)) = 0 -> _start i with_beep w = (tt, w, []).
Proof.
  intros Hv. unfold _start, bind, get. rewrite Hv. reflexivity.
Qed.

Lemma repeat_then_wrap_minutes_state (pl : nat) :
  run pl repeat_then_wrap_minutes (timer_face_setup 0)
  = {| state :=
         {| target_ts := 0; now_ts := 0; paused_left := 0;
            pausing_seconds := 0; watch_face_index := 0;
            timer := {| seconds := 0; minutes := 0; hours := 0;
                        repeat := true |};
            loop_count := 0; settings_state := 0;
            erase_timer_flag := false; mode := waiting;
            quick_cycle := false |};
       _beeps_to_play := 0 |}.
Proof. vm_compute. reflexivity. Qed.

(** C4, on the code.  The button presses [repeat_then_wrap_minutes] leave
    the face waiting with an unset duration, the repeat flag set and so a
    packed value that is not zero.  [_start] does not refuse this timer:
    it runs, its target the current time, and a background task is
    scheduled for that time. *)
Theorem start_runs_unset_duration_with_repeat (pl : nat) (t : Z) :
  let w := run pl repeat_then_wrap_minutes (timer_face_setup 0) in
  let r := _start (at_time t) true w in
  reachable pl w
  /\ duration_unset (timer (state w)) = true
  /\ mode (state w) = waiting
  /\ value (timer (state w)) = 0x1000000
  /\ mode (state (state_of r)) = running
  /\ target_ts (state (state_of r)) = uint32 t
  /\ calls_of r
     = [movement_schedule_background_task_for_face 0 (uint32 t);
        watch_set_indicator WATCH_INDICATOR_BELL;
        watch_buzzer_play_sequence _sound_seq_start false].
Proof.
  cbv zeta. split.
  - exists 0, repeat_then_wrap_minutes. reflexivity.
  - rewrite repeat_then_wrap_minutes_state.
    unfold _start, bind, get, modify, do_call, skip, ret, state_of, calls_of,
      watch_utility_offset_timestamp, at_time.
    cbn. rewrite !Z.add_0_r. repeat split; reflexivity.
Qed.

(** *** Unset durations and the repeat flag *)

(** The claim that every reachable state with an unset duration has the
    repeat flag clear fails: incrementing the minutes round to zero leaves
    a repeat flag that was set before in place. *)
Lemma unset_duration_invariant_counterexample :
  ~ (forall w : world,
        reachable 32 w ->
        duration_unset (timer (state w)) = true ->
        repeat (timer (state w)) = false).
Proof.
  intros H.
  specialize (H (run 32 repeat_then_wrap_minutes (timer_face_setup 0))).
  rewrite repeat_then_wrap_minutes_state in H.
  specialize (H ltac:(exists 0, repeat_then_wrap_minutes;
                      symmetry; apply repeat_then_wrap_minutes_state)
                eq_refl).
  discriminate H.
Qed.

Ltac contradict_increment Hinc :=
  exfalso;
  repeat match goal with
    | H : negb _ = false |- _ => apply negb_false_iff in H
    | H : negb _ = true |- _ => apply negb_true_iff in H
    end;
  repeat match goal with
    | H : (_ =? _) = _ |- _ =>
        tryif constr_eq H Hinc then fail else rewrite H in Hinc
    | H : mode _ = _ |- _ => rewrite H in Hinc
    end;
  repeat match goal with
    | H : (settings_state _ =? _) = true |- _ =>
        apply Z.eqb_eq in H; rewrite H in Hinc
    end;
  cbn in Hinc; discriminate Hinc.

Ltac contradict_cursor H4 :=
  let Hd := fresh "Hd" in
  intros Hd; exfalso; unfold duration_unset in *; simpl_state;
  rewrite H4 in Hd by (apply Z.eqb_eq; assumption); discriminate Hd.

Lemma step_keeps_no_repeat (pl : nat) (c : inputs * entry) (w : world) :
  invariant w ->
  increments_duration_field c w = false ->
  (duration_unset (timer (state w)) = true ->
   repeat (timer (state w)) = false) ->
  duration_unset (timer (state (step pl c w))) = true ->
  repeat (timer (state (step pl c w))) = false.
Proof.
  intros (Hwf & Hc & He & H4) Hinc Hinv.
  unfold increments_duration_field in Hinc.
  destruct c as [i e]. destruct e as [ | [ty sub] | | ];
    unfold step; cbn [fst snd] in *.
  - unfold timer_face_activate. state_cases; simpl_state; exact Hinv.
  - unfold timer_face_loop; cbn [event_type subsecond] in *; destruct ty;
      state_cases; cbv zeta;
      repeat match goal with
        | |- context [if ?b then _ else _] => destruct b eqn:?
        end.
    all: autorewrite with proc_state in *; simpl_state;
      rewrite ?of_value_0 in *; simpl_state; try exact Hinv;
      try (intros _; reflexivity).
    all: first [contradict_cursor H4 | contradict_increment Hinc].
  - unfold timer_face_resign. state_cases; simpl_state; exact Hinv.
  - unfold _signal_callback. state_cases; simpl_state; exact Hinv.
Qed.

(** C10, as the code has it.  In every state the face can reach, the
    packed timer value is zero exactly when the duration is unset and the
    repeat flag is clear, and the cursor is on the repeat toggle only for a
    duration that is set; a cursor advance that applies the erase request
    zeroes the whole packed value, repeat flag included; and every entry
    into the face other than an increment of the hours, minutes or seconds
    keeps the repeat flag clear whenever the duration is unset. *)
Theorem unset_duration_keeps_no_repeat (pl : nat) (w : world) :
  reachable pl w ->
  (value (timer (state w)) = 0 <->
   duration_unset (timer (state w)) = true
   /\ repeat (timer (state w)) = false)
  /\ (settings_state (state w) = 4 ->
      duration_unset (timer (state w)) = false)
  /\ (forall (e : movement_event_t) (i : inputs),
         event_type e = EVENT_LIGHT_BUTTON_UP ->
         mode (state w) = setting ->
         erase_timer_flag (state w) = true ->
         value (timer (state (state_of (timer_face_loop pl e i w)))) = 0)
  /\ (forall c : inputs * entry,
         increments_duration_field c w = false ->
         (duration_unset (timer (state w)) = true ->
          repeat (timer (state w)) = false) ->
         duration_unset (timer (state (step pl c w))) = true ->
         repeat (timer (state (step pl c w))) = false).
Proof.
  intros Hr. pose proof (reachable_invariant pl w Hr) as Hinv.
  pose proof Hinv as (Hwf & Hc & He & H4).
  split; [apply value_zero_iff; exact Hwf|].
  split; [exact H4|]. split.
  - intros e i Hev Hmode Hflag.
    rewrite (light_button_up_setting pl e i w Hev Hmode). cbv zeta.
    rewrite Hflag. simpl_state. rewrite (He Hmode Hflag), of_value_0.
    reflexivity.
  - intros c. apply step_keeps_no_repeat. exact Hinv.
Qed.


(** *** Instances *)

Import Examples.

Lemma pause_resume_keeps_remaining_witness :
  mode (state running_timer) = running
  /\ target_ts
       (state
          (state_of
             (timer_face_loop 32 (event EVENT_ALARM_BUTTON_UP) (at_time 1020)
                (state_of
                   (timer_face_loop 32 (event EVENT_ALARM_BUTTON_UP)
                      (at_time 1010) running_timer)))))
     = uint32 (1020 + 60)
  /\ target_ts
       (state
          (state_of
             (timer_face_loop 32 (event EVENT_ALARM_BUTTON_UP) (at_time 1000)
                (state_of
                   (timer_face_loop 32 (event EVENT_ALARM_BUTTON_UP)
                      (at_time 1000) running_timer)))))
     = uint32 (1000 + 0 * 3600 + 1 * 60 + 0).
Proof.
  destruct (pause_resume_keeps_remaining 32) as [Hpause Himmediate].
  assert (wf_timer (timer (state (timer_face_setup 0)))) as Hwf
      by (unfold wf_timer; cbn; lia).
  split; [reflexivity|]. split.
  - destruct (Hpause running_timer (event EVENT_ALARM_BUTTON_UP)
                (event EVENT_ALARM_BUTTON_UP) (at_time 1010) (at_time 1020)
                eq_refl eq_refl eq_refl eq_refl Hwf eq_refl eq_refl)
      as (_ & _ & _ & Ht).
    exact Ht.
  - destruct (Himmediate (timer_face_setup 0)
                (event EVENT_ALARM_LONG_PRESS) (event EVENT_ALARM_BUTTON_UP)
                (event EVENT_ALARM_BUTTON_UP)
                (at_time 1000) (at_time 1000) (at_time 1000) 1000
                eq_refl eq_refl eq_refl eq_refl eq_refl
                ltac:(split; [discriminate | reflexivity])
                eq_refl eq_refl Hwf eq_refl eq_refl)
      as (_ & Ht1 & _ & _ & Ht3).
    exact (eq_trans Ht3 Ht1).
Defined.

Lemma loop_count_after_expiries_witness :
  repeat (timer (state repeating_timer)) = true
  /\ loop_count
       (state (fire_all 32 (List.repeat (at_time 5000) 12) repeating_timer))
     = 2
  /\ mode
       (state
          (state_of
             (timer_face_loop 32 (event EVENT_BACKGROUND_TASK) (at_time 5000)
                running_timer)))
     = waiting.
Proof.
  destruct (loop_count_after_expiries 32) as [Hrepeat Honce].
  assert (wf_timer (timer (state repeating_timer))) as Hwf
      by (unfold wf_timer; cbn; lia).
  split; [reflexivity|]. split.
  - destruct (Hrepeat (List.repeat (at_time 5000) 12) repeating_timer
                Hwf eq_refl eq_refl) as [Hl _].
    exact Hl.
  - destruct (Honce (event EVENT_BACKGROUND_TASK) (at_time 5000)
                running_timer eq_refl eq_refl) as [Hm _].
    exact Hm.
Defined.

Lemma cursor_advance_witness :
  reachable 32 timer_in_settings
  /\ mode (state timer_in_settings) = setting
  /\ settings_state
       (state
          (state_of
             (timer_face_loop 32 (event EVENT_LIGHT_BUTTON_UP) (at_time 0)
                timer_in_settings)))
     = 1.
Proof.
  assert (reachable 32 timer_in_settings) as Hr
      by (exists 0, [press EVENT_LIGHT_LONG_PRESS]; reflexivity).
  split; [exact Hr|]. split; [reflexivity|].
  destruct (cursor_advance 32 (event EVENT_LIGHT_BUTTON_UP) (at_time 0)
              timer_in_settings Hr eq_refl eq_refl)
    as (_ & _ & _ & _ & _ & Hc & _).
  exact Hc.
Defined.

Lemma unset_duration_keeps_no_repeat_witness :
  reachable 32 MoreExamples.timer_erased
  /\ value (timer (state MoreExamples.timer_erased)) = 0
  /\ value
       (timer
          (state
             (state_of
                (timer_face_loop 32 (event EVENT_LIGHT_BUTTON_UP)
                   (at_time 0) MoreExamples.erase_requested))))
     = 0
  /\ duration_unset
       (timer
          (state
             (step 32 (press EVENT_LIGHT_BUTTON_UP)
                MoreExamples.timer_erased)))
     = true
  /\ repeat
       (timer
          (state
             (step 32 (press EVENT_LIGHT_BUTTON_UP)
                MoreExamples.timer_erased)))
     = false.
Proof.
  assert (reachable 32 MoreExamples.timer_erased) as Hr
      by (exists 0,
            [press EVENT_LIGHT_LONG_PRESS; press EVENT_ALARM_BUTTON_UP;
             press EVENT_LIGHT_BUTTON_UP];
          reflexivity).
  assert (reachable 32 MoreExamples.erase_requested) as Hr'
      by (exists 0,
            [press EVENT_LIGHT_LONG_PRESS; press EVENT_ALARM_BUTTON_UP];
          reflexivity).
  destruct (unset_duration_keeps_no_repeat 32 MoreExamples.timer_erased Hr)
    as (Hzero & _ & _ & Hkeep).
  destruct (unset_duration_keeps_no_repeat 32 MoreExamples.erase_requested
              Hr') as (_ & _ & Herase & _).
  split; [exact Hr|].
  split; [apply Hzero; split; reflexivity|].
  split; [apply Herase; reflexivity|].
  split; [reflexivity|].
  apply (Hkeep (press EVENT_LIGHT_BUTTON_UP)); reflexivity.
Defined.

End TimerFacts.

(** * More C arithmetic *)

Module CMore.

Import C CFacts.

Lemma uint8_small (x : Z) : 0 <= x < 256 -> uint8 x = x.
Proof. intros H. unfold uint8. apply wrap_small. exact H. Qed.

Lemma int32_small (x : Z) : 0 <= x < 2 ^ 31 -> int32 x = x.
Proof.
  intros H. unfold int32.
  change (2 ^ 31) with 2147483648 in *. change (2 ^ 32) with 4294967296.
  rewrite Z.mod_small by lia. lia.
Qed.

End CMore.

(** * Further properties of the alarm face *)

Module AlarmMore.

Import C CFacts CMore Alarm AlarmRuns AlarmFacts.

Ltac simpl_alarm :=
  cbn [state _wait_ticks settings_alarm_enabled upd_state set_wait_ticks
       set_settings_alarm_enabled
       alarm setting_state alarm_handled_minute alarm_quick_ticks is_setting
       upd_alarm set_setting_state set_alarm_handled_minute
       set_alarm_quick_ticks set_is_setting
       day hour minute beeps pitch enabled
       set_day set_hour set_minute set_beeps set_pitch set_enabled
       incr_day incr_hour incr_minute incr_pitch incr_beeps toggle_enabled
       fst snd] in *.

Ltac split_ifs_eqn :=
  repeat (unfold_alarm;
          match goal with
          | |- context [if ?b then _ else _] => destruct b eqn:?
          end);
  unfold_alarm.

Ltac alarm_bool_facts :=
  repeat match goal with
    | H : (_ =? _) = true |- _ => apply Z.eqb_eq in H
    | H : (_ =? _) = false |- _ => apply Z.eqb_neq in H
    | H : (_ >=? _) = true |- _ => rewrite Z.geb_leb in H
    | H : (_ >=? _) = false |- _ => rewrite Z.geb_leb in H
    | H : (_ <=? _) = true |- _ => apply Z.leb_le in H
    | H : (_ <=? _) = false |- _ => apply Z.leb_gt in H
    | H : (_ <? _) = true |- _ => apply Z.ltb_lt in H
    | H : (_ <? _) = false |- _ => apply Z.ltb_ge in H
    | H : negb _ = true |- _ => apply negb_true_iff in H
    | H : negb _ = false |- _ => apply negb_false_iff in H
    | H : _ && _ = true |- _ => apply andb_true_iff in H; destruct H
    | H : _ || _ = false |- _ => apply orb_false_iff in H; destruct H
    end.

Ltac div_lia := Z.to_euclidean_division_equations; lia.

Ltac alarm_inv_leaf :=
  unfold invariant, in_range in *; simpl_alarm;
  unfold ALARM_DAY_STATES, ALARM_MAX_BEEP_ROUNDS,
    ALARM_SETTING_STATES, alarm_setting_idx_day, alarm_setting_idx_hour,
    alarm_setting_idx_minute, alarm_setting_idx_pitch,
    alarm_setting_idx_beeps, int8 in *;
  alarm_bool_facts;
  repeat match goal with
    | H : _ /\ _ |- _ => destruct H
    end;
  repeat match goal with
    | H : ?b = true -> _, E : ?b = true |- _ => specialize (H E)
    end;
  repeat split; intros; try lia; try congruence; try discriminate;
  auto; try div_lia.

(** *** The invariant *)

Lemma alarm_setup_invariant (b : bool) : invariant (alarm_face_setup b).
Proof.
  unfold alarm_face_setup. alarm_inv_leaf.
Qed.

Lemma alarm_step_invariant (yb mb : nat) (c : inputs * entry) (w : world) :
  invariant w -> invariant (fst (step yb mb c w)).
Proof.
  intros Hinv. destruct c as [i e].
  destruct e as [ | [ty sub] | | ]; unfold step; cbn [fst snd].
  - exact Hinv.
  - unfold alarm_face_loop; cbn [event_type subsecond]; destruct ty;
      split_ifs_eqn; alarm_inv_leaf.
  - split_ifs_eqn; alarm_inv_leaf.
  - split_ifs_eqn; alarm_inv_leaf.
Qed.

Lemma alarm_run_invariant (yb mb : nat) (cs : list (inputs * entry)) :
  forall w, invariant w -> invariant (run yb mb cs w).
Proof.
  induction cs as [|c cs IH]; intros w Hw; [exact Hw|].
  cbn [run fold_left]. apply IH. apply alarm_step_invariant. exact Hw.
Qed.

(** X1.  Every state the alarm face reaches keeps its alarm within the
    bounds of the tables it indexes (day below 10, hour below 24, minute
    below 60, beep rounds below 11, pitch below 3, so that the note played
    is one of the three of [_buzzer_notes]); its cursor indexes [_blink_idx]
    within bounds while the settings are open; and the wait counter is -1,
    0 or 1 between two entries. *)
Theorem alarm_reachable_in_bounds (year_bits month_bits : nat) (w : world) :
  reachable year_bits month_bits w ->
  invariant w
  /\ In (_buzzer_notes (pitch (alarm (state w))))
        [BUZZER_NOTE_B6; BUZZER_NOTE_C8; BUZZER_NOTE_A8].
Proof.
  intros (b & cs & ->).
  pose proof (alarm_run_invariant year_bits month_bits cs _
                (alarm_setup_invariant b)) as Hinv.
  split; [exact Hinv|].
  destruct Hinv as ((_ & _ & _ & _ & Hp) & _).
  set (p := pitch _) in *.
  assert (p = 0 \/ p = 1 \/ p = 2) as [-> | [-> | ->]] by lia;
    cbn; auto.
Qed.

(** *** The fire check and the indicator *)

(** X2.  The fire check reads the clock, makes no other call and changes
    nothing of the face but the handled minute: the alarm, the cursor, the settings and quick-tick
    flags and the wait counter stay; and it writes the alarm indicator of
    the settings only when it does not fire, in a minute divisible by 12. *)
Theorem fire_check_frame
  (year_bits month_bits : nat) (i : inputs) (w : world) :
  let r := alarm_face_wants_background_task year_bits month_bits i w in
  let st' := state (state_of r) in
  calls_of r = []
  /\ alarm st' = alarm (state w)
  /\ setting_state st' = setting_state (state w)
  /\ alarm_quick_ticks st' = alarm_quick_ticks (state w)
  /\ is_setting st' = is_setting (state w)
  /\ _wait_ticks (state_of r) = _wait_ticks w
  /\ (settings_alarm_enabled (state_of r) <> settings_alarm_enabled w ->
      result_of r = false
      /\ Z.rem (RTC.minute (watch_rtc_get_date_time i)) 12 = 0).
Proof.
  cbv zeta.
  do 6 (split; [split_ifs; reflexivity|]).
  split_ifs_eqn; simpl_alarm; intros Hne; try congruence;
    split; first [reflexivity | apply Z.eqb_eq; assumption].
Qed.

Lemma update_alarm_enabled_state
  (yb mb : nat) (i : inputs) (w : world) :
  let a := alarm (state w) in
  let now := watch_rtc_get_date_time i in
  let idx := _get_weekday_idx yb mb now in
  let now_m := uint16 (RTC.hour now * 60 + RTC.minute now) in
  let alarm_m := uint16 (hour a * 60 + minute a) in
  settings_alarm_enabled (state_of (_alarm_update_alarm_enabled yb mb i w))
  = if enabled a then
      if day a =? ALARM_DAY_EACH_DAY then true
      else
        ((day a =? idx) && (alarm_m >=? now_m))
        || ((Z.rem (idx + 1) 7 =? day a) && (alarm_m <=? now_m))
        || ((day a =? ALARM_DAY_WORKDAY)
              && ((idx <? 4)
                  || ((idx =? 4) && (alarm_m >=? now_m))
                  || ((idx =? 6) && (alarm_m <=? now_m))))
        || ((day a =? ALARM_DAY_WEEKEND)
              && ((idx =? 5)
                  || ((idx =? 6) && (alarm_m >=? now_m))
                  || ((idx =? 4) && (alarm_m <=? now_m))))
    else false.
Proof. reflexivity. Qed.

(** X3.  [_alarm_update_alarm_enabled] never reports an alarm as inactive
    in the very minute in which the fire check lets it fire, reports a
    disabled alarm as inactive, and an enabled EveryDay alarm as active. *)
Theorem firing_alarm_is_active
  (year_bits month_bits : nat) (i : inputs) (w : world) :
  RTC.wf_date_time (watch_rtc_get_date_time i) ->
  let updated :=
    settings_alarm_enabled
      (state_of (_alarm_update_alarm_enabled year_bits month_bits i w)) in
  (result_of (alarm_face_wants_background_task year_bits month_bits i w)
   = true -> updated = true)
  /\ (enabled (alarm (state w)) = false -> updated = false)
  /\ (enabled (alarm (state w)) = true ->
      day (alarm (state w)) = ALARM_DAY_EACH_DAY -> updated = true).
Proof.
  intros Hwf updated. unfold updated. rewrite update_alarm_enabled_state.
  cbv zeta.
  pose proof (weekday_idx_range year_bits month_bits _ Hwf) as Hidx.
  set (idx := _get_weekday_idx year_bits month_bits _) in *.
  set (a := alarm (state w)) in *.
  split; [|split].
  - intros Hfire. rewrite wants_result in Hfire. cbv zeta in Hfire.
    fold a idx in Hfire.
    apply andb_true_iff in Hfire. destruct Hfire as [_ Hf].
    apply andb_true_iff in Hf. destruct Hf as [Hf Hday].
    apply andb_true_iff in Hf. destruct Hf as [Hf Hh].
    apply andb_true_iff in Hf. destruct Hf as [Hen Hm].
    apply Z.eqb_eq in Hh, Hm. rewrite Hen, Hh, Hm.
    set (m := uint16 _).
    assert ((m >=? m) = true) as Hge
        by (rewrite Z.geb_leb; apply Z.leb_refl).
    rewrite Hge, !andb_true_r.
    unfold ALARM_DAY_EACH_DAY, ALARM_DAY_WORKDAY, ALARM_DAY_WEEKEND in *.
    destruct (Z.eqb_spec (day a) 7) as [E7|E7]; [reflexivity|].
    cbn [orb] in Hday.
    destruct (Z.eqb_spec (day a) idx) as [Ei|Ei]; [reflexivity|].
    cbn [orb] in Hday.
    destruct (Z.eqb_spec (day a) 8) as [E8|E8]; cbn [andb orb] in *.
    + destruct (Z.ltb_spec idx 5) as [L|L]; cbn [orb] in Hday.
      * clear Hday Hge. case_eqb; cbn; first [reflexivity | lia].
      * destruct (Z.eqb_spec (day a) 9); [lia | discriminate Hday].
    + destruct (Z.eqb_spec (day a) 9) as [E9|E9]; cbn [andb orb] in *;
        [|discriminate Hday].
      rewrite Z.geb_leb in Hday. apply Z.leb_le in Hday.
      clear Hge. case_eqb; cbn; first [reflexivity | lia].
  - intros ->. reflexivity.
  - intros -> ->. reflexivity.
Qed.

(** *** Editing a field *)

Lemma field_at_with_field (c v : Z) (a : alarm_setting_t) :
  field_at c (with_field c v a) = v.
Proof.
  unfold field_at, with_field.
  repeat match goal with
    | |- context [if ?b then _ else _] => destruct b
    end; reflexivity.
Qed.

Lemma with_field_twice (c v v' : Z) (a : alarm_setting_t) :
  with_field c v' (with_field c v a) = with_field c v' a.
Proof.
  unfold with_field.
  repeat match goal with
    | |- context [if ?b then _ else _] => destruct b
    end; reflexivity.
Qed.

Lemma with_field_same (c : Z) (a : alarm_setting_t) :
  with_field c (field_at c a) a = a.
Proof.
  unfold field_at, with_field. destruct a.
  repeat match goal with
    | |- context [if ?b then _ else _] => destruct b
    end; reflexivity.
Qed.

Lemma field_values_pos (c : Z) : 0 < field_values c.
Proof.
  unfold field_values, ALARM_DAY_STATES, ALARM_MAX_BEEP_ROUNDS.
  repeat match goal with
    | |- context [if ?b then _ else _] => destruct b
    end; lia.
Qed.

(** A short press of the alarm button in the settings steps the field
    under the cursor and nothing else of the alarm. *)
Lemma alarm_press_in_settings
  (e : movement_event_t) (i : inputs) (w : world) :
  event_type e = EVENT_ALARM_BUTTON_UP ->
  is_setting (state w) = true ->
  0 <= setting_state (state w) <= 4 ->
  let c := setting_state (state w) in
  let a := alarm (state w) in
  let st' := state (state_of (alarm_face_loop e i w)) in
  alarm st' = with_field c (Z.rem (field_at c a + 1) (field_values c)) a
  /\ is_setting st' = true
  /\ setting_state st' = c.
Proof.
  intros He Hs Hc. cbv zeta. unfold alarm_face_loop. rewrite He, ?Hs.
  unfold with_field, field_at, field_values.
  unfold_alarm. rewrite Hs. cbn [negb].
  destruct (setting_state (state w) =? alarm_setting_idx_day) eqn:E0;
    [split_ifs; simpl_alarm; auto|].
  destruct (setting_state (state w) =? alarm_setting_idx_hour) eqn:E1;
    [split_ifs; simpl_alarm; auto|].
  destruct (setting_state (state w) =? alarm_setting_idx_minute) eqn:E2;
    [split_ifs; simpl_alarm; auto|].
  destruct (setting_state (state w) =? alarm_setting_idx_pitch) eqn:E3;
    [split_ifs; simpl_alarm; auto|].
  destruct (setting_state (state w) =? alarm_setting_idx_beeps) eqn:E4;
    [split_ifs; simpl_alarm; auto|].
  unfold alarm_setting_idx_day, alarm_setting_idx_hour,
    alarm_setting_idx_minute, alarm_setting_idx_pitch,
    alarm_setting_idx_beeps in *.
  apply Z.eqb_neq in E0, E1, E2, E3, E4. lia.
Qed.

Lemma deliver_cons (c : movement_event_t * inputs)
  (es : list (movement_event_t * inputs)) (w : world) :
  deliver (c :: es) w
  = deliver es (state_of (alarm_face_loop (fst c) (snd c) w)).
Proof. reflexivity. Qed.

Lemma alarm_presses_in_settings (es : list (movement_event_t * inputs)) :
  all_of_type EVENT_ALARM_BUTTON_UP es ->
  forall w,
    is_setting (state w) = true ->
    0 <= setting_state (state w) <= 4 ->
    let c := setting_state (state w) in
    let a := alarm (state w) in
    0 <= field_at c a < field_values c ->
    let st' := state (deliver es w) in
    alarm st'
    = with_field c ((field_at c a + Z.of_nat (length es)) mod field_values c)
        a
    /\ is_setting st' = true
    /\ setting_state st' = c.
Proof.
  induction 1 as [|[e i] es He Hes IH]; intros w Hs Hc c a Hf st'.
  - unfold st'. cbn [deliver fold_left length Z.of_nat].
    rewrite Z.add_0_r, Z.mod_small by exact Hf.
    unfold c, a. rewrite with_field_same. auto.
  - unfold st'. rewrite deliver_cons. cbn [fst snd] in *.
    destruct (alarm_press_in_settings e i w He Hs Hc) as (Ha1 & Hs1 & Hc1).
    fold c a in Ha1, Hc1.
    set (w1 := state_of (alarm_face_loop e i w)) in *.
    pose proof (field_values_pos c) as Hn.
    assert (Z.rem (field_at c a + 1) (field_values c)
            = (field_at c a + 1) mod field_values c) as Hrem
        by (apply Z.rem_mod_nonneg; lia).
    rewrite Hrem in Ha1.
    assert (field_at c (alarm (state w1))
            = (field_at c a + 1) mod field_values c) as Hf1
        by (rewrite Ha1; apply field_at_with_field).
    destruct (IH w1 Hs1 ltac:(rewrite Hc1; exact Hc)) as (Ha2 & Hs2 & Hc2).
    { rewrite Hc1, Hf1. apply Z.mod_pos_bound. exact Hn. }
    rewrite Hc1 in Ha2, Hc2. rewrite Hf1 in Ha2.
    rewrite Ha1, with_field_twice in Ha2.
    split; [|split; assumption].
    rewrite Ha2. f_equal. rewrite Zplus_mod_idemp_l. f_equal.
    cbn [length]. lia.
Qed.

(** X4.  In the settings, short presses of the alarm button step the field
    under the cursor round its values and leave the rest of the alarm, the
    cursor and the settings as they are: after n presses the field is its
    old value plus n, modulo 10 for the day, 24 for the hour, 60 for the
    minute, 3 for the pitch and 11 for the beep rounds; so as many presses
    as the field has values restore the alarm. *)
Theorem alarm_field_cycles
  (es : list (movement_event_t * inputs)) (w : world) :
  all_of_type EVENT_ALARM_BUTTON_UP es ->
  is_setting (state w) = true ->
  0 <= setting_state (state w) <= 4 ->
  let c := setting_state (state w) in
  let a := alarm (state w) in
  0 <= field_at c a < field_values c ->
  let st' := state (deliver es w) in
  alarm st'
  = with_field c ((field_at c a + Z.of_nat (length es)) mod field_values c) a
  /\ is_setting st' = true
  /\ setting_state st' = c
  /\ (Z.of_nat (length es) = field_values c -> alarm st' = a).
Proof.
  intros Hes Hs Hc c a Hf st'.
  destruct (alarm_presses_in_settings es Hes w Hs Hc Hf) as (Ha & Hs' & Hc').
  fold c a st' in Ha, Hs', Hc'.
  repeat split; try assumption.
  intros Hlen. rewrite Ha, Hlen.
  rewrite <- (Z.mul_1_l (field_values c)) at 1.
  rewrite Z.mod_add by lia. rewrite Z.mod_small by exact Hf.
  apply with_field_same.
Qed.

(** *** The settings cursor *)

Lemma alarm_light_press_in_settings
  (e : movement_event_t) (i : inputs) (w : world) :
  event_type e = EVENT_LIGHT_BUTTON_UP ->
  is_setting (state w) = true ->
  let st' := state (state_of (alarm_face_loop e i w)) in
  alarm st' = alarm (state w)
  /\ setting_state st' = setting_state (state w) + 1
  /\ is_setting st' = (setting_state (state w) + 1 <? ALARM_SETTING_STATES).
Proof.
  intros He Hs. cbv zeta. unfold alarm_face_loop. rewrite He.
  unfold_alarm. rewrite Hs. cbn [negb]. unfold_alarm. simpl_alarm.
  rewrite Z.geb_leb.
  destruct (Z.leb_spec ALARM_SETTING_STATES (setting_state (state w) + 1));
    destruct (Z.ltb_spec (setting_state (state w) + 1) ALARM_SETTING_STATES);
    try lia; split_ifs; simpl_alarm; auto.
Qed.

Lemma alarm_light_presses (es : list (movement_event_t * inputs)) :
  all_of_type EVENT_LIGHT_BUTTON_UP es ->
  forall w,
    is_setting (state w) = true ->
    setting_state (state w) + Z.of_nat (length es) <= ALARM_SETTING_STATES ->
    setting_state (state w) < ALARM_SETTING_STATES ->
    let st' := state (deliver es w) in
    alarm st' = alarm (state w)
    /\ setting_state st' = setting_state (state w) + Z.of_nat (length es)
    /\ is_setting st'
       = (setting_state (state w) + Z.of_nat (length es)
          <? ALARM_SETTING_STATES).
Proof.
  induction 1 as [|[e i] es He Hes IH]; intros w Hs Hlen Hc st'.
  - unfold st'. cbn [deliver fold_left length Z.of_nat].
    rewrite Z.add_0_r. repeat split; try reflexivity.
    rewrite Hs. symmetry. apply Z.ltb_lt. exact Hc.
  - unfold st'. rewrite deliver_cons. cbn [fst snd length] in *.
    destruct (alarm_light_press_in_settings e i w He Hs) as (Ha & Hc1 & Hs1).
    set (w1 := state_of (alarm_face_loop e i w)) in *.
    destruct es as [|c' es'].
    + cbn [deliver fold_left length]. change (Z.of_nat 1) with 1.
      repeat split; assumption.
    + assert (setting_state (state w) + 1 < ALARM_SETTING_STATES) as Hlt
          by (cbn [length] in Hlen; lia).
      destruct (IH w1) as (Ha2 & Hc2 & Hs2).
      * rewrite Hs1. apply Z.ltb_lt. exact Hlt.
      * rewrite Hc1. lia.
      * rewrite Hc1. exact Hlt.
      * rewrite Hc1 in Hc2, Hs2.
        repeat split.
        -- rewrite Ha2. exact Ha.
        -- rewrite Hc2. lia.
        -- rewrite Hs2. f_equal. lia.
Qed.

(** X5.  A long press of the light button opens the settings of the alarm
    at the cursor 0 and asks for four ticks a second; each short press of
    the light button then moves the cursor one field on, and the fifth
    closes the settings; none of these presses changes the alarm. *)
Theorem alarm_settings_cursor
  (e0 : movement_event_t) (i0 : inputs)
  (es : list (movement_event_t * inputs)) (w : world) :
  event_type e0 = EVENT_LIGHT_LONG_PRESS ->
  all_of_type EVENT_LIGHT_BUTTON_UP es ->
  is_setting (state w) = false ->
  (length es <= 5)%nat ->
  let r0 := alarm_face_loop e0 i0 w in
  let st' := state (deliver es (state_of r0)) in
  In (movement_request_tick_frequency 4) (calls_of r0)
  /\ alarm st' = alarm (state w)
  /\ setting_state st' = Z.of_nat (length es)
  /\ is_setting st' = (Z.of_nat (length es) <? 5).
Proof.
  intros He0 Hes Hs Hlen r0 st'.
  assert (is_setting (state (state_of r0)) = true
          /\ setting_state (state (state_of r0)) = 0
          /\ alarm (state (state_of r0)) = alarm (state w)
          /\ In (movement_request_tick_frequency 4) (calls_of r0))
    as (Hs0 & Hc0 & Ha0 & Hcall).
  { unfold r0, alarm_face_loop. rewrite He0. unfold_alarm. rewrite Hs.
    split_ifs; simpl_alarm; cbn; auto 10. }
  destruct (alarm_light_presses es Hes (state_of r0) Hs0) as (Ha & Hc & Hs').
  - rewrite Hc0. unfold ALARM_SETTING_STATES. lia.
  - rewrite Hc0. reflexivity.
  - rewrite Hc0 in Hc, Hs'. cbn [Z.add] in Hc, Hs'. unfold st'.
    repeat split; try assumption. rewrite Ha. exact Ha0.
Qed.

(** *** The extra long press *)

Lemma alarm_idle_tick (e : movement_event_t) (i : inputs) (w : world) :
  event_type e = EVENT_TICK ->
  is_setting (state w) = false ->
  alarm_quick_ticks (state w) = false ->
  _wait_ticks w = -1 ->
  alarm_face_loop e i w = (true, w, []).
Proof.
  intros He Hs Hq Hw. unfold alarm_face_loop. rewrite He.
  unfold_alarm. rewrite Hq, Hs, Hw. cbn [negb].
  change (-1 >=? 0) with false. unfold_alarm. rewrite Hw.
  change (-1 =? 2) with false. reflexivity.
Qed.

Lemma alarm_idle_ticks (es : list (movement_event_t * inputs)) (w : world) :
  all_of_type EVENT_TICK es ->
  is_setting (state w) = false ->
  alarm_quick_ticks (state w) = false ->
  _wait_ticks w = -1 ->
  deliver es w = w.
Proof.
  induction 1 as [|[e i] es He Hes IH]; intros Hs Hq Hw; [reflexivity|].
  rewrite deliver_cons. cbn [fst snd] in *.
  rewrite (alarm_idle_tick e i w He Hs Hq Hw). exact (IH Hs Hq Hw).
Qed.

(** A tick outside the settings with the wait counter at -1 or 0 keeps the
    enabled flag and the settings closed; a counter at -1 stays. *)
Lemma alarm_tick_outside (e : movement_event_t) (i : inputs) (w : world) :
  event_type e = EVENT_TICK ->
  is_setting (state w) = false ->
  _wait_ticks w = -1 \/ _wait_ticks w = 0 ->
  let w' := state_of (alarm_face_loop e i w) in
  enabled (alarm (state w')) = enabled (alarm (state w))
  /\ is_setting (state w') = false
  /\ (_wait_ticks w = -1 -> _wait_ticks w' = -1).
Proof.
  intros He Hs Hw. cbv zeta. unfold alarm_face_loop. rewrite He.
  unfold_alarm. destruct (alarm_quick_ticks (state w)) eqn:Hq.
  - split_ifs_eqn; simpl_alarm; repeat split; auto; congruence.
  - rewrite Hs. cbn [negb]. destruct Hw as [Hw | Hw]; rewrite Hw.
    + change (-1 >=? 0) with false. unfold_alarm. rewrite Hw.
      change (-1 =? 2) with false. unfold_alarm. auto.
    + change (0 >=? 0) with true. unfold_alarm. simpl_alarm.
      change (int8 (0 + 1) =? 2) with false. unfold_alarm. simpl_alarm.
      repeat split; auto. intros H. discriminate H.
Qed.

Lemma alarm_ticks_released (es : list (movement_event_t * inputs)) :
  all_of_type EVENT_TICK es ->
  forall w,
    is_setting (state w) = false ->
    _wait_ticks w = -1 ->
    enabled (alarm (state (deliver es w))) = enabled (alarm (state w))
    /\ _wait_ticks (deliver es w) = -1.
Proof.
  induction 1 as [|[e i] es He Hes IH]; intros w Hs Hw; [auto|].
  rewrite deliver_cons. cbn [fst snd] in *.
  destruct (alarm_tick_outside e i w He Hs (or_introl Hw))
    as (He1 & Hs1 & Hw1).
  destruct (IH _ Hs1 (Hw1 Hw)) as (He2 & Hw2).
  split; [congruence | exact Hw2].
Qed.

(** A tick while fast cycling is on with the cursor on the hour or the
    minute leaves the enabled flag and the wait counter alone. *)
Lemma alarm_quick_tick_keeps_toggle
  (e : movement_event_t) (i : inputs) (w : world) :
  event_type e = EVENT_TICK ->
  alarm_quick_ticks (state w) = true ->
  (setting_state (state w) =? alarm_setting_idx_hour)
  || (setting_state (state w) =? alarm_setting_idx_minute) = true ->
  let w' := state_of (alarm_face_loop e i w) in
  enabled (alarm (state w')) = enabled (alarm (state w))
  /\ _wait_ticks w' = _wait_ticks w
  /\ alarm_quick_ticks (state w') = true
  /\ setting_state (state w') = setting_state (state w).
Proof.
  intros He Hq Hc. cbv zeta. unfold alarm_face_loop. rewrite He.
  unfold_alarm. rewrite Hq.
  destruct (setting_state (state w) =? alarm_setting_idx_hour) eqn:E1;
    [split_ifs_eqn; simpl_alarm; repeat split; auto; congruence|].
  cbn [orb] in Hc. rewrite Hc.
  split_ifs_eqn; simpl_alarm; repeat split; auto; congruence.
Qed.

Lemma alarm_quick_ticks_keep_toggle
  (es : list (movement_event_t * inputs)) :
  all_of_type EVENT_TICK es ->
  forall w,
    alarm_quick_ticks (state w) = true ->
    (setting_state (state w) =? alarm_setting_idx_hour)
    || (setting_state (state w) =? alarm_setting_idx_minute) = true ->
    enabled (alarm (state (deliver es w))) = enabled (alarm (state w))
    /\ _wait_ticks (deliver es w) = _wait_ticks w.
Proof.
  induction 1 as [|[e i] es He Hes IH]; intros w Hq Hc; [auto|].
  rewrite deliver_cons. cbn [fst snd] in *.
  destruct (alarm_quick_tick_keeps_toggle e i w He Hq Hc)
    as (He1 & Hw1 & Hq1 & Hc1).
  destruct (IH _ Hq1 ltac:(rewrite Hc1; exact Hc)) as (He2 & Hw2).
  split; congruence.
Qed.

(** X6.  Outside the settings a long press of the alarm button toggles the
    enabled flag at once and starts the wait counter.  Released after at
    most one tick, the toggle stays, however many ticks follow.  Held
    longer, with fast cycling off, the second tick undoes the toggle: the
    alarm is as before, the signal indicator is shown and held for 275 ms
    and the wait counter is stopped.  With fast cycling left on and the
    cursor on the hour or the minute (the state of X9), the ticks step
    that field and never count, so the toggle is never undone; with fast
    cycling left on and the cursor elsewhere, the first tick only stops
    the cycling and the third undoes the toggle. *)
Theorem alarm_long_press_undo
  (e1 e2 e3 e4 up : movement_event_t) (i1 i2 i3 i4 iu : inputs)
  (held after : list (movement_event_t * inputs)) (w : world) :
  event_type e1 = EVENT_ALARM_LONG_PRESS ->
  event_type e2 = EVENT_TICK ->
  event_type e3 = EVENT_TICK ->
  event_type e4 = EVENT_TICK ->
  event_type up = EVENT_ALARM_LONG_UP ->
  all_of_type EVENT_TICK held ->
  all_of_type EVENT_TICK after ->
  is_setting (state w) = false ->
  let c := setting_state (state w) in
  let on_time :=
    (c =? alarm_setting_idx_hour) || (c =? alarm_setting_idx_minute) in
  let toggled := negb (enabled (alarm (state w))) in
  let w1 := state_of (alarm_face_loop e1 i1 w) in
  let w2 := state_of (alarm_face_loop e2 i2 w1) in
  let r3 := alarm_face_loop e3 i3 w2 in
  let r4 := alarm_face_loop e4 i4 (state_of r3) in
  (enabled (alarm (state w1)) = toggled /\ _wait_ticks w1 = 0)
  /\ ((length held <= 1)%nat ->
      let released :=
        deliver after (state_of (alarm_face_loop up iu (deliver held w1))) in
      enabled (alarm (state released)) = toggled
      /\ _wait_ticks released = -1)
  /\ (alarm_quick_ticks (state w) = false ->
      enabled (alarm (state w2)) = toggled
      /\ alarm (state (state_of r3)) = alarm (state w)
      /\ _wait_ticks (state_of r3) = -1
      /\ In (delay_ms 275) (calls_of r3))
  /\ (alarm_quick_ticks (state w) = true -> on_time = true ->
      enabled (alarm (state (deliver held w1))) = toggled
      /\ _wait_ticks (deliver held w1) = 0)
  /\ (alarm_quick_ticks (state w) = true -> on_time = false ->
      alarm_quick_ticks (state w2) = false
      /\ enabled (alarm (state (state_of r3))) = toggled
      /\ alarm (state (state_of r4)) = alarm (state w)
      /\ _wait_ticks (state_of r4) = -1
      /\ In (delay_ms 275) (calls_of r4)).
Proof.
  intros He1 He2 He3 He4 Hup Hheld Hafter Hs c on_time toggled w1 w2 r3 r4.
  assert (w1 = set_wait_ticks 0 (upd_state (upd_alarm toggle_enabled) w))
    as Hw1.
  { unfold w1, alarm_face_loop. rewrite He1. unfold_alarm. rewrite Hs.
    cbn [negb]. split_ifs; reflexivity. }
  assert (is_setting (state w1) = false /\ _wait_ticks w1 = 0
          /\ enabled (alarm (state w1)) = toggled
          /\ alarm_quick_ticks (state w1) = alarm_quick_ticks (state w)
          /\ setting_state (state w1) = c) as (Hs1 & Hwt1 & Hen1 & Hq1 & Hc1).
  { rewrite Hw1. simpl_alarm. auto. }
  (* the second tick with the counter at 1 and fast cycling off *)
  assert (forall (e : movement_event_t) (i : inputs) (v : world),
             event_type e = EVENT_TICK ->
             is_setting (state v) = false ->
             alarm_quick_ticks (state v) = false ->
             _wait_ticks v = 1 ->
             state_of (alarm_face_loop e i v)
             = set_wait_ticks (-1) (upd_state (upd_alarm toggle_enabled) v)
             /\ In (delay_ms 275) (calls_of (alarm_face_loop e i v)))
    as Hundo.
  { intros e i v He Hsv Hqv Hwv. unfold alarm_face_loop. rewrite He.
    unfold_alarm. rewrite Hqv, Hsv. cbn [negb]. rewrite Hwv.
    change (1 >=? 0) with true. unfold_alarm. simpl_alarm.
    change (int8 (1 + 1) =? 2) with true. cbv iota. unfold_alarm.
    simpl_alarm. split_ifs; split; try reflexivity; cbn [app In]; auto 10. }
  (* the first tick with the counter at 0 and fast cycling off *)
  assert (forall (e : movement_event_t) (i : inputs) (v : world),
             event_type e = EVENT_TICK ->
             is_setting (state v) = false ->
             alarm_quick_ticks (state v) = false ->
             _wait_ticks v = 0 ->
             state_of (alarm_face_loop e i v) = set_wait_ticks 1 v)
    as Hcount.
  { intros e i v He Hsv Hqv Hwv. unfold alarm_face_loop. rewrite He.
    unfold_alarm. rewrite Hqv, Hsv. cbn [negb]. rewrite Hwv.
    change (0 >=? 0) with true. unfold_alarm. simpl_alarm.
    change (int8 (0 + 1) =? 2) with false. reflexivity. }
  assert (forall a : alarm_setting_t,
             toggle_enabled (toggle_enabled a) = a) as Htwice.
  { intros a. destruct a. unfold toggle_enabled, set_enabled. simpl_alarm.
    rewrite negb_involutive. reflexivity. }
  split; [split; assumption|]. split; [|split; [|split]].
  - (* released *)
    intros Hlen released.
    assert (enabled (alarm (state (deliver held w1))) = toggled
            /\ is_setting (state (deliver held w1)) = false) as (Hen & Hsh).
    { destruct held as [|[e i] [|c' held']]; [auto | | cbn in Hlen; lia].
      inversion Hheld as [|x l He _]. subst x l. cbn [fst] in He.
      rewrite deliver_cons. cbn [deliver fold_left fst snd].
      destruct (alarm_tick_outside e i w1 He Hs1 (or_intror Hwt1))
        as (H1 & H2 & _).
      split; [congruence | exact H2]. }
    set (v := deliver held w1) in *.
    assert (state_of (alarm_face_loop up iu v) = set_wait_ticks (-1) v)
      as Hu.
    { unfold alarm_face_loop. rewrite Hup. unfold_alarm. rewrite Hsh.
      reflexivity. }
    unfold released. rewrite Hu.
    destruct (alarm_ticks_released after Hafter (set_wait_ticks (-1) v))
      as (H1 & H2); [exact Hsh | reflexivity |].
    split; [rewrite H1; exact Hen | exact H2].
  - (* held, fast cycling off *)
    intros Hq.
    assert (w2 = set_wait_ticks 1 w1) as Hw2.
    { unfold w2. apply Hcount; try assumption. congruence. }
    destruct (Hundo e3 i3 w2 He3) as (Hr3 & Hdelay);
      try (rewrite Hw2; simpl_alarm; first [assumption | congruence
                                            | reflexivity]).
    fold r3 in Hr3, Hdelay.
    split; [rewrite Hw2; exact Hen1|].
    rewrite Hr3, Hw2, Hw1. simpl_alarm. rewrite Htwice. auto.
  - (* held, fast cycling on, the cursor on the hour or the minute *)
    intros Hq Hon.
    destruct (alarm_quick_ticks_keep_toggle held Hheld w1) as (H1 & H2).
    + congruence.
    + rewrite Hc1. exact Hon.
    + split; congruence.
  - (* held, fast cycling on, the cursor elsewhere *)
    intros Hq Hon. unfold on_time in Hon.
    apply orb_false_iff in Hon. destruct Hon as (Hon1 & Hon2).
    assert (w2 = upd_state (set_alarm_quick_ticks false) w1) as Hw2.
    { unfold w2, alarm_face_loop. rewrite He2. unfold_alarm.
      rewrite Hq1, Hq, Hc1, Hon1, Hon2. unfold_alarm. rewrite Hq1, Hq.
      split_ifs; reflexivity. }
    assert (state_of r3 = set_wait_ticks 1 w2) as Hr3.
    { unfold r3. apply Hcount; try assumption;
        rewrite Hw2; simpl_alarm; first [assumption | reflexivity]. }
    destruct (Hundo e4 i4 (state_of r3) He4) as (Hr4 & Hdelay);
      try (rewrite Hr3, Hw2; simpl_alarm; first [assumption | reflexivity]).
    fold r4 in Hr4, Hdelay.
    split; [rewrite Hw2; reflexivity|].
    split; [rewrite Hr3, Hw2; simpl_alarm; exact Hen1|].
    rewrite Hr4, Hr3, Hw2, Hw1. simpl_alarm. rewrite Htwice. auto.
Qed.

(** *** Resigning *)

(** X7.  Resigning the alarm face closes the settings, stops fast cycling
    and keeps the alarm; ticks that follow change nothing, neither the
    alarm nor the wait counter, whatever state the face was left in. *)
Theorem alarm_resign_closes_settings
  (year_bits month_bits : nat) (i : inputs)
  (ticks : list (movement_event_t * inputs)) (w : world) :
  all_of_type EVENT_TICK ticks ->
  let w' := state_of (alarm_face_resign year_bits month_bits i w) in
  is_setting (state w') = false
  /\ alarm_quick_ticks (state w') = false
  /\ alarm (state w') = alarm (state w)
  /\ deliver ticks w' = w'.
Proof.
  intros Hticks w'.
  assert (is_setting (state w') = false
          /\ alarm_quick_ticks (state w') = false
          /\ alarm (state w') = alarm (state w)
          /\ _wait_ticks w' = -1) as (Hs & Hq & Ha & Hw).
  { unfold w'. repeat split; reflexivity. }
  repeat split; try assumption.
  apply alarm_idle_ticks; assumption.
Qed.

(** *** Fast cycling *)

(** A tick while fast cycling is on and the cursor is on the hour or the
    minute steps that field, whether the settings are open or not. *)
Lemma alarm_quick_tick (e : movement_event_t) (i : inputs) (w : world) :
  event_type e = EVENT_TICK ->
  alarm_quick_ticks (state w) = true ->
  setting_state (state w) = alarm_setting_idx_hour
  \/ setting_state (state w) = alarm_setting_idx_minute ->
  let c := setting_state (state w) in
  let a := alarm (state w) in
  let st' := state (state_of (alarm_face_loop e i w)) in
  alarm st' = with_field c (Z.rem (field_at c a + 1) (field_values c)) a
  /\ alarm_quick_ticks st' = true
  /\ setting_state st' = c
  /\ is_setting st' = is_setting (state w).
Proof.
  intros He Hq Hc. cbv zeta. unfold alarm_face_loop. rewrite He.
  unfold with_field, field_at, field_values.
  unfold_alarm. rewrite Hq.
  destruct Hc as [Hc | Hc]; rewrite Hc;
    cbv beta iota delta [Z.eqb alarm_setting_idx_day alarm_setting_idx_hour
                         alarm_setting_idx_minute Pos.eqb];
    split_ifs; simpl_alarm; auto.
Qed.

Lemma alarm_quick_ticks_run (es : list (movement_event_t * inputs)) :
  all_of_type EVENT_TICK es ->
  forall w,
    alarm_quick_ticks (state w) = true ->
    setting_state (state w) = alarm_setting_idx_hour
    \/ setting_state (state w) = alarm_setting_idx_minute ->
    let c := setting_state (state w) in
    let a := alarm (state w) in
    0 <= field_at c a < field_values c ->
    let st' := state (deliver es w) in
    alarm st'
    = with_field c ((field_at c a + Z.of_nat (length es)) mod field_values c)
        a
    /\ alarm_quick_ticks st' = true
    /\ setting_state st' = c
    /\ is_setting st' = is_setting (state w).
Proof.
  induction 1 as [|[e i] es He Hes IH]; intros w Hq Hc c a Hf st'.
  - unfold st'. cbn [deliver fold_left length Z.of_nat].
    rewrite Z.add_0_r, Z.mod_small by exact Hf.
    unfold c, a. rewrite with_field_same. auto.
  - unfold st'. rewrite deliver_cons. cbn [fst snd] in *.
    destruct (alarm_quick_tick e i w He Hq Hc) as (Ha1 & Hq1 & Hc1 & Hs1).
    fold c a in Ha1, Hc1.
    set (w1 := state_of (alarm_face_loop e i w)) in *.
    pose proof (field_values_pos c) as Hn.
    assert (Z.rem (field_at c a + 1) (field_values c)
            = (field_at c a + 1) mod field_values c) as Hrem
        by (apply Z.rem_mod_nonneg; lia).
    rewrite Hrem in Ha1.
    assert (field_at c (alarm (state w1))
            = (field_at c a + 1) mod field_values c) as Hf1
        by (rewrite Ha1; apply field_at_with_field).
    destruct (IH w1 Hq1 ltac:(rewrite Hc1; exact Hc))
      as (Ha2 & Hq2 & Hc2 & Hs2).
    { rewrite Hc1, Hf1. apply Z.mod_pos_bound. exact Hn. }
    rewrite Hc1 in Ha2, Hc2. rewrite Hf1 in Ha2.
    rewrite Ha1, with_field_twice in Ha2.
    split; [|repeat split; congruence].
    rewrite Ha2. f_equal. rewrite Zplus_mod_idemp_l. f_equal.
    cbn [length]. lia.
Qed.

(** X8.  In the settings of the alarm with the cursor on the hour or the
    minute, a long press of the alarm button starts fast cycling at eight
    ticks a second; every tick then steps the field, whether the button
    is still held or not, so n ticks add n modulo 24 or 60; the release of
    the long press stops the cycling, asks for four ticks a second again
    and keeps the alarm. *)
Theorem alarm_quick_ticks_step_the_field
  (e0 up : movement_event_t) (i0 iu : inputs)
  (ticks : list (movement_event_t * inputs)) (w : world) :
  event_type e0 = EVENT_ALARM_LONG_PRESS ->
  event_type up = EVENT_ALARM_LONG_UP ->
  all_of_type EVENT_TICK ticks ->
  is_setting (state w) = true ->
  setting_state (state w) = alarm_setting_idx_hour
  \/ setting_state (state w) = alarm_setting_idx_minute ->
  let c := setting_state (state w) in
  let a := alarm (state w) in
  0 <= field_at c a < field_values c ->
  let r0 := alarm_face_loop e0 i0 w in
  let w2 := deliver ticks (state_of r0) in
  let r3 := alarm_face_loop up iu w2 in
  alarm_quick_ticks (state (state_of r0)) = true
  /\ In (movement_request_tick_frequency 8) (calls_of r0)
  /\ alarm (state w2)
     = with_field c
         ((field_at c a + Z.of_nat (length ticks)) mod field_values c) a
  /\ alarm_quick_ticks (state (state_of r3)) = false
  /\ alarm (state (state_of r3)) = alarm (state w2)
  /\ calls_of r3 = [movement_request_tick_frequency 4].
Proof.
  intros He0 Hup Hticks Hs Hc c a Hf r0 w2 r3.
  assert (alarm_quick_ticks (state (state_of r0)) = true
          /\ setting_state (state (state_of r0)) = c
          /\ alarm (state (state_of r0)) = a
          /\ is_setting (state (state_of r0)) = true
          /\ In (movement_request_tick_frequency 8) (calls_of r0))
    as (Hq0 & Hc0 & Ha0 & Hs0 & Hcall).
  { unfold r0, alarm_face_loop. rewrite He0. unfold_alarm. rewrite Hs.
    cbn [negb].
    destruct Hc as [Hc | Hc]; rewrite Hc;
      cbv beta iota delta [Z.eqb alarm_setting_idx_hour
                           alarm_setting_idx_minute Pos.eqb orb];
      split_ifs; simpl_alarm; cbn [app In]; auto 10. }
  destruct (alarm_quick_ticks_run ticks Hticks (state_of r0) Hq0)
    as (Ha2 & Hq2 & Hc2 & Hs2).
  { rewrite Hc0. exact Hc. }
  { rewrite Hc0, Ha0. exact Hf. }
  fold w2 in Ha2, Hq2, Hc2, Hs2. rewrite Hc0 in Ha2, Hc2.
  rewrite Ha0 in Ha2. rewrite Hs0 in Hs2.
  split; [exact Hq0|]. split; [exact Hcall|]. split; [exact Ha2|].
  unfold r3, alarm_face_loop. rewrite Hup. unfold_alarm.
  rewrite Hs2, Hc2.
  destruct Hc as [Hc | Hc]; unfold c; rewrite Hc;
    cbv beta iota delta [Z.eqb alarm_setting_idx_hour
                         alarm_setting_idx_minute Pos.eqb orb];
    unfold_alarm; rewrite Hq2; simpl_alarm; auto.
Qed.

(** X9.  A long press of the light button closes the settings of the
    alarm but does not stop fast cycling, and neither does the release of
    the alarm button after it: with the cursor left on the hour or the
    minute, every later tick still steps that field of the alarm, though
    the settings are closed. *)
Theorem closing_settings_keeps_quick_ticks
  (e0 up : movement_event_t) (i0 iu : inputs)
  (ticks : list (movement_event_t * inputs)) (w : world) :
  event_type e0 = EVENT_LIGHT_LONG_PRESS ->
  event_type up = EVENT_ALARM_LONG_UP ->
  all_of_type EVENT_TICK ticks ->
  is_setting (state w) = true ->
  alarm_quick_ticks (state w) = true ->
  setting_state (state w) = alarm_setting_idx_hour
  \/ setting_state (state w) = alarm_setting_idx_minute ->
  let c := setting_state (state w) in
  let a := alarm (state w) in
  0 <= field_at c a < field_values c ->
  let w1 := state_of (alarm_face_loop e0 i0 w) in
  let w2 := state_of (alarm_face_loop up iu w1) in
  let w3 := deliver ticks w2 in
  is_setting (state w2) = false
  /\ alarm_quick_ticks (state w2) = true
  /\ is_setting (state w3) = false
  /\ alarm (state w3)
     = with_field c
         ((field_at c a + Z.of_nat (length ticks)) mod field_values c) a.
Proof.
  intros He0 Hup Hticks Hs Hq Hc c a Hf w1 w2 w3.
  assert (w1 = upd_state (set_is_setting false) w) as Hw1.
  { unfold w1, alarm_face_loop. rewrite He0. unfold_alarm. rewrite Hs.
    split_ifs; reflexivity. }
  assert (w2 = set_wait_ticks (-1) w1) as Hw2.
  { unfold w2, alarm_face_loop. rewrite Hup, Hw1. unfold_alarm.
    reflexivity. }
  assert (state w2 = set_is_setting false (state w)) as Hst.
  { rewrite Hw2, Hw1. reflexivity. }
  destruct (alarm_quick_ticks_run ticks Hticks w2) as (Ha3 & _ & _ & Hs3).
  { rewrite Hst. exact Hq. }
  { rewrite Hst. exact Hc. }
  { rewrite Hst. exact Hf. }
  fold w3 in Ha3, Hs3. rewrite Hst in Ha3, Hs3.
  repeat split.
  - rewrite Hst. reflexivity.
  - rewrite Hst. exact Hq.
  - exact Hs3.
  - exact Ha3.
Qed.

(** *** Sounds in the settings *)

(** X10.  In the settings of the alarm a short press of the alarm button
    sounds the buzzer only with the cursor on the pitch or on the beep
    rounds.  On the pitch it plays the example with the new pitch: the
    short double beep if the alarm has no beep rounds, one round of alarm
    beeps otherwise.  On the beep rounds it plays the example only when
    the new value is 0 (the short double beep) or 1 (one round). *)
Theorem settings_demo_beep
  (e : movement_event_t) (i : inputs) (w : world) :
  event_type e = EVENT_ALARM_BUTTON_UP ->
  is_setting (state w) = true ->
  in_range (alarm (state w)) ->
  let a := alarm (state w) in
  let c := setting_state (state w) in
  let sounds := filter is_sound (calls_of (alarm_face_loop e i w)) in
  let note' := _buzzer_notes ((pitch a + 1) mod 3) in
  (0 <= c < alarm_setting_idx_pitch -> sounds = [])
  /\ (c = alarm_setting_idx_pitch ->
      sounds = if beeps a =? 0 then short_double_beep note'
               else [movement_play_alarm_beeps 1 note'])
  /\ (c = alarm_setting_idx_beeps ->
      sounds = if beeps a =? 10 then short_double_beep (_buzzer_notes (pitch a))
               else if beeps a =? 0
               then [movement_play_alarm_beeps 1 (_buzzer_notes (pitch a))]
               else []).
Proof.
  intros He Hs (Hd & Hh & Hm & Hb & Hp). cbv zeta.
  unfold ALARM_MAX_BEEP_ROUNDS in Hb.
  assert (Z.rem (pitch (alarm (state w)) + 1) 3
          = (pitch (alarm (state w)) + 1) mod 3) as Hrem
      by (apply Z.rem_mod_nonneg; lia).
  unfold alarm_face_loop. rewrite He. unfold_alarm. rewrite Hs.
  cbn [negb]. unfold short_double_beep.
  unfold alarm_setting_idx_day, alarm_setting_idx_hour,
    alarm_setting_idx_minute, alarm_setting_idx_pitch,
    alarm_setting_idx_beeps, ALARM_MAX_BEEP_ROUNDS.
  repeat split; intros Hc.
  - destruct (setting_state (state w) =? 0) eqn:E0;
      [split_ifs; reflexivity|].
    destruct (setting_state (state w) =? 1) eqn:E1;
      [split_ifs; reflexivity|].
    destruct (setting_state (state w) =? 2) eqn:E2;
      [split_ifs; reflexivity|].
    apply Z.eqb_neq in E0, E1, E2. lia.
  - rewrite Hc. cbn [Z.eqb Pos.eqb]. unfold_alarm. simpl_alarm.
    rewrite Hrem.
    destruct (beeps (alarm (state w)) =? 0); split_ifs; reflexivity.
  - rewrite Hc. cbn [Z.eqb Pos.eqb]. unfold_alarm. simpl_alarm.
    destruct (Z.eqb_spec (beeps (alarm (state w))) 10) as [E | E];
      [|destruct (Z.eqb_spec (beeps (alarm (state w))) 0) as [E0 | E0]].
    + assert (Z.rem (beeps (alarm (state w)) + 1) ALARM_MAX_BEEP_ROUNDS = 0)
        as Hr by (rewrite E; reflexivity).
      repeat (progress (unfold_alarm; simpl_alarm; rewrite ?Hr;
                        cbn [Z.leb Z.eqb Z.compare])).
      split_ifs; reflexivity.
    + assert (Z.rem (beeps (alarm (state w)) + 1) ALARM_MAX_BEEP_ROUNDS = 1)
        as Hr by (rewrite E0; reflexivity).
      repeat (progress (unfold_alarm; simpl_alarm; rewrite ?Hr;
                        cbn [Z.leb Z.eqb Z.compare Pos.compare Pos.compare_cont
                             Pos.eqb])).
      split_ifs; reflexivity.
    + assert (Z.rem (beeps (alarm (state w)) + 1) ALARM_MAX_BEEP_ROUNDS
              = beeps (alarm (state w)) + 1) as Hr
          by (apply Z.rem_small; unfold ALARM_MAX_BEEP_ROUNDS; lia).
      rewrite ?Hr.
      destruct (Z.leb_spec (beeps (alarm (state w)) + 1) 1); [lia|].
      split_ifs; reflexivity.
Qed.

(** *** The display *)

Lemma display_hour_shown (i : inputs) (st : alarm_state_t) :
  0 <= hour (alarm st) < 24 ->
  let h := hour (alarm st) in
  let shown := display_hour i st in
  if clock_mode_24h i then shown = h
  else 1 <= shown <= 12 /\ shown mod 12 = h mod 12.
Proof.
  intros Hh. cbv zeta. unfold display_hour.
  rewrite (uint8_small (hour (alarm st))) by lia.
  destruct (clock_mode_24h i); cbn [negb]; [reflexivity|].
  rewrite Z.geb_leb.
  destruct (Z.leb_spec 12 (hour (alarm st))) as [Hge | Hlt].
  - assert (Z.rem (hour (alarm st)) 12 = hour (alarm st) - 12) as Hr
        by div_lia.
    rewrite Hr, (uint8_small (hour (alarm st) - 12)) by lia.
    assert ((hour (alarm st) - 12) mod 12 = hour (alarm st) mod 12) as Hm.
    { replace (hour (alarm st) - 12)
        with (hour (alarm st) + (-1) * 12) by lia.
      apply Z.mod_add. lia. }
    destruct (Z.eqb_spec (hour (alarm st) - 12) 0) as [E | E].
    + split; [lia|]. rewrite <- Hm, E. reflexivity.
    + split; [lia | exact Hm].
  - destruct (Z.eqb_spec (hour (alarm st)) 0) as [E | E].
    + split; [lia|]. rewrite E. reflexivity.
    + split; [lia | reflexivity].
Qed.

(** X11.  [_alarm_face_draw] makes three calls: an indicator call, the
    display of the text at the position 0 and the call of the signal
    indicator by the enabled flag.  The text is the two letters of the
    day, an exclamation mark, the letter of the beep rounds, the hour in
    two columns, the minute in two digits and two blanks, the field under
    the cursor blanked in the settings on an odd subsecond without fast
    cycling.  On a 24 hour display the hour printed is the alarm's and the
    24H indicator is set; on a 12 hour display, for an alarm hour below
    24, the hour printed is from 1 to 12 and is the alarm's hour modulo
    12, and the PM indicator is set from noon on and cleared before. *)
Theorem display_hour_12h (i : inputs) (sub : Z) (w : world) :
  0 <= hour (alarm (state w)) < 24 ->
  let st := state w in
  let a := alarm st in
  let text shown :=
    let buf := sprintf_alarm (day a) (beeps a) shown (minute a) in
    if is_setting st && negb (Z.rem sub 2 =? 0)
       && negb (alarm_quick_ticks st)
    then Text.blank (_blink_idx (setting_state st))
           (Text.blank (_blink_idx2 (setting_state st)) buf)
    else buf in
  let signal :=
    if enabled a then watch_set_indicator WATCH_INDICATOR_SIGNAL
    else watch_clear_indicator WATCH_INDICATOR_SIGNAL in
  exists shown,
    calls_of (_alarm_face_draw i sub w)
    = [if clock_mode_24h i then watch_set_indicator WATCH_INDICATOR_24H
       else if 12 <=? hour a then watch_set_indicator WATCH_INDICATOR_PM
       else watch_clear_indicator WATCH_INDICATOR_PM;
       watch_display_string (text shown) 0;
       signal]
    /\ (if clock_mode_24h i then shown = hour a
        else 1 <= shown <= 12 /\ shown mod 12 = hour a mod 12).
Proof.
  intros Hh. cbv zeta. exists (display_hour i (state w)).
  split; [|exact (display_hour_shown i (state w) Hh)].
  unfold_alarm. rewrite Z.geb_leb.
  change (_alarm_face_draw_buf i sub (state w))
    with (let buf :=
            sprintf_alarm (day (alarm (state w))) (beeps (alarm (state w)))
              (display_hour i (state w)) (minute (alarm (state w))) in
          if is_setting (state w) && negb (Z.rem sub 2 =? 0)
             && negb (alarm_quick_ticks (state w))
          then Text.blank (_blink_idx (setting_state (state w)))
                 (Text.blank (_blink_idx2 (setting_state (state w))) buf)
          else buf).
  cbv zeta.
  destruct (clock_mode_24h i), (12 <=? hour (alarm (state w)));
    cbn [negb]; unfold_alarm;
    destruct (enabled (alarm (state w))); reflexivity.
Qed.

(** *** The alarm's time outside the settings *)

(** X12.  While the settings are closed and fast cycling is off, no entry
    of the face changes the day, hour, minute, beep rounds or pitch of the
    alarm, and none switches fast cycling on. *)
Theorem closed_settings_keep_alarm_time
  (yb mb : nat) (c : inputs * entry) (w : world) :
  is_setting (state w) = false ->
  alarm_quick_ticks (state w) = false ->
  let a := alarm (state w) in
  let st' := state (fst (step yb mb c w)) in
  day (alarm st') = day a
  /\ hour (alarm st') = hour a
  /\ minute (alarm st') = minute a
  /\ beeps (alarm st') = beeps a
  /\ pitch (alarm st') = pitch a
  /\ alarm_quick_ticks st' = false.
Proof.
  intros Hs Hq. cbv zeta. destruct c as [i e].
  destruct e as [ | [ty sub] | | ]; unfold step; cbn [fst snd].
  - unfold_alarm. auto 10.
  - unfold alarm_face_loop; cbn [event_type subsecond]; destruct ty;
      unfold_alarm; rewrite ?Hs, ?Hq; cbn [negb];
      split_ifs; simpl_alarm; auto 10.
  - split_ifs; simpl_alarm; auto 10.
  - split_ifs; simpl_alarm; auto 10.
Qed.

(** *** Instances *)

Lemma alarm_reachable_in_bounds_witness :
  reachable 6 4
    (run 6 4 MoreExamples.alarm_entries (alarm_face_setup false))
  /\ invariant
       (run 6 4 MoreExamples.alarm_entries (alarm_face_setup false)).
Proof.
  assert (reachable 6 4
            (run 6 4 MoreExamples.alarm_entries (alarm_face_setup false)))
    as Hr.
  { exists false, MoreExamples.alarm_entries. reflexivity. }
  split; [exact Hr|].
  exact (proj1 (alarm_reachable_in_bounds 6 4 _ Hr)).
Defined.

Lemma fire_check_frame_witness :
  settings_alarm_enabled
    (state_of
       (alarm_face_wants_background_task 6 4
          (Examples.clock 2024 1 1 7 24) Examples.alarm_0730))
  <> settings_alarm_enabled Examples.alarm_0730
  /\ result_of
       (alarm_face_wants_background_task 6 4
          (Examples.clock 2024 1 1 7 24) Examples.alarm_0730)
     = false.
Proof.
  assert (settings_alarm_enabled
            (state_of
               (alarm_face_wants_background_task 6 4
                  (Examples.clock 2024 1 1 7 24) Examples.alarm_0730))
          <> settings_alarm_enabled Examples.alarm_0730) as Hne.
  { vm_compute. discriminate. }
  split; [exact Hne|].
  pose proof (fire_check_frame 6 4 (Examples.clock 2024 1 1 7 24)
                Examples.alarm_0730) as H.
  cbv zeta in H.
  exact (proj1 (proj2 (proj2 (proj2 (proj2 (proj2 (proj2 H))))) Hne)).
Defined.

Lemma firing_alarm_is_active_witness :
  RTC.wf_date_time
    (watch_rtc_get_date_time (Examples.clock 2024 1 1 7 30))
  /\ settings_alarm_enabled
       (state_of
          (_alarm_update_alarm_enabled 6 4 (Examples.clock 2024 1 1 7 30)
             Examples.alarm_0730))
     = true.
Proof.
  assert (RTC.wf_date_time
            (watch_rtc_get_date_time (Examples.clock 2024 1 1 7 30)))
    as Hwf.
  { vm_compute. repeat split; discriminate. }
  split; [exact Hwf|].
  pose proof (firing_alarm_is_active 6 4 (Examples.clock 2024 1 1 7 30)
                Examples.alarm_0730 Hwf) as H.
  cbv zeta in H.
  apply (proj1 H). vm_compute. reflexivity.
Defined.

Lemma alarm_field_cycles_witness :
  all_of_type EVENT_ALARM_BUTTON_UP
    (MoreExamples.alarm_events EVENT_ALARM_BUTTON_UP 24)
  /\ hour
       (alarm
          (state
             (deliver (MoreExamples.alarm_events EVENT_ALARM_BUTTON_UP 24)
                MoreExamples.alarm_setting_hour)))
     = 7.
Proof.
  assert (all_of_type EVENT_ALARM_BUTTON_UP
            (MoreExamples.alarm_events EVENT_ALARM_BUTTON_UP 24)) as Hty.
  { repeat constructor. }
  split; [exact Hty|].
  pose proof (alarm_field_cycles
                (MoreExamples.alarm_events EVENT_ALARM_BUTTON_UP 24)
                MoreExamples.alarm_setting_hour Hty) as H.
  cbv zeta in H.
  rewrite (proj1 (H eq_refl ltac:(vm_compute; split; discriminate)
                    ltac:(vm_compute; split; [discriminate | reflexivity]))).
  reflexivity.
Defined.

Lemma alarm_settings_cursor_witness :
  all_of_type EVENT_LIGHT_BUTTON_UP
    (MoreExamples.alarm_events EVENT_LIGHT_BUTTON_UP 5)
  /\ is_setting
       (state
          (deliver (MoreExamples.alarm_events EVENT_LIGHT_BUTTON_UP 5)
             (state_of
                (alarm_face_loop
                   (Examples.alarm_event EVENT_LIGHT_LONG_PRESS)
                   (Examples.clock 2024 1 1 7 30) Examples.alarm_0730))))
     = false.
Proof.
  assert (all_of_type EVENT_LIGHT_BUTTON_UP
            (MoreExamples.alarm_events EVENT_LIGHT_BUTTON_UP 5)) as Hty.
  { repeat constructor. }
  split; [exact Hty|].
  pose proof (alarm_settings_cursor
                (Examples.alarm_event EVENT_LIGHT_LONG_PRESS)
                (Examples.clock 2024 1 1 7 30)
                (MoreExamples.alarm_events EVENT_LIGHT_BUTTON_UP 5)
                Examples.alarm_0730 eq_refl Hty eq_refl
                ltac:(vm_compute; repeat constructor)) as H.
  cbv zeta in H.
  rewrite (proj2 (proj2 (proj2 H))). reflexivity.
Defined.

Lemma alarm_long_press_undo_witness :
  all_of_type EVENT_TICK (MoreExamples.alarm_events EVENT_TICK 1)
  /\ all_of_type EVENT_TICK (MoreExamples.alarm_events EVENT_TICK 3)
  /\ is_setting (state Examples.alarm_0730) = false
  /\ alarm_quick_ticks (state Examples.alarm_0730) = false
  /\ enabled
       (alarm
          (state
             (deliver (MoreExamples.alarm_events EVENT_TICK 3)
                (state_of
                   (alarm_face_loop
                      (Examples.alarm_event EVENT_ALARM_LONG_UP)
                      (Examples.clock 2024 1 1 7 30)
                      (deliver (MoreExamples.alarm_events EVENT_TICK 1)
                         (state_of
                            (alarm_face_loop
                               (Examples.alarm_event EVENT_ALARM_LONG_PRESS)
                               (Examples.clock 2024 1 1 7 30)
                               Examples.alarm_0730))))))))
     = false
  /\ alarm
       (state
          (state_of
             (alarm_face_loop (Examples.alarm_event EVENT_TICK)
                (Examples.clock 2024 1 1 7 30)
                (state_of
                   (alarm_face_loop (Examples.alarm_event EVENT_TICK)
                      (Examples.clock 2024 1 1 7 30)
                      (state_of
                         (alarm_face_loop
                            (Examples.alarm_event EVENT_ALARM_LONG_PRESS)
                            (Examples.clock 2024 1 1 7 30)
                            Examples.alarm_0730)))))))
     = alarm (state Examples.alarm_0730).
Proof.
  assert (all_of_type EVENT_TICK (MoreExamples.alarm_events EVENT_TICK 1))
    as Hheld.
  { repeat constructor. }
  assert (all_of_type EVENT_TICK (MoreExamples.alarm_events EVENT_TICK 3))
    as Hafter.
  { repeat constructor. }
  pose proof (alarm_long_press_undo
                (Examples.alarm_event EVENT_ALARM_LONG_PRESS)
                (Examples.alarm_event EVENT_TICK)
                (Examples.alarm_event EVENT_TICK)
                (Examples.alarm_event EVENT_TICK)
                (Examples.alarm_event EVENT_ALARM_LONG_UP)
                (Examples.clock 2024 1 1 7 30)
                (Examples.clock 2024 1 1 7 30)
                (Examples.clock 2024 1 1 7 30)
                (Examples.clock 2024 1 1 7 30)
                (Examples.clock 2024 1 1 7 30)
                (MoreExamples.alarm_events EVENT_TICK 1)
                (MoreExamples.alarm_events EVENT_TICK 3)
                Examples.alarm_0730
                eq_refl eq_refl eq_refl eq_refl eq_refl Hheld Hafter
                eq_refl) as H.
  cbv zeta in H.
  destruct H as (_ & Hrel & Hoff & _).
  split; [exact Hheld|]. split; [exact Hafter|].
  split; [reflexivity|]. split; [reflexivity|].
  split.
  - exact (proj1 (Hrel (le_n 1))).
  - exact (proj1 (proj2 (Hoff eq_refl))).
Defined.

Lemma alarm_resign_closes_settings_witness :
  all_of_type EVENT_TICK (MoreExamples.alarm_events EVENT_TICK 3)
  /\ deliver (MoreExamples.alarm_events EVENT_TICK 3)
       (state_of
          (alarm_face_resign 6 4 (Examples.clock 2024 1 1 7 30)
             MoreExamples.alarm_cycling_hour))
     = state_of
         (alarm_face_resign 6 4 (Examples.clock 2024 1 1 7 30)
            MoreExamples.alarm_cycling_hour).
Proof.
  assert (all_of_type EVENT_TICK (MoreExamples.alarm_events EVENT_TICK 3))
    as Hty.
  { repeat constructor. }
  split; [exact Hty|].
  pose proof (alarm_resign_closes_settings 6 4
                (Examples.clock 2024 1 1 7 30)
                (MoreExamples.alarm_events EVENT_TICK 3)
                MoreExamples.alarm_cycling_hour Hty) as H.
  cbv zeta in H.
  exact (proj2 (proj2 (proj2 H))).
Defined.

Lemma alarm_quick_ticks_step_the_field_witness :
  all_of_type EVENT_TICK (MoreExamples.alarm_events EVENT_TICK 20)
  /\ hour
       (alarm
          (state
             (deliver (MoreExamples.alarm_events EVENT_TICK 20)
                (state_of
                   (alarm_face_loop
                      (Examples.alarm_event EVENT_ALARM_LONG_PRESS)
                      (Examples.clock 2024 1 1 7 30)
                      MoreExamples.alarm_setting_hour)))))
     = 3.
Proof.
  assert (all_of_type EVENT_TICK (MoreExamples.alarm_events EVENT_TICK 20))
    as Hty.
  { repeat constructor. }
  split; [exact Hty|].
  pose proof (alarm_quick_ticks_step_the_field
                (Examples.alarm_event EVENT_ALARM_LONG_PRESS)
                (Examples.alarm_event EVENT_ALARM_LONG_UP)
                (Examples.clock 2024 1 1 7 30)
                (Examples.clock 2024 1 1 7 30)
                (MoreExamples.alarm_events EVENT_TICK 20)
                MoreExamples.alarm_setting_hour
                eq_refl eq_refl Hty eq_refl (or_introl eq_refl)
                ltac:(vm_compute; split; [discriminate | reflexivity])) as H.
  cbv zeta in H.
  rewrite (proj1 (proj2 (proj2 H))). reflexivity.
Defined.

Lemma closing_settings_keeps_quick_ticks_witness :
  alarm_quick_ticks (state MoreExamples.alarm_cycling_hour) = true
  /\ hour
       (alarm
          (state
             (deliver (MoreExamples.alarm_events EVENT_TICK 20)
                (state_of
                   (alarm_face_loop
                      (Examples.alarm_event EVENT_ALARM_LONG_UP)
                      (Examples.clock 2024 1 1 7 30)
                      (state_of
                         (alarm_face_loop
                            (Examples.alarm_event EVENT_LIGHT_LONG_PRESS)
                            (Examples.clock 2024 1 1 7 30)
                            MoreExamples.alarm_cycling_hour)))))))
     = 3.
Proof.
  split; [reflexivity|].
  pose proof (closing_settings_keeps_quick_ticks
                (Examples.alarm_event EVENT_LIGHT_LONG_PRESS)
                (Examples.alarm_event EVENT_ALARM_LONG_UP)
                (Examples.clock 2024 1 1 7 30)
                (Examples.clock 2024 1 1 7 30)
                (MoreExamples.alarm_events EVENT_TICK 20)
                MoreExamples.alarm_cycling_hour
                eq_refl eq_refl ltac:(repeat constructor) eq_refl eq_refl
                (or_introl eq_refl)
                ltac:(vm_compute; split; [discriminate | reflexivity])) as H.
  cbv zeta in H.
  rewrite (proj2 (proj2 (proj2 H))). reflexivity.
Defined.

Lemma settings_demo_beep_witness :
  in_range (alarm (state MoreExamples.alarm_setting_hour))
  /\ filter is_sound
       (calls_of
          (alarm_face_loop (Examples.alarm_event EVENT_ALARM_BUTTON_UP)
             (Examples.clock 2024 1 1 7 30)
             MoreExamples.alarm_setting_hour))
     = [].
Proof.
  assert (in_range (alarm (state MoreExamples.alarm_setting_hour))) as Hr.
  { vm_compute. repeat split; discriminate. }
  split; [exact Hr|].
  pose proof (settings_demo_beep
                (Examples.alarm_event EVENT_ALARM_BUTTON_UP)
                (Examples.clock 2024 1 1 7 30)
                MoreExamples.alarm_setting_hour eq_refl eq_refl Hr) as H.
  cbv zeta in H.
  apply (proj1 H). vm_compute. split; [discriminate | reflexivity].
Defined.

Lemma display_hour_12h_witness :
  0 <= hour (alarm (state MoreExamples.alarm_1930)) < 24
  /\ exists shown : Z,
       calls_of
         (_alarm_face_draw (MoreExamples.clock12 2024 1 1 7 30) 0
            MoreExamples.alarm_1930)
       = [watch_set_indicator WATCH_INDICATOR_PM;
          watch_display_string (sprintf_alarm 7 5 shown 30) 0;
          watch_set_indicator WATCH_INDICATOR_SIGNAL]
       /\ 1 <= shown <= 12
       /\ shown mod 12 = 19 mod 12.
Proof.
  assert (0 <= hour (alarm (state MoreExamples.alarm_1930)) < 24) as Hh.
  { vm_compute. split; [discriminate | reflexivity]. }
  split; [exact Hh|].
  exact (display_hour_12h (MoreExamples.clock12 2024 1 1 7 30) 0
           MoreExamples.alarm_1930 Hh).
Defined.

(** The alarm of 19:30, every day, five beep rounds, on a 12 hour display
    and on a 24 hour display; and the alarm of 7:30 in the settings with
    the cursor on the hour, on an odd subsecond. *)
Example alarm_1930_on_the_display :
  calls_of
    (_alarm_face_draw (MoreExamples.clock12 2024 1 1 7 30) 0
       MoreExamples.alarm_1930)
  = [watch_set_indicator WATCH_INDICATOR_PM;
     watch_display_string "AL!5 730  "%string 0;
     watch_set_indicator WATCH_INDICATOR_SIGNAL]
  /\ calls_of
       (_alarm_face_draw (Examples.clock 2024 1 1 7 30) 0
          MoreExamples.alarm_1930)
     = [watch_set_indicator WATCH_INDICATOR_24H;
        watch_display_string "AL!51930  "%string 0;
        watch_set_indicator WATCH_INDICATOR_SIGNAL]
  /\ calls_of
       (_alarm_face_draw (Examples.clock 2024 1 1 7 30) 1
          MoreExamples.alarm_setting_hour)
     = [watch_set_indicator WATCH_INDICATOR_24H;
        watch_display_string "AL!5  30  "%string 0;
        watch_set_indicator WATCH_INDICATOR_SIGNAL].
Proof. repeat split; vm_compute; reflexivity. Qed.

Lemma closed_settings_keep_alarm_time_witness :
  is_setting (state Examples.alarm_0730) = false
  /\ hour
       (alarm
          (state
             (fst
                (step 6 4
                   (Examples.clock 2024 1 1 7 30,
                    Loop (Examples.alarm_event EVENT_ALARM_BUTTON_UP))
                   Examples.alarm_0730))))
     = 7.
Proof.
  split; [reflexivity|].
  pose proof (closed_settings_keep_alarm_time 6 4
                (Examples.clock 2024 1 1 7 30,
                 Loop (Examples.alarm_event EVENT_ALARM_BUTTON_UP))
                Examples.alarm_0730 eq_refl eq_refl) as H.
  cbv zeta in H.
  rewrite (proj1 (proj2 H)). reflexivity.
Defined.

End AlarmMore.

(** * Further properties of the timer face *)

Module TimerMore.

Import C CFacts CMore HostFacts Timer TimerInv TimerScenario TimerRuns
  TimerFacts.

#[local] Hint Rewrite draw_state abort_quick_cycle_state
  check_for_signal_result check_for_signal_state reset_state
  resume_setting_state start_state settings_increment_state : proc_state.

Section Calls.

Context {S A : Type}.

Lemma calls_of_ret (a : A) (s : S) : calls_of (ret a s) = [].
Proof. reflexivity. Qed.

Lemma calls_of_get (s : S) : calls_of (get s) = [].
Proof. reflexivity. Qed.

Lemma calls_of_modify (f : S -> S) (s : S) : calls_of (modify f s) = [].
Proof. reflexivity. Qed.

Lemma calls_of_do_call (c : call) (s : S) : calls_of (do_call c s) = [c].
Proof. reflexivity. Qed.

Lemma calls_of_skip (s : S) : calls_of (skip s) = [].
Proof. reflexivity. Qed.

End Calls.

Create Rewrite HintDb proc_calls.

#[local] Hint Rewrite @calls_of_bind @calls_of_ret @calls_of_get
  @calls_of_modify @calls_of_do_call @calls_of_skip : proc_calls.

Ltac calls_steps :=
  repeat (autorewrite with proc_state proc_calls; cbv beta).

(** *** More of the invariant *)

Lemma armed_setup (face_index : Z) :
  armed_invariant (timer_face_setup face_index).
Proof.
  unfold armed_invariant, timer_face_setup. simpl_state.
  repeat split; try lia. intros [H | H]; discriminate H.
Qed.

Ltac armed_leaf :=
  autorewrite with proc_state in *;
  unfold armed_invariant in *; simpl_state;
  rewrite ?of_value_0 in *; simpl_state;
  repeat match goal with
    | |- context [uint8 (Z.rem (?k + 1) 10)] =>
        rewrite (loop_count_step k) by lia;
        pose proof (Z.mod_pos_bound (k + 1) 10 ltac:(lia))
    | |- context [uint8 (?b - 1)] =>
        rewrite (uint8_small (b - 1)) by (bool_facts; lia)
    end;
  bool_facts;
  repeat split; intros; simpl_state;
  try lia; try congruence; try discriminate; auto;
  try match goal with
    | H : _ \/ _ |- _ => destruct H; try discriminate; try congruence; auto
    end;
  try (exfalso;
       match goal with
       | H : mode ?s = _, E : mode_eqb (mode ?s) _ = false |- _ =>
           rewrite H in E; discriminate E
       end).

Lemma armed_step (pl : nat) (c : inputs * entry) (w : world) :
  armed_invariant w -> armed_invariant (step pl c w).
Proof.
  intros (Hl & Hb & Hv).
  destruct c as [i e]. destruct e as [ | [ty sub] | | ];
    unfold step; cbn [fst snd].
  - unfold timer_face_activate. state_cases; armed_leaf.
  - unfold timer_face_loop; cbn [event_type subsecond]; destruct ty;
      state_cases; cbv zeta;
      repeat match goal with
        | |- context [if ?b then _ else _] => destruct b eqn:?
        end.
    all: armed_leaf.
  - unfold timer_face_resign. state_cases; armed_leaf.
  - unfold _signal_callback. state_cases; armed_leaf.
Qed.

Lemma armed_run (pl : nat) (cs : list (inputs * entry)) :
  forall w, armed_invariant w -> armed_invariant (run pl cs w).
Proof.
  induction cs as [|c cs IH]; intros w Hw; [exact Hw|].
  cbn [run fold_left]. apply IH. apply armed_step. exact Hw.
Qed.

(** X13.  Every state the timer face reaches has a duration of less than
    24 hours, 60 minutes and 60 seconds, a cursor from 0 to 4, a loop count
    of one digit and at most four beeps pending; and while it runs or
    pauses its packed value is not zero, so that [_start] never refuses to
    resume a paused timer. *)
Theorem timer_reachable_in_bounds (pl : nat) (w : world) :
  reachable pl w ->
  wf_timer (timer (state w))
  /\ 0 <= settings_state (state w) <= 4
  /\ 0 <= loop_count (state w) <= 9
  /\ 0 <= _beeps_to_play w <= 4
  /\ (mode (state w) = running \/ mode (state w) = pausing ->
      value (timer (state w)) <> 0).
Proof.
  intros Hr. destruct (reachable_invariant pl w Hr) as (Hwf & Hc & _).
  destruct Hr as (face_index & cs & ->).
  destruct (armed_run pl cs _ (armed_setup face_index)) as (Hl & Hb & Hv).
  repeat split; try assumption; try lia.
  all: destruct Hwf as (? & ? & ?); lia.
Qed.

(** *** The beeps *)

Lemma signal_callback_eq (w : world) :
  _signal_callback w
  = if _beeps_to_play w =? 0 then (tt, w, [])
    else (tt, set_beeps_to_play (uint8 (_beeps_to_play w - 1)) w,
          [watch_buzzer_play_sequence _sound_seq_beep true]).
Proof.
  unfold _signal_callback, bind, get, modify, do_call, skip, ret.
  destruct (_beeps_to_play w =? 0); reflexivity.
Qed.

Lemma callbacks_spec (k : nat) :
  forall w,
    0 <= _beeps_to_play w < 256 ->
    state (fst (callbacks k w)) = state w
    /\ _beeps_to_play (fst (callbacks k w))
       = Z.max 0 (_beeps_to_play w - Z.of_nat k)
    /\ snd (callbacks k w)
       = List.repeat (watch_buzzer_play_sequence _sound_seq_beep true)
           (Nat.min k (Z.to_nat (_beeps_to_play w))).
Proof.
  induction k as [|k IH]; intros w Hb.
  - cbn [callbacks fst snd Nat.min List.repeat Z.of_nat].
    repeat split; try reflexivity. lia.
  - cbn [callbacks fst snd]. rewrite signal_callback_eq.
    destruct (Z.eqb_spec (_beeps_to_play w) 0) as [E|E];
      unfold state_of, calls_of; cbn [fst snd app].
    + destruct (IH w Hb) as (Hs & Hn & Hc).
      rewrite Hs, Hn, Hc, E. cbn [Z.to_nat]. rewrite !Nat.min_0_r.
      repeat split; try reflexivity. lia.
    + assert (uint8 (_beeps_to_play w - 1) = _beeps_to_play w - 1) as Hu
          by (unfold uint8; apply wrap_small; simpl Z.of_nat; lia).
      rewrite Hu.
      destruct (IH (set_beeps_to_play (_beeps_to_play w - 1) w))
        as (Hs & Hn & Hc).
      { cbn. lia. }
      rewrite Hs, Hn, Hc. cbn [set_beeps_to_play state _beeps_to_play].
      repeat split; try reflexivity; try lia.
      replace (Z.to_nat (_beeps_to_play w))
        with (S (Z.to_nat (_beeps_to_play w - 1))) by lia.
      reflexivity.
Qed.

(** X14.  The background event queues four beeps and plays the beep
    sequence once; each callback of the buzzer then plays it once more and
    takes one beep off the queue, until the queue is empty, after which
    callbacks do nothing.  So an expiry sounds five sequences in all, and
    the callbacks change nothing else of the face. *)
Theorem expiry_beeps
  (pl : nat) (e : movement_event_t) (i : inputs) (w : world) (k : nat) :
  event_type e = EVENT_BACKGROUND_TASK ->
  let r := timer_face_loop pl e i w in
  let after := callbacks k (state_of r) in
  _beeps_to_play (state_of r) = 4
  /\ In (watch_buzzer_play_sequence _sound_seq_beep true) (calls_of r)
  /\ state (fst after) = state (state_of r)
  /\ _beeps_to_play (fst after) = Z.max 0 (4 - Z.of_nat k)
  /\ snd after
     = List.repeat (watch_buzzer_play_sequence _sound_seq_beep true)
         (Nat.min k 4).
Proof.
  intros He r after.
  assert (_beeps_to_play (state_of r) = 4) as H4.
  { unfold r, timer_face_loop. rewrite He. state_cases; cbv zeta;
      repeat match goal with
        | |- context [if ?b then _ else _] => destruct b
        end; reflexivity. }
  assert (In (watch_buzzer_play_sequence _sound_seq_beep true) (calls_of r))
    as Hin.
  { unfold r, timer_face_loop. rewrite He.
    rewrite !calls_of_bind. apply in_or_app. left.
    apply in_or_app. right. apply in_or_app. left. left. reflexivity. }
  destruct (callbacks_spec k (state_of r) ltac:(lia)) as (Hs & Hn & Hc).
  fold after in Hs, Hn, Hc. rewrite H4 in Hn, Hc.
  repeat split; assumption.
Qed.

(** *** Ticks *)

Lemma timer_deliver_cons (pl : nat) (c : movement_event_t * inputs)
  (es : list (movement_event_t * inputs)) (w : world) :
  deliver pl (c :: es) w
  = deliver pl es (state_of (timer_face_loop pl (fst c) (snd c) w)).
Proof. reflexivity. Qed.

Lemma tick_running (pl : nat) (e : movement_event_t) (i : inputs) (w : world) :
  event_type e = EVENT_TICK ->
  mode (state w) = running ->
  state_of (timer_face_loop pl e i w)
  = upd_state (set_now_ts (uint32 (now_ts (state w) + 1))) w.
Proof.
  intros He Hm. unfold timer_face_loop. rewrite He.
  autorewrite with proc_state. rewrite Hm. cbn [mode_eqb].
  autorewrite with proc_state. reflexivity.
Qed.

Lemma tick_pausing (pl : nat) (e : movement_event_t) (i : inputs) (w : world) :
  event_type e = EVENT_TICK ->
  mode (state w) = pausing ->
  state_of (timer_face_loop pl e i w)
  = upd_state (set_pausing_seconds (uint8 (pausing_seconds (state w) + 1))) w.
Proof.
  intros He Hm. unfold timer_face_loop. rewrite He.
  autorewrite with proc_state. rewrite Hm. cbn [mode_eqb].
  autorewrite with proc_state. reflexivity.
Qed.

Lemma uint32_add_l (x y : Z) : uint32 (uint32 x + y) = uint32 (x + y).
Proof. unfold uint32, wrap. apply Zplus_mod_idemp_l. Qed.

Lemma uint8_add_l (x y : Z) : uint8 (uint8 x + y) = uint8 (x + y).
Proof. unfold uint8, wrap. apply Zplus_mod_idemp_l. Qed.

Lemma ticks_running (pl : nat) (es : list (movement_event_t * inputs)) :
  all_of_type EVENT_TICK es ->
  forall w,
    mode (state w) = running ->
    deliver pl es w
    = upd_state
        (set_now_ts
           (match es with
            | [] => now_ts (state w)
            | _ => uint32 (now_ts (state w) + Z.of_nat (length es))
            end)) w.
Proof.
  induction 1 as [|[e i] es He Hes IH]; intros w Hm.
  - destruct w as [st b]. destruct st. reflexivity.
  - rewrite timer_deliver_cons. cbn [fst snd] in *.
    rewrite (tick_running pl e i w He Hm).
    rewrite IH by exact Hm. simpl_state.
    destruct es as [|c es'].
    + reflexivity.
    + unfold upd_state. simpl_state. rewrite uint32_add_l.
      replace (now_ts (state w) + 1 + Z.of_nat (length (c :: es')))
        with (now_ts (state w) + Z.of_nat (length ((e, i) :: c :: es')))
        by (cbn [length]; lia).
      reflexivity.
Qed.

Lemma ticks_pausing (pl : nat) (es : list (movement_event_t * inputs)) :
  all_of_type EVENT_TICK es ->
  forall w,
    mode (state w) = pausing ->
    deliver pl es w
    = upd_state
        (set_pausing_seconds
           (match es with
            | [] => pausing_seconds (state w)
            | _ => uint8 (pausing_seconds (state w) + Z.of_nat (length es))
            end)) w.
Proof.
  induction 1 as [|[e i] es He Hes IH]; intros w Hm.
  - destruct w as [st b]. destruct st. reflexivity.
  - rewrite timer_deliver_cons. cbn [fst snd] in *.
    rewrite (tick_pausing pl e i w He Hm).
    rewrite IH by exact Hm. simpl_state.
    destruct es as [|c es'].
    + reflexivity.
    + unfold upd_state. simpl_state. rewrite uint8_add_l.
      replace (pausing_seconds (state w) + 1 + Z.of_nat (length (c :: es')))
        with (pausing_seconds (state w)
              + Z.of_nat (length ((e, i) :: c :: es')))
        by (cbn [length]; lia).
      reflexivity.
Qed.

(** X15.  Ticks move a running timer's current timestamp, by one each and
    modulo 2^32, and nothing else; ticks move a pausing timer's count of
    pausing seconds, by one each and modulo 256, and nothing else: the
    target, the remainder stored at the pause and the mode stay. *)
Theorem ticks_move_one_counter
  (pl : nat) (es : list (movement_event_t * inputs)) (w : world) :
  all_of_type EVENT_TICK es ->
  es <> [] ->
  let n := Z.of_nat (length es) in
  (mode (state w) = running ->
   deliver pl es w = upd_state (set_now_ts (uint32 (now_ts (state w) + n))) w)
  /\ (mode (state w) = pausing ->
      deliver pl es w
      = upd_state
          (set_pausing_seconds (uint8 (pausing_seconds (state w) + n))) w).
Proof.
  intros Hes Hne n. split; intros Hm.
  - rewrite (ticks_running pl es Hes w Hm). destruct es; [congruence|].
    reflexivity.
  - rewrite (ticks_pausing pl es Hes w Hm). destruct es; [congruence|].
    reflexivity.
Qed.

(** *** Time that has run *)

Lemma uint32_sub (a b : Z) : uint32 (uint32 a - uint32 b) = uint32 (a - b).
Proof.
  unfold uint32, wrap. rewrite Zminus_mod_idemp_l, Zminus_mod_idemp_r.
  reflexivity.
Qed.

Lemma uint32_sub_l (a b : Z) : uint32 (uint32 a - b) = uint32 (a - b).
Proof. unfold uint32, wrap. apply Zminus_mod_idemp_l. Qed.

(** X16.  What has run is deducted: a timer with a set duration of d
    seconds that is started, runs for n ticks (n at most d), is paused,
    stays paused for any number of ticks and is resumed at a time t2 has
    the target t2 + d - n, whenever d - n fits the field that stores the
    remainder. *)
Theorem elapsed_ticks_are_deducted
  (pl : nat) (w : world) (e0 e1 e2 : movement_event_t) (i0 i1 i2 : inputs)
  (ticks pticks : list (movement_event_t * inputs)) :
  event_type e0 = EVENT_ALARM_LONG_PRESS ->
  event_type e1 = EVENT_ALARM_BUTTON_UP ->
  event_type e2 = EVENT_ALARM_BUTTON_UP ->
  all_of_type EVENT_TICK ticks ->
  all_of_type EVENT_TICK pticks ->
  mode (state w) = waiting ->
  _beeps_to_play w = 0 ->
  wf_timer (timer (state w)) ->
  duration_unset (timer (state w)) = false ->
  let d := duration_seconds (timer (state w)) in
  let n := Z.of_nat (length ticks) in
  n <= d ->
  d - n < 2 ^ Z.of_nat pl ->
  let w1 := state_of (timer_face_loop pl e0 i0 w) in
  let w2 := deliver pl ticks w1 in
  let w3 := state_of (timer_face_loop pl e1 i1 w2) in
  let w4 := deliver pl pticks w3 in
  let w5 := state_of (timer_face_loop pl e2 i2 w4) in
  mode (state w3) = pausing
  /\ paused_left (state w3) = d - n
  /\ paused_left (state w4) = d - n
  /\ mode (state w5) = running
  /\ target_ts (state w5) = uint32 (unix_time_now i2 + (d - n)).
Proof.
  intros He0 He1 He2 Hticks Hpticks Hm Hb Hwf Hun d n Hn Hfit w1 w2 w3 w4 w5.
  pose proof (set_duration_value _ Hwf Hun) as Hv.
  set (t := timer (state w)) in *.
  set (t0 := unix_time_now i0).
  assert (state w1
          = set_mode running
              (set_target_ts
                 (watch_utility_offset_timestamp t0 (hours t) (minutes t)
                    (seconds t))
                 (set_now_ts t0 (state w)))) as Hs1.
  { unfold w1. rewrite (long_press_waiting pl e0 i0 w He0 Hm).
    rewrite (start_state_set i0 true w Hv). cbv zeta.
    rewrite Hm. reflexivity. }
  assert (_beeps_to_play w1 = 0) as Hb1.
  { unfold w1. rewrite (long_press_waiting pl e0 i0 w He0 Hm).
    rewrite start_state. apply Z.eqb_neq in Hv. fold t. rewrite Hv.
    cbv zeta. exact Hb. }
  assert (mode (state w1) = running) as Hm1 by (rewrite Hs1; reflexivity).
  pose proof (ticks_running pl ticks Hticks w1 Hm1) as Hw2. fold w2 in Hw2.
  assert (mode (state w2) = running) as Hm2
      by (rewrite Hw2; simpl_state; exact Hm1).
  assert (_beeps_to_play w2 = 0) as Hb2 by (rewrite Hw2; exact Hb1).
  assert (timer (state w2) = t) as Ht2
      by (rewrite Hw2; simpl_state; rewrite Hs1; reflexivity).
  assert (0 <= d - n < 2 ^ 32) as Hd.
  { destruct Hwf as (? & ? & ?). pose proof Hn as Hn'.
    unfold d, duration_seconds in Hn' |- *.
    change (2 ^ 32) with 4294967296. lia. }
  assert (uint32 (target_ts (state w2) - now_ts (state w2)) = d - n) as Hrem.
  { rewrite Hw2. simpl_state. rewrite Hs1. simpl_state.
    unfold watch_utility_offset_timestamp.
    replace (t0 + hours t * 3600 + minutes t * 60 + seconds t)
      with (t0 + d) by (unfold d, duration_seconds; fold t; lia).
    destruct ticks as [|c ticks'].
    - rewrite uint32_sub_l. replace (t0 + d - t0) with (d - n)
        by (unfold n; cbn [length Z.of_nat]; lia).
      apply uint32_small. exact Hd.
    - fold n. rewrite uint32_sub.
      replace (t0 + d - (t0 + n)) with (d - n) by lia.
      apply uint32_small. exact Hd. }
  destruct (button_up_running pl e1 i1 w2 He1 Hm2 Hb2) as [Hs3 Hb3].
  cbv zeta in Hs3. fold w3 in Hs3, Hb3.
  rewrite Hrem in Hs3. rewrite (wrap_small pl (d - n)) in Hs3 by lia.
  assert (mode (state w3) = pausing) as Hm3 by (rewrite Hs3; reflexivity).
  assert (paused_left (state w3) = d - n) as Hp3
      by (rewrite Hs3; reflexivity).
  assert (timer (state w3) = t) as Ht3
      by (rewrite Hs3; simpl_state; destruct (quick_cycle (state w2));
          exact Ht2).
  pose proof (ticks_pausing pl pticks Hpticks w3 Hm3) as Hw4. fold w4 in Hw4.
  assert (mode (state w4) = pausing) as Hm4
      by (rewrite Hw4; simpl_state; exact Hm3).
  assert (paused_left (state w4) = d - n) as Hp4
      by (rewrite Hw4; simpl_state; exact Hp3).
  assert (_beeps_to_play w4 = 0) as Hb4 by (rewrite Hw4; exact Hb3).
  assert (value (timer (state w4)) <> 0) as Hv4
      by (rewrite Hw4; simpl_state; rewrite Ht3; exact Hv).
  destruct (button_up_pausing pl e2 i2 w4 He2 Hm4 Hb4 Hv4) as [Hm5 Ht5].
  fold w5 in Hm5, Ht5. rewrite Hp4 in Ht5.
  repeat split; assumption.
Qed.

(** *** The alarm button *)

(** X17.  While beeps are pending, a short press of the alarm button only
    acknowledges them: the queue of beeps is emptied and a quick cycle
    stopped; the timer is neither paused nor resumed, no field is changed,
    no background task is cancelled or scheduled and nothing is drawn. *)
Theorem pending_beeps_take_the_press
  (pl : nat) (e : movement_event_t) (i : inputs) (w : world) :
  event_type e = EVENT_ALARM_BUTTON_UP ->
  _beeps_to_play w <> 0 ->
  timer_face_loop pl e i w
  = (true,
     set_beeps_to_play 0
       (if quick_cycle (state w) then upd_state (set_quick_cycle false) w
        else w),
     if quick_cycle (state w) then [movement_request_tick_frequency 4]
     else []).
Proof.
  intros He Hb. apply Z.eqb_neq in Hb.
  unfold timer_face_loop. rewrite He. unfold_timer.
  destruct (quick_cycle (state w)); unfold_timer; simpl_state; rewrite Hb;
    reflexivity.
Qed.

(** X18.  A long press of the alarm button resets a running or pausing
    timer: the mode is waiting and the loop count 0, the timer and the
    pending beeps stay; the background task of the face is cancelled and
    the bell indicator cleared, a note sounds when buttons should sound,
    and the face is drawn. *)
Theorem long_press_resets
  (pl : nat) (e : movement_event_t) (i : inputs) (w : world) :
  event_type e = EVENT_ALARM_LONG_PRESS ->
  mode (state w) = running \/ mode (state w) = pausing ->
  let r := timer_face_loop pl e i w in
  state_of r = upd_state (fun st => set_loop_count 0 (set_mode waiting st)) w
  /\ calls_of r
     = [movement_cancel_background_task_for_face (watch_face_index (state w));
        watch_clear_indicator WATCH_INDICATOR_BELL]
       ++ (if button_should_sound i
           then [watch_buzzer_play_note BUZZER_NOTE_C7 50] else [])
       ++ calls_of (_draw (subsecond e) (state_of r)).
Proof.
  intros He Hm. cbv zeta.
  assert (state_of (timer_face_loop pl e i w)
          = upd_state (fun st => set_loop_count 0 (set_mode waiting st)) w)
    as Hs.
  { unfold timer_face_loop. rewrite He. autorewrite with proc_state.
    destruct Hm as [Hm | Hm]; rewrite Hm; state_cases; reflexivity. }
  split; [exact Hs|]. rewrite Hs.
  unfold timer_face_loop. rewrite He. unfold _reset.
  destruct Hm as [Hm | Hm]; calls_steps; rewrite Hm; calls_steps;
    simpl_state; destruct (button_should_sound i); calls_steps;
    cbn [app]; rewrite ?app_nil_r; reflexivity.
Qed.

(** *** What a running timer excludes *)

(** X19.  While the timer runs or pauses, no entry into the face opens the
    settings or changes the timer: its duration and repeat flag can only be
    edited from the waiting mode. *)
Theorem running_timer_is_not_edited
  (pl : nat) (c : inputs * entry) (w : world) :
  mode (state w) = running \/ mode (state w) = pausing ->
  mode (state (step pl c w)) <> setting
  /\ timer (state (step pl c w)) = timer (state w).
Proof.
  intros Hm.
  destruct c as [i e]. destruct e as [ | [ty sub] | | ];
    unfold step; cbn [fst snd].
  - unfold timer_face_activate.
    destruct Hm as [Hm | Hm]; rewrite ?Hm; state_cases; simpl_state;
      rewrite ?Hm; split; try reflexivity; discriminate.
  - unfold timer_face_loop; cbn [event_type subsecond]; destruct ty;
      autorewrite with proc_state;
      destruct Hm as [Hm | Hm]; rewrite ?Hm; state_cases; cbv zeta;
      repeat match goal with
        | |- context [if ?b then _ else _] => destruct b eqn:?
        end;
      autorewrite with proc_state in *; simpl_state; rewrite ?Hm;
      try (split; [discriminate | reflexivity]);
      cbn [mode_eqb] in *; try discriminate; try congruence.
  - unfold timer_face_resign.
    destruct Hm as [Hm | Hm]; rewrite ?Hm; state_cases; simpl_state;
      rewrite ?Hm; split; try reflexivity; discriminate.
  - unfold _signal_callback.
    destruct Hm as [Hm | Hm]; state_cases; simpl_state;
      rewrite ?Hm; split; try reflexivity; discriminate.
Qed.

(** *** The quick cycle *)

Lemma timer_field_at_with_field (c v : Z) (t : timer_setting_t) :
  field_at c (with_field c v t) = v.
Proof.
  unfold field_at, with_field.
  destruct (c =? 1); [reflexivity|]. destruct (c =? 2); reflexivity.
Qed.

Lemma timer_with_field_twice (c v v' : Z) (t : timer_setting_t) :
  with_field c v' (with_field c v t) = with_field c v' t.
Proof.
  unfold with_field.
  destruct (c =? 1); [reflexivity|]. destruct (c =? 2); reflexivity.
Qed.

Lemma timer_with_field_same (c : Z) (t : timer_setting_t) :
  with_field c (field_at c t) t = t.
Proof.
  unfold field_at, with_field. destruct t.
  destruct (c =? 1); [reflexivity|]. destruct (c =? 2); reflexivity.
Qed.

Lemma timer_field_in_range (c : Z) (t : timer_setting_t) :
  wf_timer t -> 0 <= field_at c t < field_values c.
Proof.
  intros (Hs & Hm & Hh). unfold field_at, field_values.
  destruct (c =? 1); [lia|]. destruct (c =? 2); lia.
Qed.

Lemma held_tick (pl : nat) (e : movement_event_t) (i : inputs) (w : world) :
  event_type e = EVENT_TICK ->
  mode (state w) = setting ->
  quick_cycle (state w) = true ->
  watch_get_pin_level_BTN_ALARM i = true ->
  1 <= settings_state (state w) <= 3 ->
  let c := settings_state (state w) in
  state_of (timer_face_loop pl e i w)
  = upd_state
      (upd_timer
         (fun t =>
            with_field c (Z.rem (field_at c t + 1) (field_values c)) t)) w.
Proof.
  intros He Hm Hq Hp Hc. cbv zeta. unfold timer_face_loop. rewrite He.
  autorewrite with proc_state. rewrite Hm. cbn [mode_eqb]. rewrite Hq, Hp.
  autorewrite with proc_state. cbv zeta.
  unfold with_field, field_at, field_values.
  assert (settings_state (state w) = 1 \/ settings_state (state w) = 2
          \/ settings_state (state w) = 3) as [E | [E | E]] by lia;
    rewrite E; reflexivity.
Qed.

Lemma held_ticks (pl : nat) (es : list (movement_event_t * inputs)) :
  all_of_type EVENT_TICK es ->
  all_held es ->
  forall w,
    mode (state w) = setting ->
    quick_cycle (state w) = true ->
    1 <= settings_state (state w) <= 3 ->
    wf_timer (timer (state w)) ->
    let c := settings_state (state w) in
    let t := timer (state w) in
    deliver pl es w
    = upd_state
        (upd_timer
           (fun _ =>
              with_field c
                ((field_at c t + Z.of_nat (length es)) mod field_values c)
                t)) w.
Proof.
  induction 1 as [|[e i] es He Hes IH]; intros Hheld w Hm Hq Hc Hwf c t.
  - cbn [deliver fold_left length Z.of_nat].
    rewrite Z.add_0_r, Z.mod_small by (apply timer_field_in_range; exact Hwf).
    unfold t. rewrite timer_with_field_same.
    destruct w as [st b]. destruct st. reflexivity.
  - rewrite timer_deliver_cons. cbn [fst snd] in *.
    inversion Hheld as [|x l Hp Hheld']. subst x l. cbn [snd] in Hp.
    rewrite (held_tick pl e i w He Hm Hq Hp Hc). cbv zeta. fold c.
    set (w1 := upd_state _ w).
    pose proof (timer_field_in_range c t Hwf) as Hf.
    assert (0 < field_values c) as Hn by lia.
    assert (Z.rem (field_at c t + 1) (field_values c)
            = (field_at c t + 1) mod field_values c) as Hrem
        by (apply Z.rem_mod_nonneg; lia).
    assert (timer (state w1)
            = with_field c ((field_at c t + 1) mod field_values c) t) as Ht1
        by (unfold w1; simpl_state; fold t; rewrite Hrem; reflexivity).
    assert (wf_timer (timer (state w1))) as Hwf1.
    { rewrite Ht1.
      pose proof (Z.mod_pos_bound (field_at c t + 1) (field_values c) Hn).
      destruct Hwf as (Hs & Hmi & Hh). clearbody w1. unfold c, t in *.
      unfold wf_timer, with_field, field_values, field_at in *.
      destruct (settings_state (state w) =? 1);
        [simpl_state; lia|].
      destruct (settings_state (state w) =? 2); simpl_state; lia. }
    rewrite (IH Hheld' w1 Hm Hq Hc Hwf1). cbv zeta.
    unfold w1 at 1 2 3. simpl_state. fold c t.
    rewrite Ht1, timer_field_at_with_field, timer_with_field_twice.
    replace (settings_state (state w1)) with c by reflexivity.
    rewrite Hrem, Zplus_mod_idemp_l.
    replace (field_at c t + 1 + Z.of_nat (length es))
      with (field_at c t + Z.of_nat (length ((e, i) :: es)))
      by (cbn [length]; lia).
    reflexivity.
Qed.

(** X20.  In the settings, with the cursor on the hours, minutes or
    seconds, a long press of the alarm button starts the quick cycle and
    asks for eight ticks a second; every tick with the button held then
    steps the field by one, modulo 24 or 60, and the first tick with the
    button released stops the cycle, asks for four ticks a second and
    leaves the field as it is. *)
Theorem quick_cycle_steps_the_field
  (pl : nat) (w : world) (e0 e3 : movement_event_t) (i0 i3 : inputs)
  (held : list (movement_event_t * inputs)) :
  event_type e0 = EVENT_ALARM_LONG_PRESS ->
  event_type e3 = EVENT_TICK ->
  all_of_type EVENT_TICK held ->
  all_held held ->
  watch_get_pin_level_BTN_ALARM i3 = false ->
  mode (state w) = setting ->
  1 <= settings_state (state w) <= 3 ->
  wf_timer (timer (state w)) ->
  let c := settings_state (state w) in
  let t := timer (state w) in
  let r0 := timer_face_loop pl e0 i0 w in
  let w2 := deliver pl held (state_of r0) in
  let r3 := timer_face_loop pl e3 i3 w2 in
  quick_cycle (state (state_of r0)) = true
  /\ In (movement_request_tick_frequency 8) (calls_of r0)
  /\ timer (state w2)
     = with_field c
         ((field_at c t + Z.of_nat (length held)) mod field_values c) t
  /\ quick_cycle (state (state_of r3)) = false
  /\ timer (state (state_of r3)) = timer (state w2)
  /\ In (movement_request_tick_frequency 4) (calls_of r3).
Proof.
  intros He0 He3 Hheld Hpin Hrel Hm Hc Hwf c t r0 w2 r3.
  assert ((settings_state (state w) =? 1) || (settings_state (state w) =? 2)
          || (settings_state (state w) =? 3) = true) as Hon.
  { assert (settings_state (state w) = 1 \/ settings_state (state w) = 2
            \/ settings_state (state w) = 3) as [E | [E | E]] by lia;
      rewrite E; reflexivity. }
  assert (state_of r0 = upd_state (set_quick_cycle true) w) as Hs0.
  { unfold r0, timer_face_loop. rewrite He0. autorewrite with proc_state.
    rewrite Hm. autorewrite with proc_state. rewrite Hon.
    autorewrite with proc_state. reflexivity. }
  assert (In (movement_request_tick_frequency 8) (calls_of r0)) as Hc0.
  { unfold r0, timer_face_loop. rewrite He0. calls_steps. rewrite Hm.
    calls_steps. rewrite Hon. calls_steps. cbn [app]. left. reflexivity. }
  pose proof (held_ticks pl held Hheld Hpin (state_of r0)) as Hw2.
  rewrite Hs0 in Hw2. simpl_state.
  specialize (Hw2 Hm eq_refl Hc Hwf). cbv zeta in Hw2. simpl_state.
  rewrite <- Hs0 in Hw2. fold w2 c t in Hw2.
  assert (mode (state w2) = setting /\ quick_cycle (state w2) = true)
    as [Hm2 Hq2] by (rewrite Hw2, Hs0; simpl_state; auto).
  assert (state_of r3 = upd_state (set_quick_cycle false) w2) as Hs3.
  { unfold r3, timer_face_loop. rewrite He3. autorewrite with proc_state.
    rewrite Hm2. cbn [mode_eqb]. rewrite Hq2, Hrel.
    autorewrite with proc_state. rewrite Hq2. reflexivity. }
  assert (In (movement_request_tick_frequency 4) (calls_of r3)) as Hc3.
  { unfold r3, timer_face_loop. rewrite He3. calls_steps.
    rewrite Hm2. cbn [mode_eqb]. rewrite Hq2, Hrel. calls_steps.
    unfold _abort_quick_cycle. calls_steps. rewrite Hq2. calls_steps.
    cbn [app]. left. reflexivity. }
  rewrite Hs0, Hs3. simpl_state.
  repeat split; try assumption; try reflexivity.
  rewrite Hw2. reflexivity.
Qed.

(** *** An unset duration in the settings *)

Lemma unset_advance (pl : nat) (e : movement_event_t) (i : inputs) (w : world) :
  event_type e = EVENT_LIGHT_BUTTON_UP ->
  mode (state w) = setting ->
  erase_timer_flag (state w) = false ->
  duration_unset (timer (state w)) = true ->
  wf_timer (timer (state w)) ->
  1 <= settings_state (state w) <= 3 ->
  state_of (timer_face_loop pl e i w)
  = upd_state (set_settings_state (settings_state (state w) mod 3 + 1)) w.
Proof.
  intros He Hm Hf Hun Hwf Hc.
  rewrite (light_button_up_setting pl e i w He Hm). cbv zeta.
  rewrite Hf. simpl_state. rewrite (mask_zero _ Hwf), Hun.
  assert (settings_state (state w) = 1 \/ settings_state (state w) = 2
          \/ settings_state (state w) = 3) as [E | [E | E]] by lia;
    rewrite E; cbn; destruct w as [st b]; destruct st; reflexivity.
Qed.

(** X21.  With an unset duration, short presses of the light button never
    close the settings: the cursor goes round the hours, minutes and
    seconds, 1, 2, 3 and 1 again, skipping the repeat toggle and the
    position 0 at which the settings would end; the timer stays as it is. *)
Theorem unset_duration_keeps_settings_open
  (pl : nat) (es : list (movement_event_t * inputs)) (w : world) :
  all_of_type EVENT_LIGHT_BUTTON_UP es ->
  mode (state w) = setting ->
  erase_timer_flag (state w) = false ->
  duration_unset (timer (state w)) = true ->
  wf_timer (timer (state w)) ->
  1 <= settings_state (state w) <= 3 ->
  let st' := state (deliver pl es w) in
  mode st' = setting
  /\ timer st' = timer (state w)
  /\ erase_timer_flag st' = false
  /\ settings_state st'
     = (settings_state (state w) - 1 + Z.of_nat (length es)) mod 3 + 1.
Proof.
  intros Hes. revert w.
  induction Hes as [|[e i] es He Hes IH]; intros w Hm Hf Hun Hwf Hc st'.
  - unfold st'. cbn [deliver fold_left length Z.of_nat].
    rewrite Z.add_0_r, Z.mod_small by lia. repeat split; auto. lia.
  - unfold st'. rewrite timer_deliver_cons. cbn [fst snd] in *.
    rewrite (unset_advance pl e i w He Hm Hf Hun Hwf Hc).
    set (w1 := upd_state _ w).
    pose proof (Z.mod_pos_bound (settings_state (state w)) 3 ltac:(lia))
      as Hb.
    assert (timer (state w1) = timer (state w)) as Et by reflexivity.
    assert (settings_state (state w1) = settings_state (state w) mod 3 + 1)
      as Ec by reflexivity.
    destruct (IH w1) as (Hm' & Ht' & Hf' & Hc').
    + exact Hm.
    + exact Hf.
    + rewrite Et. exact Hun.
    + rewrite Et. exact Hwf.
    + rewrite Ec. lia.
    + rewrite Et in Ht'. rewrite Ec in Hc'.
      repeat split; try assumption.
      rewrite Hc'. f_equal.
      replace (settings_state (state w) mod 3 + 1 - 1 + Z.of_nat (length es))
        with (settings_state (state w) mod 3 + Z.of_nat (length es)) by lia.
      rewrite Zplus_mod_idemp_l. f_equal. cbn [length]. lia.
Qed.

(** *** Scheduling *)

Ltac calls_cases :=
  repeat (calls_steps;
          match goal with
          | |- context [calls_of ((if ?b then _ else _) _)] =>
              destruct b eqn:?
          | |- context [state_of ((if ?b then _ else _) _)] =>
              destruct b eqn:?
          | |- context [result_of ((if ?b then _ else _) _)] =>
              destruct b eqn:?
          | |- context [calls_of (match ?m with
                                  | waiting => _ | running => _
                                  | setting => _ | pausing => _ end _)] =>
              destruct m eqn:?
          | |- context [state_of (match ?m with
                                  | waiting => _ | running => _
                                  | setting => _ | pausing => _ end _)] =>
              destruct m eqn:?
          | |- context [result_of (match ?m with
                                   | waiting => _ | running => _
                                   | setting => _ | pausing => _ end _)] =>
              destruct m eqn:?
          end);
  calls_steps.

Lemma draw_no_schedule (sub : Z) (w : world) :
  filter is_schedule (calls_of (_draw sub w)) = [].
Proof. unfold _draw. calls_cases; reflexivity. Qed.

Lemma start_schedule (i : inputs) (with_beep : bool) (w : world) :
  filter is_schedule (calls_of (_start i with_beep w))
  = if value (timer (state w)) =? 0 then []
    else [movement_schedule_background_task_for_face
            (watch_face_index (state w))
            (target_ts (state (state_of (_start i with_beep w))))].
Proof.
  rewrite start_state. unfold _start.
  calls_cases; cbv zeta; simpl_state; try reflexivity.
  all: repeat match goal with
         | H : mode_eqb _ _ = _ |- _ => rewrite H
         end; reflexivity.
Qed.

Lemma start_runs (i : inputs) (with_beep : bool) (w : world) :
  value (timer (state w)) <> 0 ->
  mode (state (state_of (_start i with_beep w))) = running.
Proof.
  intros Hv. rewrite start_state_set by exact Hv. reflexivity.
Qed.

Lemma start_keeps_face_index (i : inputs) (with_beep : bool) (w : world) :
  watch_face_index (state (state_of (_start i with_beep w)))
  = watch_face_index (state w).
Proof.
  rewrite start_state. destruct (value (timer (state w)) =? 0); reflexivity.
Qed.

#[local] Hint Rewrite filter_app draw_no_schedule : proc_calls.

(** X23.  An event schedules at most one background task, and only when
    it leaves the timer running: the task is for this face and for the
    target timestamp the state then holds. *)
Theorem schedule_is_for_the_running_target
  (pl : nat) (e : movement_event_t) (i : inputs) (w : world) :
  let r := timer_face_loop pl e i w in
  filter is_schedule (calls_of r) = []
  \/ (filter is_schedule (calls_of r)
      = [movement_schedule_background_task_for_face
           (watch_face_index (state w))
           (target_ts (state (state_of r)))]
      /\ mode (state (state_of r)) = running).
Proof.
  cbv zeta.
  assert (forall b w0,
             watch_face_index (state w0) = watch_face_index (state w) ->
             filter is_schedule (calls_of (_start i b w0)) = []
             \/ (filter is_schedule (calls_of (_start i b w0))
                 = [movement_schedule_background_task_for_face
                      (watch_face_index (state w))
                      (target_ts (state (state_of (_start i b w0))))]
                 /\ mode (state (state_of (_start i b w0))) = running))
    as Hstart.
  { intros b w0 Hidx. rewrite start_schedule, Hidx.
    destruct (Z.eqb_spec (value (timer (state w0))) 0) as [E|E];
      [left; reflexivity | right].
    split; [reflexivity | apply start_runs; exact E]. }
  destruct e as [ty sub]. unfold timer_face_loop.
  cbn [event_type subsecond].
  set (start_i := _start i) in *. clearbody start_i.
  destruct ty; unfold _reset, _resume_setting, _abort_quick_cycle,
    _check_for_signal, _settings_increment.
  all: calls_cases; cbn [filter is_schedule app].
  all: try (left; reflexivity).
  all: match goal with
       | |- context [filter is_schedule (calls_of (_ ?b ?w0))] =>
           destruct (Hstart b w0 eq_refl) as [H | [H1 H2]];
           [rewrite H; left; reflexivity
           | rewrite H1; right; split; [reflexivity | exact H2]]
       end.
Qed.

(** *** The settings *)

(** A short press of the alarm button in the settings, no beep pending:
    the field under the cursor is stepped. *)
Lemma timer_press_in_settings
  (pl : nat) (e : movement_event_t) (i : inputs) (w : world) :
  event_type e = EVENT_ALARM_BUTTON_UP ->
  mode (state w) = setting ->
  _beeps_to_play w = 0 ->
  let w0 :=
    if quick_cycle (state w) then upd_state (set_quick_cycle false) w
    else w in
  state_of (timer_face_loop pl e i w) = state_of (_settings_increment w0).
Proof.
  intros He Hm Hb. cbv zeta. unfold timer_face_loop. rewrite He.
  autorewrite with proc_state.
  destruct (quick_cycle (state w)) eqn:Hq; simpl_state; rewrite Hb;
    cbn [Z.eqb negb]; autorewrite with proc_state; simpl_state;
    rewrite Hm; autorewrite with proc_state; simpl_state; reflexivity.
Qed.

Lemma timer_press_on_field
  (pl : nat) (e : movement_event_t) (i : inputs) (w : world) :
  event_type e = EVENT_ALARM_BUTTON_UP ->
  mode (state w) = setting ->
  _beeps_to_play w = 0 ->
  1 <= settings_state (state w) <= 3 ->
  let c := settings_state (state w) in
  let t := timer (state w) in
  let w' := state_of (timer_face_loop pl e i w) in
  timer (state w')
  = with_field c (Z.rem (field_at c t + 1) (field_values c)) t
  /\ mode (state w') = setting
  /\ settings_state (state w') = c
  /\ _beeps_to_play w' = 0.
Proof.
  intros He Hm Hb Hc. cbv zeta.
  rewrite (timer_press_in_settings pl e i w He Hm Hb). cbv zeta.
  rewrite settings_increment_state. cbv zeta.
  unfold with_field, field_at, field_values.
  assert (settings_state (state w) = 1 \/ settings_state (state w) = 2
          \/ settings_state (state w) = 3) as [E | [E | E]] by lia;
    destruct (quick_cycle (state w)); simpl_state; rewrite E;
    cbn [Z.eqb Pos.eqb]; simpl_state; auto.
Qed.

Lemma timer_presses_on_field
  (pl : nat) (es : list (movement_event_t * inputs)) :
  all_of_type EVENT_ALARM_BUTTON_UP es ->
  forall w,
    mode (state w) = setting ->
    _beeps_to_play w = 0 ->
    1 <= settings_state (state w) <= 3 ->
    let c := settings_state (state w) in
    let t := timer (state w) in
    0 <= field_at c t < field_values c ->
    let w' := deliver pl es w in
    timer (state w')
    = with_field c ((field_at c t + Z.of_nat (length es)) mod field_values c)
        t
    /\ mode (state w') = setting
    /\ settings_state (state w') = c
    /\ _beeps_to_play w' = 0.
Proof.
  induction 1 as [|[e i] es He Hes IH]; intros w Hm Hb Hc c t Hf w'.
  - unfold w'. cbn [deliver fold_left length Z.of_nat].
    rewrite Z.add_0_r, Z.mod_small by exact Hf.
    unfold c, t. rewrite timer_with_field_same. auto.
  - unfold w'. rewrite timer_deliver_cons. cbn [fst snd] in *.
    destruct (timer_press_on_field pl e i w He Hm Hb Hc)
      as (Ht1 & Hm1 & Hc1 & Hb1).
    fold c t in Ht1, Hc1.
    set (w1 := state_of (timer_face_loop pl e i w)) in *.
    assert (0 < field_values c) as Hn by lia.
    assert (Z.rem (field_at c t + 1) (field_values c)
            = (field_at c t + 1) mod field_values c) as Hrem
        by (apply Z.rem_mod_nonneg; lia).
    rewrite Hrem in Ht1.
    assert (field_at c (timer (state w1))
            = (field_at c t + 1) mod field_values c) as Hf1
        by (rewrite Ht1; apply timer_field_at_with_field).
    destruct (IH w1 Hm1 Hb1 ltac:(rewrite Hc1; exact Hc))
      as (Ht2 & Hm2 & Hc2 & Hb2).
    { rewrite Hc1, Hf1. apply Z.mod_pos_bound. exact Hn. }
    rewrite Hc1 in Ht2, Hc2. rewrite Hf1 in Ht2.
    rewrite Ht1, timer_with_field_twice in Ht2.
    split; [|repeat split; assumption].
    rewrite Ht2. f_equal. rewrite Zplus_mod_idemp_l. f_equal.
    cbn [length]. lia.
Qed.

(** X24.  In the settings of the timer with the cursor on the hours,
    minutes or seconds and no beep pending, short presses of the alarm
    button step that field and nothing else of the timer: after n presses
    it is its old value plus n, modulo 24 for the hours and 60 for the
    minutes and seconds, so that many presses restore the timer; the
    cursor and the mode stay. *)
Theorem timer_field_cycles
  (pl : nat) (es : list (movement_event_t * inputs)) (w : world) :
  all_of_type EVENT_ALARM_BUTTON_UP es ->
  mode (state w) = setting ->
  _beeps_to_play w = 0 ->
  1 <= settings_state (state w) <= 3 ->
  wf_timer (timer (state w)) ->
  let c := settings_state (state w) in
  let t := timer (state w) in
  let st' := state (deliver pl es w) in
  timer st'
  = with_field c ((field_at c t + Z.of_nat (length es)) mod field_values c) t
  /\ mode st' = setting
  /\ settings_state st' = c
  /\ (Z.of_nat (length es) = field_values c -> timer st' = t).
Proof.
  intros Hes Hm Hb Hc Hwf c t st'.
  pose proof (timer_field_in_range c t Hwf) as Hf.
  destruct (timer_presses_on_field pl es Hes w Hm Hb Hc Hf)
    as (Ht & Hm' & Hc' & _).
  fold c t st' in Ht, Hm', Hc'.
  repeat split; try assumption.
  intros Hlen. rewrite Ht, Hlen.
  rewrite <- (Z.mul_1_l (field_values c)) at 1.
  rewrite Z.mod_add by lia. rewrite Z.mod_small by exact Hf.
  apply timer_with_field_same.
Qed.

(** A short press of the alarm button with the cursor on CLEAR toggles the
    erase request. *)
Lemma timer_press_on_clear
  (pl : nat) (e : movement_event_t) (i : inputs) (w : world) :
  event_type e = EVENT_ALARM_BUTTON_UP ->
  mode (state w) = setting ->
  _beeps_to_play w = 0 ->
  settings_state (state w) = 0 ->
  let w' := state_of (timer_face_loop pl e i w) in
  timer (state w') = timer (state w)
  /\ erase_timer_flag (state w') = negb (erase_timer_flag (state w))
  /\ mode (state w') = setting
  /\ settings_state (state w') = 0
  /\ _beeps_to_play w' = 0.
Proof.
  intros He Hm Hb Hc. cbv zeta.
  rewrite (timer_press_in_settings pl e i w He Hm Hb). cbv zeta.
  rewrite settings_increment_state. cbv zeta.
  destruct (quick_cycle (state w)); simpl_state; rewrite Hc;
    cbn [Z.eqb]; simpl_state; auto.
Qed.

Lemma timer_presses_on_clear
  (pl : nat) (es : list (movement_event_t * inputs)) :
  all_of_type EVENT_ALARM_BUTTON_UP es ->
  forall w,
    mode (state w) = setting ->
    _beeps_to_play w = 0 ->
    settings_state (state w) = 0 ->
    let w' := deliver pl es w in
    timer (state w') = timer (state w)
    /\ erase_timer_flag (state w')
       = xorb (Nat.odd (length es)) (erase_timer_flag (state w))
    /\ mode (state w') = setting
    /\ settings_state (state w') = 0.
Proof.
  induction 1 as [|[e i] es He Hes IH]; intros w Hm Hb Hc w'.
  - unfold w'. cbn [deliver fold_left length Nat.odd Nat.even negb xorb].
    auto.
  - unfold w'. rewrite timer_deliver_cons. cbn [fst snd] in *.
    destruct (timer_press_on_clear pl e i w He Hm Hb Hc)
      as (Ht1 & Hf1 & Hm1 & Hc1 & Hb1).
    set (w1 := state_of (timer_face_loop pl e i w)) in *.
    destruct (IH w1 Hm1 Hb1 Hc1) as (Ht2 & Hf2 & Hm2 & Hc2).
    repeat split; try assumption; try congruence.
    rewrite Hf2, Hf1. cbn [length]. rewrite Nat.odd_succ.
    rewrite <- Nat.negb_odd.
    destruct (Nat.odd (length es)), (erase_timer_flag (state w));
      reflexivity.
Qed.

(** X25.  With the settings just opened, short presses of the alarm button
    toggle the erase request and a short press of the light button then
    applies it: after an odd number of presses the hours, minutes and
    seconds are zero and the repeat flag is off, after an even number the
    timer is as it was; either way the request is cleared and the cursor
    is on the hours, the settings still open. *)
Theorem erase_request
  (pl : nat) (presses : list (movement_event_t * inputs))
  (e : movement_event_t) (i : inputs) (w : world) :
  all_of_type EVENT_ALARM_BUTTON_UP presses ->
  event_type e = EVENT_LIGHT_BUTTON_UP ->
  mode (state w) = setting ->
  settings_state (state w) = 0 ->
  erase_timer_flag (state w) = false ->
  _beeps_to_play w = 0 ->
  let st' := state (state_of (timer_face_loop pl e i (deliver pl presses w))) in
  timer st'
  = (if Nat.odd (length presses)
     then {| seconds := 0; minutes := 0; hours := 0; repeat := false |}
     else timer (state w))
  /\ erase_timer_flag st' = false
  /\ settings_state st' = 1
  /\ mode st' = setting.
Proof.
  intros Hes He Hm Hc Hf Hb st'.
  destruct (timer_presses_on_clear pl presses Hes w Hm Hb Hc)
    as (Ht & Hf' & Hm' & Hc').
  rewrite Hf, xorb_false_r in Hf'.
  unfold st'. set (w1 := deliver pl presses w) in *.
  rewrite (light_button_up_setting pl e i w1 He Hm'). cbv zeta.
  rewrite Hf'.
  destruct (Nat.odd (length presses)); simpl_state; rewrite Hc';
    change (Z.rem (0 + 1) 5) with 1; cbn [Z.eqb andb]; simpl_state;
    rewrite ?of_value_0; repeat split; try assumption; try reflexivity.
Qed.

(** One short press of the light button in the settings of a set
    duration, no erase request pending: the cursor moves on, and the
    settings close after the repeat position. *)
Lemma timer_light_press
  (pl : nat) (e : movement_event_t) (i : inputs) (w : world) :
  event_type e = EVENT_LIGHT_BUTTON_UP ->
  mode (state w) = setting ->
  erase_timer_flag (state w) = false ->
  duration_unset (timer (state w)) = false ->
  wf_timer (timer (state w)) ->
  0 <= settings_state (state w) <= 4 ->
  let st' := state (state_of (timer_face_loop pl e i w)) in
  timer st' = timer (state w)
  /\ erase_timer_flag st' = false
  /\ settings_state st' = (settings_state (state w) + 1) mod 5
  /\ mode st' = (if settings_state (state w) + 1 <? 5 then setting
                 else waiting).
Proof.
  intros He Hm Hf Hun Hwf Hc. cbv zeta.
  rewrite (light_button_up_setting pl e i w He Hm). cbv zeta.
  rewrite Hf. simpl_state. rewrite (mask_zero _ Hwf), Hun, andb_false_r.
  assert (settings_state (state w) = 0 \/ settings_state (state w) = 1
          \/ settings_state (state w) = 2 \/ settings_state (state w) = 3
          \/ settings_state (state w) = 4)
    as [E | [E | [E | [E | E]]]] by lia;
    rewrite E; cbn; auto.
Qed.

Lemma timer_light_presses
  (pl : nat) (es : list (movement_event_t * inputs)) :
  all_of_type EVENT_LIGHT_BUTTON_UP es ->
  forall w,
    mode (state w) = setting ->
    erase_timer_flag (state w) = false ->
    duration_unset (timer (state w)) = false ->
    wf_timer (timer (state w)) ->
    0 <= settings_state (state w) <= 4 ->
    settings_state (state w) + Z.of_nat (length es) <= 5 ->
    let st' := state (deliver pl es w) in
    timer st' = timer (state w)
    /\ settings_state st'
       = (settings_state (state w) + Z.of_nat (length es)) mod 5
    /\ mode st'
       = (if settings_state (state w) + Z.of_nat (length es) <? 5
          then setting else waiting).
Proof.
  induction 1 as [|[e i] es He Hes IH];
    intros w Hm Hf Hun Hwf Hc Hlen st'.
  - unfold st'. cbn [deliver fold_left length Z.of_nat].
    rewrite Z.add_0_r, Z.mod_small by lia.
    destruct (Z.ltb_spec (settings_state (state w)) 5); [auto | lia].
  - unfold st'. rewrite timer_deliver_cons. cbn [fst snd] in *.
    destruct (timer_light_press pl e i w He Hm Hf Hun Hwf Hc)
      as (Ht1 & Hf1 & Hc1 & Hm1).
    set (w1 := state_of (timer_face_loop pl e i w)) in *.
    destruct es as [|c' es'].
    + cbn [deliver fold_left length]. change (Z.of_nat 1) with 1.
      repeat split; assumption.
    + assert (settings_state (state w) + 1 < 5) as Hlt
          by (cbn [length] in Hlen; lia).
      rewrite Z.mod_small in Hc1 by lia.
      destruct (Z.ltb_spec (settings_state (state w) + 1) 5); [|lia].
      destruct (IH w1 Hm1 Hf1) as (Ht2 & Hc2 & Hm2).
      * rewrite Ht1. exact Hun.
      * rewrite Ht1. exact Hwf.
      * rewrite Hc1. lia.
      * rewrite Hc1. cbn [length] in Hlen |- *. lia.
      * rewrite Hc1 in Hc2, Hm2.
        replace (settings_state (state w) + 1 + Z.of_nat (length (c' :: es')))
          with (settings_state (state w)
                + Z.of_nat (length ((e, i) :: c' :: es')))
          in Hc2, Hm2 by (cbn [length]; lia).
        repeat split; try assumption. rewrite Ht2. exact Ht1.
Qed.

(** X26.  A long press of the light button on the waiting timer opens the
    settings at CLEAR and asks for four ticks a second.  With a duration
    that is set, each short press of the light button then moves the
    cursor one position on, over the hours, minutes, seconds and the
    repeat toggle, and the fifth press closes the settings; none of these
    presses changes the timer. *)
Theorem timer_settings_cursor
  (pl : nat) (e0 : movement_event_t) (i0 : inputs)
  (es : list (movement_event_t * inputs)) (w : world) :
  event_type e0 = EVENT_LIGHT_LONG_PRESS ->
  all_of_type EVENT_LIGHT_BUTTON_UP es ->
  mode (state w) = waiting ->
  duration_unset (timer (state w)) = false ->
  wf_timer (timer (state w)) ->
  (length es <= 5)%nat ->
  let r0 := timer_face_loop pl e0 i0 w in
  let st' := state (deliver pl es (state_of r0)) in
  In (movement_request_tick_frequency 4) (calls_of r0)
  /\ timer st' = timer (state w)
  /\ settings_state st' = Z.of_nat (length es) mod 5
  /\ mode st' = (if Z.of_nat (length es) <? 5 then setting else waiting).
Proof.
  intros He0 Hes Hm Hun Hwf Hlen r0 st'.
  assert (state_of r0
          = upd_state
              (fun st =>
                 set_erase_timer_flag false
                   (set_settings_state 0 (set_mode setting st))) w) as Hs0.
  { unfold r0, timer_face_loop. rewrite He0. autorewrite with proc_state.
    rewrite Hm. cbn [mode_eqb]. autorewrite with proc_state. reflexivity. }
  assert (In (movement_request_tick_frequency 4) (calls_of r0)) as Hc0.
  { unfold r0, timer_face_loop. rewrite He0. calls_steps. rewrite Hm.
    cbn [mode_eqb]. calls_steps. cbn [app]. left. reflexivity. }
  split; [exact Hc0|].
  destruct (timer_light_presses pl es Hes (state_of r0)) as (Ht & Hc & Hm');
    try (rewrite Hs0; simpl_state; first [reflexivity | assumption | lia]).
  unfold st'. rewrite Ht, Hc, Hm', Hs0. simpl_state. auto.
Qed.

(** *** The display of a running timer *)

Lemma started_then_ticked
  (pl : nat) (w : world) (e0 : movement_event_t) (i0 : inputs)
  (ticks : list (movement_event_t * inputs)) :
  event_type e0 = EVENT_ALARM_LONG_PRESS ->
  all_of_type EVENT_TICK ticks ->
  mode (state w) = waiting ->
  wf_timer (timer (state w)) ->
  duration_unset (timer (state w)) = false ->
  let d := duration_seconds (timer (state w)) in
  let n := Z.of_nat (length ticks) in
  n <= d ->
  let w2 := deliver pl ticks (state_of (timer_face_loop pl e0 i0 w)) in
  mode (state w2) = running
  /\ uint32 (target_ts (state w2) - now_ts (state w2)) = d - n.
Proof.
  intros He0 Hticks Hm Hwf Hun d n Hn w2.
  pose proof (set_duration_value _ Hwf Hun) as Hv.
  set (t := timer (state w)) in *.
  set (t0 := unix_time_now i0).
  set (w1 := state_of (timer_face_loop pl e0 i0 w)) in *.
  assert (state w1
          = set_mode running
              (set_target_ts
                 (watch_utility_offset_timestamp t0 (hours t) (minutes t)
                    (seconds t))
                 (set_now_ts t0 (state w)))) as Hs1.
  { unfold w1. rewrite (long_press_waiting pl e0 i0 w He0 Hm).
    rewrite (start_state_set i0 true w Hv). cbv zeta.
    rewrite Hm. reflexivity. }
  assert (mode (state w1) = running) as Hm1 by (rewrite Hs1; reflexivity).
  pose proof (ticks_running pl ticks Hticks w1 Hm1) as Hw2. fold w2 in Hw2.
  split; [rewrite Hw2; simpl_state; exact Hm1|].
  assert (0 <= d - n < 2 ^ 32) as Hd.
  { destruct Hwf as (? & ? & ?). pose proof Hn as Hn'.
    unfold d, duration_seconds in Hn' |- *.
    change (2 ^ 32) with 4294967296. lia. }
  rewrite Hw2. simpl_state. rewrite Hs1. simpl_state.
  unfold watch_utility_offset_timestamp.
  replace (t0 + hours t * 3600 + minutes t * 60 + seconds t)
    with (t0 + d) by (unfold d, duration_seconds; fold t; lia).
  destruct ticks as [|c ticks'].
  - rewrite uint32_sub_l. replace (t0 + d - t0) with (d - n)
      by (unfold n; cbn [length Z.of_nat]; lia).
    apply uint32_small. exact Hd.
  - rewrite uint32_sub. replace (t0 + d - (t0 + Z.of_nat (length (c :: ticks'))))
      with (d - n) by (unfold n; lia).
    apply uint32_small. exact Hd.
Qed.

(** The digits [_draw] prints while fewer than 256 hours are left. *)
Lemma sprintf_remaining_of (st : timer_state_t) (r : Z) :
  uint32 (target_ts st - now_ts st) = r ->
  0 <= r < 921600 ->
  sprintf_remaining st
  = String.append (Text.print (loop_count st))
      (String.append (Text.print2 (r / 3600))
         (String.append (Text.print02 (r / 60 mod 60))
            (Text.print02 (r mod 60)))).
Proof.
  intros Hrem Hr. unfold sprintf_remaining. cbv zeta. rewrite Hrem.
  rewrite (int32_small r) by (change (2 ^ 31) with 2147483648; lia).
  assert (0 <= r / 60) as Hq by (apply Z.div_pos; lia).
  rewrite (Z.quot_div_nonneg r 60) by lia.
  rewrite (Z.quot_div_nonneg (r / 60) 60) by lia.
  rewrite (Z.rem_mod_nonneg r 60) by lia.
  rewrite (Z.rem_mod_nonneg (r / 60) 60) by lia.
  rewrite Z.div_div by lia. change (60 * 60) with 3600.
  rewrite !uint8_small; [reflexivity | | |].
  - pose proof (Z.mod_pos_bound r 60). lia.
  - pose proof (Z.mod_pos_bound (r / 60) 60). lia.
  - split; [apply Z.div_pos; lia|].
    apply Z.div_lt_upper_bound; lia.
Qed.

(** What [_draw] logs for a timer that runs. *)
Lemma draw_running (sub : Z) (w : world) (r : Z) :
  mode (state w) = running ->
  uint32 (target_ts (state w) - now_ts (state w)) = r ->
  0 <= r < 921600 ->
  calls_of (_draw sub w)
  = draws (countdown_text (loop_count (state w)) r)
      (repeat (timer (state w))).
Proof.
  intros Hm Hrem Hr. unfold _draw. calls_steps. rewrite Hm. calls_steps.
  unfold draws, countdown_text, _draw_blank. cbv zeta. rewrite Hm.
  cbn [mode_eqb andb].
  rewrite (sprintf_remaining_of (state w) r Hrem Hr).
  destruct (repeat (timer (state w))); calls_steps; reflexivity.
Qed.

(** A tick of a running timer moves the current timestamp and draws. *)
Lemma tick_running_calls
  (pl : nat) (e : movement_event_t) (i : inputs) (w : world) :
  event_type e = EVENT_TICK ->
  mode (state w) = running ->
  calls_of (timer_face_loop pl e i w)
  = calls_of (_draw (subsecond e) (state_of (timer_face_loop pl e i w))).
Proof.
  intros He Hm. rewrite (tick_running pl e i w He Hm).
  unfold timer_face_loop. rewrite He. calls_steps. rewrite Hm.
  cbn [mode_eqb]. calls_steps. cbn [app]. rewrite ?app_nil_r. reflexivity.
Qed.

(** X27.  The display counts down: when a timer with a set duration of d
    seconds is started and ticks, its n-th tick, n at most d, sets the
    colon, prints at the position 3 the loop count (blank when it is 0),
    the hours in two columns and the minutes and seconds in two digits of
    d - n, and sets or clears the lap indicator by the repeat flag,
    whatever the clock read at the start. *)
Theorem display_counts_down
  (pl : nat) (w : world) (e0 e : movement_event_t) (i0 i : inputs)
  (ticks : list (movement_event_t * inputs)) :
  event_type e0 = EVENT_ALARM_LONG_PRESS ->
  all_of_type EVENT_TICK ticks ->
  event_type e = EVENT_TICK ->
  mode (state w) = waiting ->
  wf_timer (timer (state w)) ->
  duration_unset (timer (state w)) = false ->
  let d := duration_seconds (timer (state w)) in
  let n := Z.of_nat (length ticks) + 1 in
  n <= d ->
  let w2 := deliver pl ticks (state_of (timer_face_loop pl e0 i0 w)) in
  calls_of (timer_face_loop pl e i w2)
  = draws (countdown_text (loop_count (state w)) (d - n))
      (repeat (timer (state w))).
Proof.
  intros He0 Hticks He Hm Hwf Hun d n Hn w2.
  pose proof (started_then_ticked pl w e0 i0 (ticks ++ [(e, i)]) He0) as H.
  specialize (H ltac:(apply Forall_app; split;
                      [exact Hticks | repeat constructor; exact He])
                Hm Hwf Hun).
  cbv zeta in H. rewrite length_app in H. cbn [length] in H.
  specialize (H ltac:(unfold n, d in Hn; lia)).
  destruct H as (Hm3 & Hrem).
  unfold deliver in Hm3, Hrem. rewrite fold_left_app in Hm3, Hrem.
  cbn [fold_left fst snd] in Hm3, Hrem.
  fold (deliver pl ticks (state_of (timer_face_loop pl e0 i0 w)))
    in Hm3, Hrem.
  fold w2 in Hm3, Hrem.
  destruct (started_then_ticked pl w e0 i0 ticks He0 Hticks Hm Hwf Hun
              ltac:(unfold n, d in Hn; lia)) as (Hm2 & _).
  fold w2 in Hm2.
  rewrite (tick_running_calls pl e i w2 He Hm2).
  set (w3 := state_of (timer_face_loop pl e i w2)) in *.
  assert (loop_count (state w3) = loop_count (state w)
          /\ timer (state w3) = timer (state w)) as (Hl & Ht).
  { unfold w3. rewrite (tick_running pl e i w2 He Hm2). simpl_state.
    unfold w2. rewrite (ticks_running pl ticks Hticks) by
      (rewrite (long_press_waiting pl e0 i0 w He0 Hm);
       apply start_runs; apply set_duration_value; assumption).
    simpl_state. rewrite (long_press_waiting pl e0 i0 w He0 Hm).
    rewrite (start_state_set i0 true w
               (set_duration_value _ Hwf Hun)). auto. }
  assert (0 <= d - n < 921600) as Hr.
  { destruct Hwf as (? & ? & ?). pose proof Hn as Hn'.
    unfold n, d, duration_seconds in Hn' |- *. lia. }
  replace (d - n)
    with (duration_seconds (timer (state w))
          - Z.of_nat (length ticks + 1)) in Hr |- * by (unfold d, n; lia).
  rewrite (draw_running (subsecond e) w3 _ Hm3 Hrem Hr), Hl, Ht.
  reflexivity.
Qed.

(** *** Activation *)


(** *** The face index *)

(** X28.  No entry of the face changes the index it was set up with, so
    every background task it schedules or cancels by index is its own. *)
Theorem run_keeps_face_index
  (pl : nat) (cs : list (inputs * entry)) (w : world) :
  watch_face_index (state (run pl cs w)) = watch_face_index (state w).
Proof.
  revert w. induction cs as [|c cs IH]; intros w; [reflexivity|].
  unfold run in *. cbn [fold_left]. rewrite IH.
  destruct c as [i e]. destruct e as [ | [ty sub] | | ];
    unfold step; cbn [fst snd].
  - unfold timer_face_activate. state_cases; reflexivity.
  - unfold timer_face_loop; cbn [event_type subsecond]; destruct ty;
      state_cases; cbv zeta;
      repeat match goal with
        | |- context [if ?b then _ else _] => destruct b eqn:?
        end; reflexivity.
  - unfold timer_face_resign. state_cases; reflexivity.
  - unfold _signal_callback. state_cases; reflexivity.
Qed.

(** *** Instances *)

Lemma timer_reachable_in_bounds_witness :
  reachable 32 (run 32 MoreExamples.timer_entries (timer_face_setup 0))
  /\ 0 <= loop_count
            (state (run 32 MoreExamples.timer_entries (timer_face_setup 0)))
       <= 9.
Proof.
  assert (reachable 32
            (run 32 MoreExamples.timer_entries (timer_face_setup 0))) as Hr.
  { exists 0, MoreExamples.timer_entries. reflexivity. }
  split; [exact Hr|].
  exact (proj1 (proj2 (proj2 (timer_reachable_in_bounds 32 _ Hr)))).
Defined.

Lemma expiry_beeps_witness :
  event_type (event EVENT_BACKGROUND_TASK) = EVENT_BACKGROUND_TASK
  /\ _beeps_to_play
       (fst
          (callbacks 6
             (state_of
                (timer_face_loop 32 (event EVENT_BACKGROUND_TASK)
                   (at_time 1060) Examples.running_timer))))
     = 0.
Proof.
  split; [reflexivity|].
  pose proof (expiry_beeps 32 (event EVENT_BACKGROUND_TASK) (at_time 1060)
                Examples.running_timer 6 eq_refl) as H.
  cbv zeta in H.
  rewrite (proj1 (proj2 (proj2 (proj2 H)))). reflexivity.
Defined.

Lemma ticks_move_one_counter_witness :
  all_of_type EVENT_TICK (MoreExamples.timer_events EVENT_TICK 10)
  /\ now_ts
       (state
          (deliver 32 (MoreExamples.timer_events EVENT_TICK 10)
             Examples.running_timer))
     = 1010.
Proof.
  assert (all_of_type EVENT_TICK (MoreExamples.timer_events EVENT_TICK 10))
    as Hty.
  { repeat constructor. }
  split; [exact Hty|].
  pose proof (ticks_move_one_counter 32
                (MoreExamples.timer_events EVENT_TICK 10)
                Examples.running_timer Hty
                ltac:(discriminate)) as H.
  cbv zeta in H.
  rewrite (proj1 H eq_refl). reflexivity.
Defined.

Lemma elapsed_ticks_are_deducted_witness :
  all_of_type EVENT_TICK (MoreExamples.timer_events EVENT_TICK 10)
  /\ all_of_type EVENT_TICK (MoreExamples.timer_events EVENT_TICK 300)
  /\ paused_left
       (state
          (deliver 32 (MoreExamples.timer_events EVENT_TICK 300)
             (state_of
                (timer_face_loop 32 (event EVENT_ALARM_BUTTON_UP)
                   (at_time 0)
                   (deliver 32 (MoreExamples.timer_events EVENT_TICK 10)
                      (state_of
                         (timer_face_loop 32 (event EVENT_ALARM_LONG_PRESS)
                            (at_time 0) (timer_face_setup 0))))))))
     = 50.
Proof.
  assert (all_of_type EVENT_TICK (MoreExamples.timer_events EVENT_TICK 10))
    as Hty.
  { repeat constructor. }
  assert (all_of_type EVENT_TICK (MoreExamples.timer_events EVENT_TICK 300))
    as Hty'.
  { apply Forall_forall. intros c Hc.
    apply repeat_spec in Hc. subst c. reflexivity. }
  split; [exact Hty|]. split; [exact Hty'|].
  pose proof (elapsed_ticks_are_deducted 32 (timer_face_setup 0)
                (event EVENT_ALARM_LONG_PRESS) (event EVENT_ALARM_BUTTON_UP)
                (event EVENT_ALARM_BUTTON_UP)
                (at_time 0) (at_time 0) (at_time 500)
                (MoreExamples.timer_events EVENT_TICK 10)
                (MoreExamples.timer_events EVENT_TICK 300)
                eq_refl eq_refl eq_refl Hty Hty' eq_refl eq_refl
                ltac:(vm_compute; repeat split; discriminate)
                eq_refl) as H.
  cbv zeta in H.
  rewrite (proj1 (proj2 (proj2 (H ltac:(vm_compute; discriminate)
                                  ltac:(vm_compute; reflexivity))))).
  reflexivity.
Defined.

Lemma pending_beeps_take_the_press_witness :
  _beeps_to_play MoreExamples.beeping_timer <> 0
  /\ mode
       (state
          (state_of
             (timer_face_loop 32 (event EVENT_ALARM_BUTTON_UP) (at_time 1001)
                MoreExamples.beeping_timer)))
     = running.
Proof.
  assert (_beeps_to_play MoreExamples.beeping_timer <> 0) as Hb.
  { vm_compute. discriminate. }
  split; [exact Hb|].
  rewrite (pending_beeps_take_the_press 32 (event EVENT_ALARM_BUTTON_UP)
             (at_time 1001) MoreExamples.beeping_timer eq_refl Hb).
  reflexivity.
Defined.

Lemma long_press_resets_witness :
  mode (state Examples.running_timer) = running
  /\ mode
       (state
          (state_of
             (timer_face_loop 32 (event EVENT_ALARM_LONG_PRESS)
                (at_time 1001) Examples.running_timer)))
     = waiting.
Proof.
  split; [reflexivity|].
  pose proof (long_press_resets 32 (event EVENT_ALARM_LONG_PRESS)
                (at_time 1001) Examples.running_timer eq_refl
                (or_introl eq_refl)) as H.
  cbv zeta in H.
  rewrite (proj1 H). reflexivity.
Defined.

Lemma running_timer_is_not_edited_witness :
  mode (state Examples.running_timer) = running
  /\ timer
       (state (step 32 (press EVENT_LIGHT_LONG_PRESS) Examples.running_timer))
     = timer (state Examples.running_timer).
Proof.
  split; [reflexivity|].
  exact (proj2 (running_timer_is_not_edited 32
                  (press EVENT_LIGHT_LONG_PRESS) Examples.running_timer
                  (or_introl eq_refl))).
Defined.

Lemma quick_cycle_steps_the_field_witness :
  all_of_type EVENT_TICK (MoreExamples.held_ticks 25)
  /\ all_held (MoreExamples.held_ticks 25)
  /\ hours
       (timer
          (state
             (deliver 32 (MoreExamples.held_ticks 25)
                (state_of
                   (timer_face_loop 32 (event EVENT_ALARM_LONG_PRESS)
                      (at_time 0) MoreExamples.timer_setting_hours)))))
     = 1.
Proof.
  assert (all_of_type EVENT_TICK (MoreExamples.held_ticks 25)) as Hty.
  { repeat constructor. }
  assert (all_held (MoreExamples.held_ticks 25)) as Hheld.
  { repeat constructor. }
  split; [exact Hty|]. split; [exact Hheld|].
  pose proof (quick_cycle_steps_the_field 32
                MoreExamples.timer_setting_hours
                (event EVENT_ALARM_LONG_PRESS) (event EVENT_TICK)
                (at_time 0) (at_time 0) (MoreExamples.held_ticks 25)
                eq_refl eq_refl Hty Hheld eq_refl eq_refl
                ltac:(vm_compute; split; discriminate)
                ltac:(vm_compute; repeat split; discriminate)) as H.
  cbv zeta in H.
  rewrite (proj1 (proj2 (proj2 H))). reflexivity.
Defined.

Lemma unset_duration_keeps_settings_open_witness :
  all_of_type EVENT_LIGHT_BUTTON_UP
    (MoreExamples.timer_events EVENT_LIGHT_BUTTON_UP 7)
  /\ duration_unset (timer (state MoreExamples.timer_erased)) = true
  /\ settings_state
       (state
          (deliver 32 (MoreExamples.timer_events EVENT_LIGHT_BUTTON_UP 7)
             MoreExamples.timer_erased))
     = 2.
Proof.
  assert (all_of_type EVENT_LIGHT_BUTTON_UP
            (MoreExamples.timer_events EVENT_LIGHT_BUTTON_UP 7)) as Hty.
  { repeat constructor. }
  split; [exact Hty|]. split; [reflexivity|].
  pose proof (unset_duration_keeps_settings_open 32
                (MoreExamples.timer_events EVENT_LIGHT_BUTTON_UP 7)
                MoreExamples.timer_erased Hty eq_refl eq_refl eq_refl
                ltac:(vm_compute; repeat split; discriminate)
                ltac:(vm_compute; split; discriminate)) as H.
  cbv zeta in H.
  rewrite (proj2 (proj2 (proj2 H))). reflexivity.
Defined.


Lemma timer_field_cycles_witness :
  all_of_type EVENT_ALARM_BUTTON_UP
    (MoreExamples.timer_events EVENT_ALARM_BUTTON_UP 24)
  /\ timer
       (state
          (deliver 32 (MoreExamples.timer_events EVENT_ALARM_BUTTON_UP 24)
             MoreExamples.timer_setting_hours))
     = timer (state MoreExamples.timer_setting_hours).
Proof.
  assert (all_of_type EVENT_ALARM_BUTTON_UP
            (MoreExamples.timer_events EVENT_ALARM_BUTTON_UP 24)) as Hty.
  { repeat constructor. }
  split; [exact Hty|].
  pose proof (timer_field_cycles 32
                (MoreExamples.timer_events EVENT_ALARM_BUTTON_UP 24)
                MoreExamples.timer_setting_hours Hty eq_refl eq_refl
                ltac:(vm_compute; split; discriminate)
                ltac:(vm_compute; repeat split; discriminate)) as H.
  cbv zeta in H.
  apply (proj2 (proj2 (proj2 H))). reflexivity.
Defined.

Lemma erase_request_witness :
  all_of_type EVENT_ALARM_BUTTON_UP
    (MoreExamples.timer_events EVENT_ALARM_BUTTON_UP 3)
  /\ minutes
       (timer
          (state
             (state_of
                (timer_face_loop 32 (event EVENT_LIGHT_BUTTON_UP) (at_time 0)
                   (deliver 32
                      (MoreExamples.timer_events EVENT_ALARM_BUTTON_UP 3)
                      Examples.timer_in_settings)))))
     = 0.
Proof.
  assert (all_of_type EVENT_ALARM_BUTTON_UP
            (MoreExamples.timer_events EVENT_ALARM_BUTTON_UP 3)) as Hty.
  { repeat constructor. }
  split; [exact Hty|].
  pose proof (erase_request 32
                (MoreExamples.timer_events EVENT_ALARM_BUTTON_UP 3)
                (event EVENT_LIGHT_BUTTON_UP) (at_time 0)
                Examples.timer_in_settings Hty eq_refl eq_refl eq_refl
                eq_refl eq_refl) as H.
  cbv zeta in H.
  rewrite (proj1 H). reflexivity.
Defined.

Lemma timer_settings_cursor_witness :
  all_of_type EVENT_LIGHT_BUTTON_UP
    (MoreExamples.timer_events EVENT_LIGHT_BUTTON_UP 5)
  /\ mode
       (state
          (deliver 32 (MoreExamples.timer_events EVENT_LIGHT_BUTTON_UP 5)
             (state_of
                (timer_face_loop 32 (event EVENT_LIGHT_LONG_PRESS) (at_time 0)
                   (timer_face_setup 0)))))
     = waiting.
Proof.
  assert (all_of_type EVENT_LIGHT_BUTTON_UP
            (MoreExamples.timer_events EVENT_LIGHT_BUTTON_UP 5)) as Hty.
  { repeat constructor. }
  split; [exact Hty|].
  pose proof (timer_settings_cursor 32 (event EVENT_LIGHT_LONG_PRESS)
                (at_time 0)
                (MoreExamples.timer_events EVENT_LIGHT_BUTTON_UP 5)
                (timer_face_setup 0) eq_refl Hty eq_refl eq_refl
                ltac:(vm_compute; repeat split; discriminate)
                ltac:(vm_compute; repeat constructor)) as H.
  cbv zeta in H.
  rewrite (proj2 (proj2 (proj2 H))). reflexivity.
Defined.

Lemma display_counts_down_witness :
  all_of_type EVENT_TICK (MoreExamples.timer_events EVENT_TICK 9)
  /\ calls_of
       (timer_face_loop 32 (event EVENT_TICK) (at_time 1010)
          (deliver 32 (MoreExamples.timer_events EVENT_TICK 9)
             (state_of
                (timer_face_loop 32 (event EVENT_ALARM_LONG_PRESS)
                   (at_time 1000) (timer_face_setup 0)))))
     = draws (countdown_text 0 50) false.
Proof.
  assert (all_of_type EVENT_TICK (MoreExamples.timer_events EVENT_TICK 9))
    as Hty.
  { repeat constructor. }
  split; [exact Hty|].
  pose proof (display_counts_down 32 (timer_face_setup 0)
                (event EVENT_ALARM_LONG_PRESS) (event EVENT_TICK)
                (at_time 1000) (at_time 1010)
                (MoreExamples.timer_events EVENT_TICK 9)
                eq_refl Hty eq_refl eq_refl
                ltac:(vm_compute; repeat split; discriminate)
                eq_refl) as H.
  cbv zeta in H.
  exact (H ltac:(vm_compute; discriminate)).
Defined.

(** The timer of one minute started and ticked ten times; the timer of 23
    hours at rest; the settings at CLEAR; and the settings with the cursor
    on the hours, on an odd subsecond. *)
Example timer_on_the_display :
  calls_of
    (timer_face_loop 32 (event EVENT_TICK) (at_time 1010)
       (deliver 32 (MoreExamples.timer_events EVENT_TICK 9)
          (state_of
             (timer_face_loop 32 (event EVENT_ALARM_LONG_PRESS)
                (at_time 1000) (timer_face_setup 0)))))
  = [watch_set_colon; watch_display_string "  00050"%string 3;
     watch_clear_indicator WATCH_INDICATOR_LAP]
  /\ calls_of
       (timer_face_loop 32 (event EVENT_ACTIVATE) (at_time 0)
          Examples.long_timer)
     = [watch_set_colon; watch_display_string " 230000"%string 3;
        watch_clear_indicator WATCH_INDICATOR_LAP]
  /\ calls_of
       (timer_face_loop 32 (event EVENT_ACTIVATE) (at_time 0)
          Examples.timer_in_settings)
     = [watch_clear_colon; watch_display_string " CLEARn"%string 3;
        watch_clear_indicator WATCH_INDICATOR_LAP]
  /\ calls_of
       (timer_face_loop 32
          {| event_type := EVENT_ACTIVATE; subsecond := 1 |} (at_time 0)
          MoreExamples.timer_setting_hours)
     = [watch_set_colon; watch_display_string "   0100"%string 3;
        watch_clear_indicator WATCH_INDICATOR_LAP]
  /\ countdown_text 3 (23 * 3600 + 59 * 60 + 7) = "3235907"%string.
Proof. repeat split; vm_compute; reflexivity. Qed.

End TimerMore.
